(** * Placement of students onto class rosters

    A shallow embedding of the allocation code of [sheets/sheets.py]
    ([StudentRegistrationSheet.get_students_parents],
    [StudentRegistrationSheet.place_student],
    [ClassRosterSheet.write_placements]) together with the parts of
    [sheets/people.py] and [sheets/_class.py] it relies on, followed by the
    properties of the allocation pass.

    Conventions of the embedding:
    - a Python value stored in a sheet cell is a [value] ([None], a [str] or
      an [int]); a spreadsheet is a list of rows, a row a list of cells;
    - a character is a code point below 256, so a Python [str] is a [string];
    - a raised exception is the [Raise] case of [result]; the first exception
      aborts the computation, as it does in the source where none of the
      modelled exceptions is caught unless stated;
    - a [dict] whose iteration order is observed ([students], [parents]) is an
      association list in insertion order, a [dict] that is only indexed
      ([sheet_data], [offset_dict], [classes]) is a [gmap];
    - [uuid4] is an oracle [uuid : nat -> string] read at a counter that every
      construction of a [Person] advances;
    - sending an e-mail and writing a row to the remote sheet are recorded as
      events. *)

From Stdlib Require Import String Ascii ZArith List Bool Lia.
From stdpp Require Import base option list gmap strings.
Import ListNotations.

Local Open Scope string_scope.
Local Open Scope list_scope.

(** ** Exceptions *)

Inductive exn : Type :=
| KeyError
| ValueError
| TypeError
| IndexError
| AttributeError
| ClassFullException.

Inductive result (A : Type) : Type :=
| Ok (a : A)
| Raise (e : exn).

Arguments Ok {A} a.
Arguments Raise {A} e.

Definition rbind {A B : Type} (c : result A) (k : A -> result B) : result B :=
  match c with
  | Ok a => k a
  | Raise e => Raise e
  end.

Declare Scope result_scope.
Delimit Scope result_scope with result.
Notation "'let*' x ':=' c 'in' k" :=
  (rbind c (fun x => k))
  (at level 10, x pattern, c at level 100, k at level 200) : result_scope.
Local Open Scope result_scope.

(** [fold_left] in the exception monad: a [for] loop whose body may raise. *)
Fixpoint foldM {A S : Type} (body : S -> A -> result S) (l : list A) (s : S)
  : result S :=
  match l with
  | [] => Ok s
  | x :: l' => let* s' := body s x in foldM body l' s'
  end.

(** ** Python strings *)

Definition code_of (c : ascii) : N := N_of_ascii c.

(** [str.isspace] on one code point below 256. *)
Definition isspace (c : ascii) : bool :=
  let n := code_of c in
  ((9 <=? n) && (n <=? 13))%N || ((28 <=? n) && (n <=? 32))%N
  || (n =? 133)%N || (n =? 160)%N.

Fixpoint lstrip (s : string) : string :=
  match s with
  | EmptyString => EmptyString
  | String c s' => if isspace c then lstrip s' else s
  end.

Fixpoint rstrip (s : string) : string :=
  match s with
  | EmptyString => EmptyString
  | String c s' =>
      match rstrip s' with
      | EmptyString => if isspace c then EmptyString else String c EmptyString
      | r => String c r
      end
  end.

(** [s.strip()] *)
Definition strip (s : string) : string := rstrip (lstrip s).

(** [str.lower] on one code point below 256. *)
Definition lower_char (c : ascii) : ascii :=
  let n := code_of c in
  if ((65 <=? n) && (n <=? 90))%N
     || ((192 <=? n) && (n <=? 222) && negb (n =? 215))%N
  then ascii_of_N (n + 32) else c.

Fixpoint lower (s : string) : string :=
  match s with
  | EmptyString => EmptyString
  | String c s' => String (lower_char c) (lower s')
  end.

(** [code[:4]] *)
Definition prefix4 (s : string) : string := substring 0 4 s.

(** Two codes are session-equivalent when [code[:4] == c[:4]]. *)
Definition session_equiv (code c : string) : bool :=
  String.eqb (prefix4 code) (prefix4 c).

Definition is_digit (c : ascii) : bool :=
  let n := code_of c in ((48 <=? n) && (n <=? 57))%N.

Definition digit_val (c : ascii) : Z := Z.of_N (code_of c) - 48.

(** The digits of an [int] literal: digits with single underscores between
    them. *)
Fixpoint parse_digits (s : string) (acc : Z) (after_digit : bool) : option Z :=
  match s with
  | EmptyString => if after_digit then Some acc else None
  | String c s' =>
      if is_digit c then parse_digits s' (10 * acc + digit_val c)%Z true
      else if Ascii.eqb c "_"%char
           then if after_digit then parse_digits s' acc false else None
           else None
  end.

(** The white space that [int] skips around a literal: the white space of C
    and, beyond ASCII, that of [str.isspace]; the separators 28 to 31, which
    [strip] removes, are not skipped. *)
Definition isspace_int (c : ascii) : bool :=
  let n := code_of c in
  ((9 <=? n) && (n <=? 13))%N || (n =? 32)%N || (n =? 133)%N || (n =? 160)%N.

Fixpoint lstrip_int (s : string) : string :=
  match s with
  | EmptyString => EmptyString
  | String c s' => if isspace_int c then lstrip_int s' else s
  end.

Fixpoint rstrip_int (s : string) : string :=
  match s with
  | EmptyString => EmptyString
  | String c s' =>
      match rstrip_int s' with
      | EmptyString => if isspace_int c then EmptyString else String c EmptyString
      | r => String c r
      end
  end.

(** [int(s)] for a [str]: surrounding whitespace, an optional sign, digits. *)
Definition int_of_string (s : string) : option Z :=
  match rstrip_int (lstrip_int s) with
  | String "-"%char d => Z.opp <$> parse_digits d 0%Z false
  | String "+"%char d => parse_digits d 0%Z false
  | d => parse_digits d 0%Z false
  end.

(** ** Cells, rows and sheets *)

Inductive value : Type :=
| VNone
| VStr (s : string)
| VInt (z : Z).

#[export] Instance value_eq_dec : EqDecision value.
Proof. solve_decision. Defined.

(** Python [==] on cells and on tuples or lists of cells. *)
Definition py_eq {A : Type} `{EqDecision A} (a b : A) : bool :=
  bool_decide (a = b).

Definition is_none (v : value) : bool :=
  match v with VNone => true | _ => false end.

(** [int(v)] *)
Definition py_int (v : value) : result Z :=
  match v with
  | VNone => Raise TypeError
  | VInt z => Ok z
  | VStr s =>
      match int_of_string s with
      | Some z => Ok z
      | None => Raise ValueError
      end
  end.

(** [v.strip()] where [v] is a cell. *)
Definition py_strip (v : value) : result string :=
  match v with
  | VStr s => Ok (strip s)
  | _ => Raise AttributeError
  end.

Definition row : Type := list value.
Definition sheet : Type := list row.

(** [Sheet.get_column]: [None] when every row is too short, which includes
    the sheet without rows. *)
Definition get_column (spreadsheet : sheet) (index : nat) : option (list value) :=
  let result := map (fun r : row => default VNone (r !! index)) spreadsheet in
  if forallb is_none result then None else Some result.

(** [Sheet.get_row]: the [IndexError] is caught and [None] returned. *)
Definition get_row (spreadsheet : sheet) (index : nat) : option row :=
  spreadsheet !! index.

(** [l.index(x)] *)
Fixpoint list_index (x : value) (l : list value) : option nat :=
  match l with
  | [] => None
  | y :: l' => if py_eq y x then Some 0 else S <$> list_index x l'
  end.

(** [l[1:3]] *)
Definition slice_1_3 {A : Type} (l : list A) : list A := take 2 (drop 1 l).

(** [zip(a, b, c, d)]: stops at the shortest. *)
Fixpoint zip4 {A : Type} (a b c d : list A) : list (A * A * A * A) :=
  match a, b, c, d with
  | x :: a', y :: b', z :: c', w :: d' => (x, y, z, w) :: zip4 a' b' c' d'
  | _, _, _, _ => []
  end.

(** [list(zip(s.get_column(i), s.get_column(j), s.get_column(k),
    s.get_column(l)))]: [zip] raises [TypeError] on a [None] argument. *)
Definition zip_columns (s : sheet) (i j k l : nat)
  : result (list (value * value * value * value)) :=
  match get_column s i, get_column s j, get_column s k, get_column s l with
  | Some a, Some b, Some c, Some d => Ok (zip4 a b c d)
  | _, _, _, _ => Raise TypeError
  end.

(** ** People ([sheets/people.py]) *)

Record Person : Type := mkPerson {
  p_first : string;
  p_last : string;
  p_full_name : string;
  p_email : option string;
  p_id : value
}.

(** [Person.__init__]; [uuid n] is [str(uuid4())] at the [n]-th draw and [n]
    the number of identifiers drawn so far. The names are stripped before the
    identifier is drawn, so a [None] name raises without a draw. *)
Definition new_Person (uuid : nat -> string) (first last email : option string)
    (n : nat) : result (Person * nat) :=
  match first, last with
  | Some f, Some l =>
      Ok ({| p_first := strip f;
             p_last := strip l;
             p_full_name := strip f ++ " " ++ strip l;
             p_email := (fun e => lower (strip e)) <$> email;
             p_id := VStr (uuid n) |}, S n)
  | _, _ => Raise AttributeError
  end.

Record Student : Type := mkStudent {
  s_person : Person;
  s_note : option string;
  s_parents : list value;
  s_classes : list string
}.

Record Parent : Type := mkParent {
  pa_person : Person;
  pa_children : list value
}.

Definition MAX_ENROLLMENTS : nat := 3.

(** [Student.set_parents] *)
Definition set_parents (s : Student) (parents : list value) : result Student :=
  if (2 <? length parents)%nat then Raise ValueError
  else Ok {| s_person := s_person s; s_note := s_note s;
             s_parents := parents; s_classes := s_classes s |}.

(** [Student.set_classes] *)
Definition set_classes (s : Student) (classes : list string) : result Student :=
  if (MAX_ENROLLMENTS <? length classes)%nat then Raise ValueError
  else Ok {| s_person := s_person s; s_note := s_note s;
             s_parents := s_parents s; s_classes := classes |}.

(** [Student.__init__] *)
Definition new_Student (uuid : nat -> string) (first last email note : option string)
    (parents : list value) (classes : list string) (n : nat)
  : result (Student * nat) :=
  let* (p, n') := new_Person uuid first last email n in
  let s0 := {| s_person := p; s_note := note; s_parents := []; s_classes := [] |} in
  let* s1 := set_parents s0 parents in
  let* s2 := set_classes s1 classes in
  Ok (s2, n').

(** [Parent.__init__] *)
Definition new_Parent (uuid : nat -> string) (first last email : option string)
    (children : list value) (n : nat) : result (Parent * nat) :=
  let* (p, n') := new_Person uuid first last email n in
  Ok ({| pa_person := p; pa_children := children |}, n').

(** [student.id = v] *)
Definition with_id (s : Student) (v : value) : Student :=
  {| s_person := {| p_first := p_first (s_person s);
                    p_last := p_last (s_person s);
                    p_full_name := p_full_name (s_person s);
                    p_email := p_email (s_person s);
                    p_id := v |};
     s_note := s_note s; s_parents := s_parents s; s_classes := s_classes s |}.

(** [student.classes.append(code)]: the list is extended in place, without
    going through [set_classes]. *)
Definition classes_append (s : Student) (code : string) : Student :=
  {| s_person := s_person s; s_note := s_note s; s_parents := s_parents s;
     s_classes := s_classes s ++ [code] |}.

(** [student.parents.append(v)] *)
Definition parents_append (s : Student) (v : value) : Student :=
  {| s_person := s_person s; s_note := s_note s;
     s_parents := s_parents s ++ [v]; s_classes := s_classes s |}.

(** ** Form responses ([FormResponse]) *)

Record FormResponse : Type := mkFormResponse {
  student_first : string;
  student_last : string;
  parent1_first : string;
  parent1_last : string;
  parent1_email : string;
  choices : list string;
  student_email : option string;
  student_note : option string;
  parent2_first : option string;
  parent2_last : option string;
  parent2_email : option string
}.

(** [FormResponse.get_student] *)
Definition get_student (uuid : nat -> string) (r : FormResponse) (n : nat)
  : result (Student * list string * nat) :=
  let* (s, n') := new_Student uuid (Some (student_first r)) (Some (student_last r))
                     (student_email r) (student_note r) [] [] n in
  Ok (s, choices r, n').

(** [FormResponse.get_parent1] *)
Definition get_parent1 (uuid : nat -> string) (r : FormResponse)
    (children : list value) (n : nat) : result (Parent * nat) :=
  new_Parent uuid (Some (parent1_first r)) (Some (parent1_last r))
    (Some (parent1_email r)) children n.

(** [FormResponse.get_parent2] *)
Definition get_parent2 (uuid : nat -> string) (r : FormResponse)
    (children : list value) (n : nat) : result (Parent * nat) :=
  new_Parent uuid (parent2_first r) (parent2_last r) (parent2_email r) children n.

(** [row[k].strip()] *)
Definition cell_strip (r : row) (k : nat) : result string :=
  match r !! k with
  | None => Raise IndexError
  | Some v => py_strip v
  end.

(** [[code.strip() for code in row[25:27] if code.strip() != ""]] *)
Fixpoint strip_codes (cells : list value) : result (list string) :=
  match cells with
  | [] => Ok []
  | v :: rest =>
      let* c := py_strip v in
      let* cs := strip_codes rest in
      Ok (if String.eqb c "" then cs else c :: cs)
  end.

(** The body of the loop of [get_form_responses] on a row that is not empty. *)
Definition form_response_of_row (r : row) : result FormResponse :=
  let* sf := cell_strip r 3 in
  let* sl := cell_strip r 4 in
  let* p1f := cell_strip r 6 in
  let* p1l := cell_strip r 7 in
  let* p1e := cell_strip r 8 in
  let* cs := strip_codes (take 2 (drop 25 r)) in
  let* se := cell_strip r 5 in
  let* sn := cell_strip r 23 in
  let* p2f := cell_strip r 9 in
  let* p2l := cell_strip r 10 in
  let* p2e := cell_strip r 11 in
  Ok {| student_first := sf; student_last := sl;
        parent1_first := p1f; parent1_last := p1l; parent1_email := p1e;
        choices := cs; student_email := Some se; student_note := Some sn;
        parent2_first := Some p2f; parent2_last := Some p2l;
        parent2_email := Some p2e |}.

(** [StudentRegistrationSheet.get_form_responses] *)
Definition get_form_responses (spreadsheet : sheet) : result (list FormResponse) :=
  foldM (fun (responses : list FormResponse) (r : row) =>
           match r with
           | [] => Ok responses
           | _ :: _ =>
               let* f := form_response_of_row r in Ok (responses ++ [f])
           end)
        (drop 1 spreadsheet) [].

(** ** The allocation engine ([StudentRegistrationSheet.place_student]) *)

(** [stud_info]: student first and last name, first parent's first and last
    name. *)
Definition stud_info_t : Type := string * string * string * string.

(** The test of the search loop at one roster row: the row carries the
    student's first and last name, and the row that its parent identifier
    selects in the parent sheet carries the first parent's names. *)
Definition corroborated (stud_info : stud_info_t) (parent_sheet : sheet)
    (rn : value * value * value * value) : result bool :=
  let '(sf, sl, pf, pl) := stud_info in
  let '(uid, rfirst, rlast, rparent) := rn in
  if py_eq [VStr sf; VStr sl] [rfirst; rlast] then
    match get_column parent_sheet 0 with
    | None => Raise AttributeError
    | Some col0 =>
        match list_index rparent col0 with
        | None => Raise ValueError
        | Some index =>
            match get_row parent_sheet index with
            | None => Raise TypeError
            | Some prow => Ok (py_eq [VStr pf; VStr pl] (slice_1_3 prow))
            end
        end
    end
  else Ok false.

(** The body of the search loop: nothing is done once [found] is set;
    otherwise a corroborated row gives the student its identifier and sets
    [found]. *)
Definition scan_row (stud_info : stud_info_t) (parent_sheet : sheet)
    (st : bool * value) (rn : value * value * value * value)
  : result (bool * value) :=
  if fst st then Ok st
  else
    let* m := corroborated stud_info parent_sheet rn in
    if m then Ok (true, fst (fst (fst rn))) else Ok st.

(** [for i in range(1, len(roster_names))]: the header row is not searched. *)
Definition scan_roster (stud_info : stud_info_t) (parent_sheet : sheet)
    (roster_names : list (value * value * value * value)) (st : bool * value)
  : result (bool * value) :=
  foldM (scan_row stud_info parent_sheet) (drop 1 roster_names) st.

(** [int(main_sheet.get_column(8)[main_sheet.get_column(0).index(code)])] *)
Definition class_cap_of (main_sheet : sheet) (code : string) : result Z :=
  match get_column main_sheet 0 with
  | None => Raise AttributeError
  | Some col0 =>
      match list_index (VStr code) col0 with
      | None => Raise ValueError
      | Some i =>
          match get_column main_sheet 8 with
          | None => Raise TypeError
          | Some col8 =>
              match col8 !! i with
              | None => Raise IndexError
              | Some v => py_int v
              end
          end
      end
  end.

(** The variables [place_student] updates while it walks the choices. *)
Record place_state : Type := mkPlace {
  ps_student : Student;
  ps_offsets : gmap string Z;
  ps_unaccepted : list string;
  ps_invalid : list string;
  ps_found : bool
}.

(** [len(roster_names) - 1 + offset_dict[code]] *)
Definition occupancy (roster_names : list (value * value * value * value))
    (offset : Z) : Z :=
  (Z.of_nat (length roster_names) - 1 + offset)%Z.

(** The body of [for code in choices]. *)
Definition place_choice (stud_info : stud_info_t) (sheet_data : gmap string sheet)
    (parent_sheet main_sheet : sheet) (st : place_state) (code : string)
  : result place_state :=
  if String.eqb (strip code) "" then Ok st
  else if existsb (session_equiv code) (s_classes (ps_student st)) then Ok st
  else
    match sheet_data !! code with
    | None =>
        Ok {| ps_student := ps_student st; ps_offsets := ps_offsets st;
              ps_unaccepted := ps_unaccepted st;
              ps_invalid := ps_invalid st ++ [code];
              ps_found := ps_found st |}
    | Some roster =>
        let* roster_names := zip_columns roster 1 2 3 6 in
        let* (found, sid) :=
          scan_roster stud_info parent_sheet roster_names
            (ps_found st, p_id (s_person (ps_student st))) in
        let student := with_id (ps_student st) sid in
        let* class_cap := class_cap_of main_sheet code in
        match ps_offsets st !! code with
        | None => Raise KeyError
        | Some offset =>
            if (occupancy roster_names offset <? class_cap)%Z && negb found then
              Ok {| ps_student := classes_append student code;
                    ps_offsets := <[code := (offset + 1)%Z]> (ps_offsets st);
                    ps_unaccepted := ps_unaccepted st;
                    ps_invalid := ps_invalid st;
                    ps_found := found |}
            else if (class_cap <=? occupancy roster_names offset)%Z && negb found then
              Ok {| ps_student := student;
                    ps_offsets := ps_offsets st;
                    ps_unaccepted := ps_unaccepted st ++ [code];
                    ps_invalid := ps_invalid st;
                    ps_found := found |}
            else if found then
              Ok {| ps_student := classes_append student code;
                    ps_offsets := ps_offsets st;
                    ps_unaccepted := ps_unaccepted st;
                    ps_invalid := ps_invalid st;
                    ps_found := found |}
            else
              Ok {| ps_student := student; ps_offsets := ps_offsets st;
                    ps_unaccepted := ps_unaccepted st;
                    ps_invalid := ps_invalid st; ps_found := found |}
        end
    end.

(** The state in which [place_student] enters its loop. *)
Definition place_init (student : Student) (offset_dict : gmap string Z)
  : place_state :=
  {| ps_student := student; ps_offsets := offset_dict;
     ps_unaccepted := []; ps_invalid := []; ps_found := false |}.

(** [place_student]: the master sheet is [sheet_data["Classes"]]; the result
    carries the student, [unaccepted], [invalid] and the updated
    [offset_dict]. *)
Definition place_student (student : Student) (choices : list string)
    (stud_info : stud_info_t) (sheet_data : gmap string sheet)
    (parent_sheet : sheet) (offset_dict : gmap string Z) : result place_state :=
  match sheet_data !! "Classes" with
  | None => Raise KeyError
  | Some main_sheet =>
      foldM (place_choice stud_info sheet_data parent_sheet main_sheet)
        choices (place_init student offset_dict)
  end.

(** ** The registration pass ([StudentRegistrationSheet.get_students_parents]) *)

(** A [dict] in insertion order. Assigning to a key that is present replaces
    the value where the key stands. *)
Definition dict (V : Type) : Type := list (value * V).

Fixpoint dict_set {V : Type} (k : value) (v : V) (d : dict V) : dict V :=
  match d with
  | [] => [(k, v)]
  | (k', v') :: d' =>
      if py_eq k' k then (k', v) :: d' else (k', v') :: dict_set k v d'
  end.

Fixpoint dict_get {V : Type} (k : value) (d : dict V) : option V :=
  match d with
  | [] => None
  | (k', v') :: d' => if py_eq k' k then Some v' else dict_get k d'
  end.

Definition opt_value (o : option string) : value :=
  match o with
  | Some s => VStr s
  | None => VNone
  end.

(** An argument that [Person.__init__] receives as [email]. *)
Definition email_arg (v : value) : result (option string) :=
  match v with
  | VNone => Ok None
  | VStr s => Ok (Some s)
  | VInt _ => Raise AttributeError
  end.

(** [p.id = v] on a parent. *)
Definition parent_with_id (p : Parent) (v : value) : Parent :=
  {| pa_person := {| p_first := p_first (pa_person p);
                     p_last := p_last (pa_person p);
                     p_full_name := p_full_name (pa_person p);
                     p_email := p_email (pa_person p);
                     p_id := v |};
     pa_children := pa_children p |}.

(** [parent.children.append(v)] *)
Definition children_append (p : Parent) (v : value) : Parent :=
  {| pa_person := pa_person p; pa_children := pa_children p ++ [v] |}.

(** One row of the parent sheet, in the loop that seeds [parents]. *)
Definition load_parent_row (uuid : nat -> string) (st : dict Parent * nat)
    (parent : row) : result (dict Parent * nat) :=
  let '(parents, n) := st in
  match parent with
  | k :: f :: l :: rest =>
      let e := match rest with [] => VStr "" | e' :: _ => e' end in
      let* f' := py_strip f in
      let* l' := py_strip l in
      let* e' := email_arg e in
      let* (p, n') := new_Parent uuid (Some f') (Some l') e' [] n in
      Ok (dict_set k (parent_with_id p k) parents, n')
  | _ => Ok st
  end.

(** [for i in range(1, len(parent_sheet.get_column(0)))] *)
Definition load_parents (uuid : nat -> string) (parent_sheet : sheet)
  : result (dict Parent * nat) :=
  match get_column parent_sheet 0 with
  | None => Raise TypeError
  | Some _ => foldM (load_parent_row uuid) (drop 1 parent_sheet) ([], 0)
  end.

(** [(parent.first, parent.last, parent.email)] *)
Definition parent_key (p : Parent) : value * value * value :=
  (VStr (p_first (pa_person p)), VStr (p_last (pa_person p)),
   opt_value (p_email (pa_person p))).

(** [for parent in parents.values(): if key == ne: append; break]: the first
    parent with the key [ne] receives the child; the result is the updated
    [parents] and that parent's identifier, [None] when the loop ends
    without [break]. *)
Fixpoint adopt (ne : value * value * value) (child : value) (parents : dict Parent)
  : option (dict Parent * value) :=
  match parents with
  | [] => None
  | (k, p) :: rest =>
      if py_eq (parent_key p) ne
      then Some ((k, children_append p child) :: rest, p_id (pa_person p))
      else
        match adopt ne child rest with
        | Some (rest', pid) => Some ((k, p) :: rest', pid)
        | None => None
        end
  end.

(** The [for ... else] that resolves one parent of a form response: reuse the
    parent with key [ne], or register the parent [make] builds. *)
Definition resolve_parent (ne : value * value * value) (child : value)
    (make : list value -> nat -> result (Parent * nat))
    (parents : dict Parent) (n : nat) : result (dict Parent * value * nat) :=
  match adopt ne child parents with
  | Some (parents', pid) => Ok (parents', pid, n)
  | None =>
      let* (p, n') := make [child] n in
      Ok (dict_set (p_id (pa_person p)) p parents, p_id (pa_person p), n')
  end.

Inductive kind : Type := InvalidCode | ClassFull | Welcome.

(** What leaves the process. *)
Inductive event : Type :=
| Send (k : kind) (recipients : list value) (student : string) (code : string)
| WriteRow (sheet_name : string) (data : row) (index : nat)
| RunBatchUpdate (requests : list (string * list row)).

Definition log_t : Type := list (value * value * value * value).

(** The inner [for i in range(1, length)] of a notification: a logged row with
    this student name and code, one of whose two addresses is among the
    recipients. Row 0 is the header. *)
Definition logged (log : log_t) (recipients : list value) (full_name code : string)
  : bool :=
  existsb (fun entry : value * value * value * value =>
             let '(n, e1, e2, c) := entry in
             py_eq (VStr full_name) n && py_eq (VStr code) c
             && (existsb (py_eq e1) recipients || existsb (py_eq e2) recipients))
          (drop 1 log).

(** The body of [for code in invalid] (and of [for code in unaccepted]) for
    a response whose parents' addresses are [p1_email] and [p2_email]:
    [recipients] is the list of the two. [length] is [len] of the log
    throughout, since both grow together. *)
Definition notify_once (k : kind) (sheet_name : string) (full_name : string)
    (p1_email p2_email : value) (st : log_t * list event) (code : string)
  : log_t * list event :=
  let '(log, events) := st in
  let recipients := [p1_email; p2_email] in
  if logged log recipients full_name code then st
  else
    let write_info := [VStr full_name; p1_email; p2_email; VStr code] in
    (log ++ [(VStr full_name, p1_email, p2_email, VStr code)],
     events ++ [Send k recipients full_name code;
                WriteRow sheet_name write_info (length log)]).

Record pass_state : Type := mkPass {
  gs_students : dict Student;
  gs_parents : dict Parent;
  gs_info_list : list stud_info_t;
  gs_invalid_info : log_t;
  gs_full_info : log_t;
  gs_offsets : gmap string Z;
  gs_uuids : nat;
  gs_events : list event
}.

(** [ne] for the first parent:
    [(r.parent1_first, r.parent1_last, r.parent1_email.lower())]. *)
Definition parent1_key (r : FormResponse) : value * value * value :=
  (VStr (parent1_first r), VStr (parent1_last r), VStr (lower (parent1_email r))).

(** The block under [if len(student.classes) > 0]. The student object stored
    in [students] is the one whose [parents] list is extended afterwards, so
    the entry is written with the final object. *)
Definition register (uuid : nat -> string) (r : FormResponse) (student : Student)
    (students : dict Student) (parents : dict Parent) (n : nat)
  : result (dict Student * dict Parent * nat) :=
  let sid := p_id (s_person student) in
  let* (parents1, pid1, n1) :=
    resolve_parent (parent1_key r) sid (get_parent1 uuid r) parents n in
  let student1 := parents_append student pid1 in
  match parent2_first r with
  | None => Raise AttributeError
  | Some f2 =>
      if negb (String.eqb (strip f2) "") then
        match parent2_email r with
        | None => Raise AttributeError
        | Some e2 =>
            let ne2 := (VStr f2, opt_value (parent2_last r), VStr (lower e2)) in
            let* (parents2, pid2, n2) :=
              resolve_parent ne2 sid (get_parent2 uuid r) parents1 n1 in
            let student2 := parents_append student1 pid2 in
            Ok (dict_set sid student2 students, parents2, n2)
        end
      else Ok (dict_set sid student1 students, parents1, n1)
  end.

(** The body of [for r in self.responses]. *)
Definition process_response (uuid : nat -> string) (sheet_data : gmap string sheet)
    (parent_sheet : sheet) (st : pass_state) (r : FormResponse)
  : result pass_state :=
  let stud_info :=
    (student_first r, student_last r, parent1_first r, parent1_last r) in
  if existsb (py_eq stud_info) (gs_info_list st) then Ok st
  else
    let* (student0, choices, n0) := get_student uuid r (gs_uuids st) in
    let* ps :=
      place_student student0 choices stud_info sheet_data parent_sheet
        (gs_offsets st) in
    let student := ps_student ps in
    let* (students, parents, n1) :=
      if (0 <? length (s_classes student))%nat
      then register uuid r student (gs_students st) (gs_parents st) n0
      else Ok (gs_students st, gs_parents st, n0) in
    let p1 := VStr (parent1_email r) in
    let p2 := opt_value (parent2_email r) in
    let full_name := p_full_name (s_person student) in
    let '(invalid_info, ev1) :=
      fold_left (notify_once InvalidCode "Invalid Code Emails" full_name p1 p2)
        (ps_invalid ps) (gs_invalid_info st, gs_events st) in
    let '(full_info, ev2) :=
      fold_left (notify_once ClassFull "Full Class Emails" full_name p1 p2)
        (ps_unaccepted ps) (gs_full_info st, ev1) in
    Ok {| gs_students := students; gs_parents := parents;
          gs_info_list := gs_info_list st ++ [stud_info];
          gs_invalid_info := invalid_info; gs_full_info := full_info;
          gs_offsets := ps_offsets ps; gs_uuids := n1; gs_events := ev2 |}.

(** [get_students_parents]: the two notification logs, the rosters and the
    parent sheet are the sheets it reads at its start. *)
Definition get_students_parents (uuid : nat -> string)
    (responses : list FormResponse) (invalid_sheet full_class_sheet : sheet)
    (sheet_data : gmap string sheet) (parent_sheet : sheet) : result pass_state :=
  let* invalid_info := zip_columns invalid_sheet 0 1 2 3 in
  let* full_info := zip_columns full_class_sheet 0 1 2 3 in
  let* (parents, n) := load_parents uuid parent_sheet in
  foldM (process_response uuid sheet_data parent_sheet) responses
    {| gs_students := []; gs_parents := parents; gs_info_list := [];
       gs_invalid_info := invalid_info; gs_full_info := full_info;
       gs_offsets := (fun _ : sheet => 0%Z) <$> sheet_data;
       gs_uuids := n; gs_events := [] |}.

(** ** Classes ([sheets/_class.py]) and the rosters' writer
       ([ClassRosterSheet.write_placements]) *)

Record Class : Type := mkClass {
  c_code : string;
  CLASS_CAP : Z;
  c_students : list value
}.

(** [Class.set_students] *)
Definition set_students (c : Class) (students : list value) : result Class :=
  if (CLASS_CAP c <? Z.of_nat (length students))%Z then Raise ClassFullException
  else Ok {| c_code := c_code c; CLASS_CAP := CLASS_CAP c; c_students := students |}.

(** [Class.__init__], for the capacity and the students: a capacity of [-1]
    stands for the default of 15. *)
Definition new_Class (code : string) (students : list value) (class_cap : Z)
  : result Class :=
  let cap := if (class_cap =? -1)%Z then 15%Z else class_cap in
  set_students {| c_code := code; CLASS_CAP := cap; c_students := [] |} students.

(** [classes[code].students.append(v)]: in place, without [set_students]. *)
Definition students_append (c : Class) (v : value) : Class :=
  {| c_code := c_code c; CLASS_CAP := CLASS_CAP c;
     c_students := c_students c ++ [v] |}.

(** The class that [ClassRosterSheet.get_classes] builds for the master-sheet
    row of [code] with capacity cell [cap]:
    [Class(code, ..., [], int(row[8]))] followed by the loop that appends the
    identifier column of the roster below its header. The decoding of the code
    and the teachers' lists of that method are not part of this model. *)
Definition class_of_roster (code : string) (cap : value) (roster : sheet)
  : result Class :=
  let* class_cap := py_int cap in
  let* c := new_Class code [] class_cap in
  match get_column roster 1 with
  | None => Raise TypeError
  | Some uuids => Ok (fold_left students_append (drop 1 uuids) c)
  end.

(** [SheetLike.simulate_write_row] *)
Definition simulate_write_row (spreadsheet : sheet) (data : row) (index : nat)
  : result sheet :=
  match spreadsheet with
  | [] => Raise IndexError
  | header :: _ =>
      let lst := map (fun i : nat => default VNone (data !! i))
                     (seq 0 (length header)) in
      if (index <? length spreadsheet)%nat
      then Ok (<[index := lst]> spreadsheet)
      else Ok (spreadsheet ++ replicate (index - length spreadsheet) [] ++ [lst])
  end.

(** [Sheet.prepare_batch_write_row]: a request holds the string [code] as its
    sheet identifier, which never equals [int(code)], so the loop ends without
    [break] and a new request is added; [int(code)] is evaluated once per
    request already prepared. A request is kept as the code and its rows of
    cells; the payload itself holds [str(column)] for each of these cells. *)
Definition prepare_batch_write_row (requests : list (string * list row))
    (writing_data : row) (code : string) : result (list (string * list row)) :=
  match requests with
  | [] => Ok [(code, [writing_data])]
  | _ :: _ =>
      let* _ := py_int (VStr code) in
      Ok (requests ++ [(code, [writing_data])])
  end.

(** The first [i] in [range(1, len(uuids))] with [uuids[i] is None]. *)
Fixpoint first_blank (uuids : list value) (i : nat) : option nat :=
  match uuids with
  | [] => None
  | v :: rest => if is_none v then Some i else first_blank rest (S i)
  end.

Record write_state : Type := mkWrite {
  ws_classes : gmap string Class;
  ws_rosters : gmap string sheet;
  ws_requests : list (string * list row);
  ws_events : list event
}.

(** [[self.parents[p_id].email for p_id in student.parents]] *)
Fixpoint parent_emails (parents : dict Parent) (ids : list value)
  : result (list value) :=
  match ids with
  | [] => Ok []
  | i :: ids' =>
      match dict_get i parents with
      | None => Raise KeyError
      | Some p =>
          let* rest := parent_emails parents ids' in
          Ok (opt_value (p_email (pa_person p)) :: rest)
      end
  end.

(** The body of [for code in student.classes]. *)
Definition write_placement (parents : dict Parent) (student : Student)
    (st : write_state) (code : string) : result write_state :=
  let sid := p_id (s_person student) in
  match ws_classes st !! code with
  | None => Raise KeyError
  | Some cls =>
      if existsb (py_eq sid) (c_students cls) then Ok st
      else
        match ws_rosters st !! code with
        | None => Raise KeyError
        | Some roster =>
            match s_parents student with
            | [] => Raise IndexError
            | parent0 :: _ =>
                let tail_info :=
                  [sid; VStr (p_first (s_person student));
                   VStr (p_last (s_person student));
                   opt_value (p_email (s_person student));
                   opt_value (s_note student); parent0]
                  ++ match s_parents student with
                     | [_; parent1] => [parent1]
                     | _ => []
                     end in
                let cls' := students_append cls sid in
                match get_column roster 1 with
                | None => Raise TypeError
                | Some uuids =>
                    let* (roster', requests, events) :=
                      match first_blank (drop 1 uuids) 1 with
                      | Some i =>
                          let stud_info := VInt (Z.of_nat i) :: tail_info in
                          let* roster' := simulate_write_row roster stud_info i in
                          Ok (roster', ws_requests st,
                              ws_events st ++ [WriteRow code stud_info i])
                      | None =>
                          let i := length (c_students cls') in
                          let stud_info := VInt (Z.of_nat i) :: tail_info in
                          let* roster' := simulate_write_row roster stud_info i in
                          let* requests :=
                            prepare_batch_write_row (ws_requests st) stud_info code in
                          Ok (roster', requests, ws_events st)
                      end in
                    let* recipients := parent_emails parents (s_parents student) in
                    Ok {| ws_classes := <[code := cls']> (ws_classes st);
                          ws_rosters := <[code := roster']> (ws_rosters st);
                          ws_requests := requests;
                          ws_events :=
                            events ++ [Send Welcome recipients
                                         (p_full_name (s_person student)) code] |}
                end
            end
        end
  end.

(** [write_placements]: [classes] is [self.classes], [sheet_data] the rosters
    it reads at its start. *)
Definition write_placements (students : dict Student) (parents : dict Parent)
    (classes : gmap string Class) (sheet_data : gmap string sheet)
  : result write_state :=
  let* st :=
    foldM (fun st (entry : value * Student) =>
             foldM (write_placement parents (snd entry))
                   (s_classes (snd entry)) st)
          students
          {| ws_classes := classes; ws_rosters := sheet_data;
             ws_requests := []; ws_events := [] |} in
  match ws_requests st with
  | [] => Ok st
  | _ :: _ =>
      Ok {| ws_classes := ws_classes st; ws_rosters := ws_rosters st;
            ws_requests := [];
            ws_events := ws_events st ++ [RunBatchUpdate (ws_requests st)] |}
  end.

(** [parent_info] in [ClassRosterSheet.write_parents]: the row written for a
    parent. *)
Definition parent_info (p : Parent) : row :=
  [p_id (pa_person p); VStr (p_first (pa_person p)); VStr (p_last (pa_person p));
   opt_value (p_email (pa_person p))].

(** [ClassRosterSheet.write_parents]: every parent whose identifier is not in
    the first column of the parent sheet is written below its last row. *)
Definition write_parents (parents : dict Parent) (parent_sheet : sheet)
  : result (list event) :=
  match get_column parent_sheet 0 with
  | None => Raise TypeError
  | Some uuids =>
      Ok (snd (fold_left
                 (fun (st : nat * list event) (e : value * Parent) =>
                    if existsb (py_eq (p_id (pa_person (snd e)))) uuids then st
                    else (S (fst st),
                          snd st ++ [WriteRow "Parents" (parent_info (snd e))
                                       (fst st)]))
                 parents (length uuids, [])))
  end.

(** ** Class codes ([cft/cft.py], [Class.__init__]) *)

(** [Codes.COURSES] *)
Definition COURSES : list (string * string) :=
  [("1", "Java"); ("2", "Python"); ("3", "Scratch"); ("4", "Web Development");
   ("5", "Machine Learning"); ("6", "JavaScript"); ("7", "C");
   ("8", "iOS App Development")].

(** [Codes.LEVELS] *)
Definition LEVELS : list (string * string) :=
  [("1", "Beginner"); ("2", "Intermediate"); ("3", "Advanced"); ("4", "Games")].

(** [Codes.DAYS] *)
Definition DAYS : list (string * string) :=
  [("1", "Mon & Wed"); ("2", "Tue & Thur"); ("3", "Wed & Sat");
   ("4", "Thur & Sun")].

(** [Codes.TIMES] *)
Definition TIMES : list (string * string) :=
  [("1", "12-1 PM Pacific Time"); ("2", "2-3 PM Pacific Time");
   ("3", "3-4 PM Pacific Time"); ("4", "4-5 PM Pacific Time");
   ("5", "5-6 PM Pacific Time"); ("6", "6-7 PM Pacific Time");
   ("7", "7-8 PM Pacific Time"); ("8", "8-9 PM Pacific Time");
   ("9", "9-10 PM Pacific Time")].

(** [code[i]]: the one-character string at [i]. *)
Definition char_at (code : string) (i : nat) : result string :=
  match String.get i code with
  | Some c => Ok (String c EmptyString)
  | None => Raise IndexError
  end.

(** [table[key]] for a table of [Codes]. *)
Fixpoint table_get (table : list (string * string)) (key : string) : result string :=
  match table with
  | [] => Raise KeyError
  | (k, v) :: rest => if String.eqb k key then Ok v else table_get rest key
  end.

(** What [Class.__init__] reads off the code. *)
Record ClassInfo : Type := mkClassInfo {
  ci_course : string;
  ci_level : string;
  ci_days : string;
  ci_time : string;
  ci_session : Z
}.

(** The decoding in [Class.__init__]: [Codes.COURSES[code[0]]] down to
    [int(code[4])]. *)
Definition class_info (code : string) : result ClassInfo :=
  let* k0 := char_at code 0 in
  let* course := table_get COURSES k0 in
  let* k1 := char_at code 1 in
  let* level := table_get LEVELS k1 in
  let* k2 := char_at code 2 in
  let* days := table_get DAYS k2 in
  let* k3 := char_at code 3 in
  let* time := table_get TIMES k3 in
  let* k4 := char_at code 4 in
  let* session := py_int (VStr k4) in
  Ok {| ci_course := course; ci_level := level; ci_days := days;
        ci_time := time; ci_session := session |}.

(** [Class.__init__] as a whole: the capacity, the decoding of the code, the
    teachers (at most 2) and the students; [location] plays no part. *)
Definition Class_init (code : string) (teachers students : list value)
    (class_cap : Z) : result (Class * ClassInfo * list value) :=
  let* info := class_info code in
  let* _ := if (2 <? length teachers)%nat then Raise ValueError else Ok tt in
  let* c := new_Class code students class_cap in
  Ok (c, info, teachers).

(** [Class.code_equals_ignore_session] on a class with code [self_code]:
    [str(code)[:4] == str(self.code)[:4]]. *)
Definition code_equals_ignore_session (self_code code : string) : bool :=
  String.eqb (prefix4 code) (prefix4 self_code).

(** ** Teachers ([Teacher], [ClassRosterSheet.get_teachers],
       [isNewTeacher], [getMatchingTeacher]) *)

Record Teacher : Type := mkTeacher {
  t_person : Person;
  t_phone : value;
  t_classes : list string
}.

Definition MAX_CLASSES : nat := 3.

(** [Teacher.__init__] *)
Definition new_Teacher (uuid : nat -> string) (first last email : option string)
    (phone : value) (classes : list string) (n : nat) : result (Teacher * nat) :=
  let* (p, n') := new_Person uuid first last email n in
  if (MAX_CLASSES <? length classes)%nat then Raise ValueError
  else Ok ({| t_person := p; t_phone := phone; t_classes := classes |}, n').

(** A cell passed where [Person.__init__] calls [.strip()] on it. *)
Definition str_arg (v : value) : result string :=
  match v with
  | VStr s => Ok s
  | _ => Raise AttributeError
  end.

(** [t.id = v] on a teacher. *)
Definition teacher_with_id (t : Teacher) (v : value) : Teacher :=
  {| t_person := {| p_first := p_first (t_person t);
                    p_last := p_last (t_person t);
                    p_full_name := p_full_name (t_person t);
                    p_email := p_email (t_person t);
                    p_id := v |};
     t_phone := t_phone t; t_classes := t_classes t |}.

(** The body of the loop of [get_teachers]: rows of fewer than 5 cells are
    passed over. *)
Definition load_teacher_row (uuid : nat -> string) (st : dict Teacher * nat)
    (rw : row) : result (dict Teacher * nat) :=
  let '(teachers, n) := st in
  match rw with
  | k :: f :: l :: e :: ph :: _ =>
      let* f' := str_arg f in
      let* l' := str_arg l in
      let* e' := email_arg e in
      let* (t, n') := new_Teacher uuid (Some f') (Some l') e' ph [] n in
      Ok (dict_set k (teacher_with_id t k) teachers, n')
  | _ => Ok st
  end.

(** [ClassRosterSheet.get_teachers] on the sheet "Teachers", the identifier
    counter starting at [n]. *)
Definition get_teachers (uuid : nat -> string) (teacher_list : sheet) (n : nat)
  : result (dict Teacher * nat) :=
  match get_column teacher_list 0 with
  | None => Raise TypeError
  | Some _ => foldM (load_teacher_row uuid) (drop 1 teacher_list) ([], n)
  end.

(** The test shared by [isNewTeacher] and [getMatchingTeacher]. *)
Definition teacher_matches (full_name email phone : string) (t : Teacher) : bool :=
  String.eqb (lower (p_full_name (t_person t))) (lower full_name)
  && py_eq (opt_value (p_email (t_person t))) (VStr email)
  && py_eq (t_phone t) (VStr phone).

(** [ClassRosterSheet.isNewTeacher] *)
Fixpoint isNewTeacher (teachers : dict Teacher) (full_name email phone : string)
  : bool :=
  match teachers with
  | [] => true
  | (_, t) :: rest =>
      if teacher_matches full_name email phone t then false
      else isNewTeacher rest full_name email phone
  end.

(** [ClassRosterSheet.getMatchingTeacher] *)
Fixpoint getMatchingTeacher (teachers : dict Teacher)
    (full_name email phone : string) : option Teacher :=
  match teachers with
  | [] => None
  | (_, t) :: rest =>
      if teacher_matches full_name email phone t then Some t
      else getMatchingTeacher rest full_name email phone
  end.

(** ** The keys of the fetched rosters ([SheetBatchGet.__init__]) *)

(** [SheetBatchGet.LARGE_RANGE] *)
Definition LARGE_RANGE : string := "A1:ZZ1000".

(** [c in chars] *)
Fixpoint char_in (c : ascii) (chars : string) : bool :=
  match chars with
  | EmptyString => false
  | String d rest => Ascii.eqb d c || char_in c rest
  end.

(** [s.rstrip(chars)]: the trailing characters that occur in [chars] are
    removed. *)
Fixpoint rstrip_chars (chars : string) (s : string) : string :=
  match s with
  | EmptyString => EmptyString
  | String c s' =>
      match rstrip_chars chars s' with
      | EmptyString =>
          if char_in c chars then EmptyString else String c EmptyString
      | r => String c r
      end
  end.

(** [code + "!" + SheetBatchGet.LARGE_RANGE]: the range fetched for a code. *)
Definition range_name (code : string) : string := code ++ "!" ++ LARGE_RANGE.

(** [name.rstrip(SheetBatchGet.LARGE_RANGE).rstrip("!")]: the key under which
    [sheet_data] holds the range [name]. *)
Definition sheet_key (name : string) : string :=
  rstrip_chars "!" (rstrip_chars LARGE_RANGE name).

(** [[code + "!" + SheetBatchGet.LARGE_RANGE for code in all_names]]: a cell
    that is not a string cannot be concatenated. *)
Fixpoint range_names (all_names : list value) : result (list string) :=
  match all_names with
  | [] => Ok []
  | VStr code :: rest =>
      let* names := range_names rest in Ok (range_name code :: names)
  | _ :: _ => Raise TypeError
  end.

(** The dictionary comprehension over [range(len(self.names))]: keys are
    assigned in order, a later range replacing an earlier one with the same
    key; [all_data[i]] is the sheet of the [i]-th range. *)
Fixpoint fill_sheet_data (names : list string) (all_data : list sheet)
    (acc : gmap string sheet) : result (gmap string sheet) :=
  match names, all_data with
  | [], _ => Ok acc
  | _ :: _, [] => Raise IndexError
  | name :: names', data :: all_data' =>
      fill_sheet_data names' all_data' (<[sheet_key name := data]> acc)
  end.

(** [sheet_data] as [SheetBatchGet.__init__] builds it when no [names] are
    given: the codes are column 0 of the master sheet [extra_data] below its
    header, [all_data] is what the batch read returns for their ranges, and
    ["Classes"] is set last. *)
Definition build_sheet_data (extra_data : sheet) (all_data : list sheet)
  : result (gmap string sheet) :=
  match get_column extra_data 0 with
  | None => Raise TypeError
  | Some col =>
      let* names := range_names (drop 1 col) in
      let* m := fill_sheet_data names all_data ∅ in
      Ok (<["Classes" := extra_data]> m)
  end.

(** ** Vocabulary of the properties *)

(** No two of the classes are session-equivalent. *)
Definition one_per_session_group (classes : list string) : Prop :=
  forall (i j : nat) (a b : string),
    classes !! i = Some a -> classes !! j = Some b ->
    session_equiv a b = true -> i = j.

(** The string is empty or starts with a character that is not white
    space. *)
Definition starts_clean (s : string) : Prop :=
  match s with
  | EmptyString => True
  | String c _ => isspace c = false
  end.

(** The batch offsets respect the capacities: a class whose offset has moved
    has at most as many roster rows plus offset as its capacity. *)
Definition within_capacity (sheet_data : gmap string sheet) (main_sheet : sheet)
    (offsets : gmap string Z) : Prop :=
  forall code roster rn cap off,
    sheet_data !! code = Some roster ->
    zip_columns roster 1 2 3 6 = Ok rn ->
    class_cap_of main_sheet code = Ok cap ->
    offsets !! code = Some off ->
    (off = 0 \/ occupancy rn off <= cap)%Z.



(** Every parent stands in the registry under its own identifier. *)
Definition keyed_by_id (parents : dict Parent) : Prop :=
  Forall (fun e : value * Parent => p_id (pa_person (snd e)) = fst e) parents.

(** The identifiers are keys of the parent registry. *)
Definition known_parents (parents : dict Parent) (ids : list value) : Prop :=
  Forall (fun i => is_Some (dict_get i parents)) ids.

(** The rows that [write_parents] writes, in closed form: one for every
    parent whose identifier is not in the column [uuids], numbered from
    [start]. *)
Definition parent_rows (parents : dict Parent) (uuids : list value) (start : nat)
  : list event :=
  imap (fun (i : nat) (e : value * Parent) =>
          WriteRow "Parents" (parent_info (snd e)) (start + i))
       (List.filter (fun e : value * Parent =>
                  negb (existsb (py_eq (p_id (pa_person (snd e)))) uuids))
               parents).

(** The form in which [Person.__init__] leaves the full name and the
    address. *)
Definition normal_person (p : Person) : Prop :=
  p_full_name p = (p_first p ++ " " ++ p_last p)%string
  /\ forall e, p_email p = Some e -> lower (strip e) = e.

(** The classes of [cl] are in [cl'] with the same capacity and the same
    students in front. *)
Definition seats_kept (cl cl' : gmap string Class) : Prop :=
  forall code cls,
    cl !! code = Some cls ->
    exists cls',
      cl' !! code = Some cls'
      /\ CLASS_CAP cls' = CLASS_CAP cls
      /\ exists more, c_students cls' = c_students cls ++ more.

(** The string has no space in it. *)
Fixpoint spaceless (s : string) : bool :=
  match s with
  | EmptyString => true
  | String c s' => negb (Ascii.eqb c " "%char) && spaceless s'
  end.

(** ** A small school, used to run the code on concrete sheets *)

Module Demo.

Definition uuid (n : nat) : string :=
  "fresh-" ++ String (ascii_of_nat (48 + n)) EmptyString.

Definition roster_header : row :=
  map VStr ["#"; "UUID"; "First Name"; "Last Name"; "Email"; "Note";
            "Parent 1 UUID"; "Parent 2 UUID"].

(** The master sheet: code in column 0, capacity in column 8. *)
Definition main_sheet : sheet :=
  [ map VStr ["Code"; "Course"; "Level"; "Days"; "Time"; "Teacher 1";
              "Teacher 2"; "Location"; "Capacity"];
    map VStr ["11111"; "Java"; "Beginner"; "Mon & Wed"; "12-1 PM"; "t1"; "";
              ""; "5"];
    map VStr ["21111"; "Python"; "Beginner"; "Mon & Wed"; "12-1 PM"; "t1"; "";
              ""; "1"];
    map VStr ["31111"; "Scratch"; "Beginner"; "Mon & Wed"; "12-1 PM"; "t1"; "";
              ""; "2"];
    map VStr ["31112"; "Scratch"; "Beginner"; "Mon & Wed"; "12-1 PM"; "t1"; "";
              ""; "5"];
    map VStr ["41111"; "Web Development"; "Beginner"; "Mon & Wed"; "12-1 PM";
              "t1"; ""; ""; "5"] ].

Definition roster_11111 : sheet :=
  [ roster_header; map VStr ["1"; "id-ann"; "Ann"; "Lee"; "ann@x.org"; ""; "p1"] ].

Definition roster_21111 : sheet :=
  [ roster_header; map VStr ["1"; "id-bob"; "Bob"; "Ray"; "bob@x.org"; ""; "p2"] ].

Definition roster_31111 : sheet :=
  [ roster_header; map VStr ["1"; "id-eve"; "Eve"; "Ray"; "eve@x.org"; ""; "p2"] ].

(** A second session of 31111, with room. *)
Definition roster_31112 : sheet := [ roster_header ].

Definition roster_41111 : sheet := [ roster_header ].

Definition sheet_data : gmap string sheet :=
  <["Classes" := main_sheet]>
    (<["11111" := roster_11111]>
       (<["21111" := roster_21111]>
          (<["31111" := roster_31111]>
             (<["31112" := roster_31112]> (<["41111" := roster_41111]> ∅))))).

Definition parent_sheet : sheet :=
  [ map VStr ["UUID"; "First Name"; "Last Name"; "Email"];
    map VStr ["p1"; "Pat"; "Lee"; "pat@x.org"];
    map VStr ["p2"; "Sam"; "Ray"; "sam@x.org"] ].

Definition log_sheet : sheet :=
  [ map VStr ["Student"; "Parent 1 Email"; "Parent 2 Email"; "Code"] ].

Definition offsets0 : gmap string Z := (fun _ : sheet => 0%Z) <$> sheet_data.

Definition response (sf sl pf pl pe : string) (cs : list string) : FormResponse :=
  {| student_first := sf; student_last := sl;
     parent1_first := pf; parent1_last := pl; parent1_email := pe;
     choices := cs; student_email := Some "kid@x.org"; student_note := Some "";
     parent2_first := Some ""; parent2_last := Some ""; parent2_email := Some "" |}.

(** Ann Lee, already seated in 11111, also asks for the full class 21111. *)
Definition ann : FormResponse :=
  response "Ann" "Lee" "Pat" "Lee" "pat@x.org" ["11111"; "21111"].

(** A new student whose first choice is full, whose second has one open seat
    and whose third has room. *)
Definition cy : FormResponse :=
  response "Cy" "Young" "Di" "Young" "di@x.org" ["21111"; "31111"; "41111"].


Definition stud_info_of (r : FormResponse) : stud_info_t :=
  (student_first r, student_last r, parent1_first r, parent1_last r).

(** [place_student] on the student of a response, with fresh offsets. *)
Definition place (r : FormResponse) (cs : list string) : result place_state :=
  let* (s, _, _) := get_student uuid r 0 in
  place_student s cs (stud_info_of r) sheet_data parent_sheet offsets0.

(** The rows of a roster as [place_student] zips them. *)
Definition names_of (roster : sheet) : list (value * value * value * value) :=
  match zip_columns roster 1 2 3 6 with
  | Ok rn => rn
  | Raise _ => []
  end.

(** Ann Lee after her first choice: found on the roster of 11111. *)
Definition ann_seated : place_state :=
  {| ps_student :=
       {| s_person := {| p_first := "Ann"; p_last := "Lee";
                         p_full_name := "Ann Lee"; p_email := Some "kid@x.org";
                         p_id := VStr "id-ann" |};
          s_note := Some ""; s_parents := []; s_classes := ["11111"] |};
     ps_offsets := offsets0; ps_unaccepted := []; ps_invalid := [];
     ps_found := true |}.

(** The student of [ann] as [get_student] builds it at the first draw. *)
Definition ann_student : Student :=
  {| s_person := {| p_first := "Ann"; p_last := "Lee";
                    p_full_name := "Ann Lee"; p_email := Some "kid@x.org";
                    p_id := VStr (uuid 0) |};
     s_note := Some ""; s_parents := []; s_classes := [] |}.

(** The student of [cy] as [get_student] builds it at the first draw. *)
Definition cy_student : Student :=
  {| s_person := {| p_first := "Cy"; p_last := "Young";
                    p_full_name := "Cy Young"; p_email := Some "kid@x.org";
                    p_id := VStr (uuid 0) |};
     s_note := Some ""; s_parents := []; s_classes := [] |}.

(** A student who holds three classes. *)
Definition full_student : result Student :=
  let* (s, _) := new_Student uuid (Some "Cy") (Some "Young") None None []
                   ["11111"; "21111"; "31111"] 0 in
  Ok s.

(** The classes as [get_classes] loads them from the master sheet and the
    rosters. *)
Definition classes : result (gmap string Class) :=
  let* c1 := class_of_roster "11111" (VStr "5") roster_11111 in
  let* c2 := class_of_roster "21111" (VStr "1") roster_21111 in
  let* c3 := class_of_roster "31111" (VStr "2") roster_31111 in
  let* c3' := class_of_roster "31112" (VStr "5") roster_31112 in
  let* c4 := class_of_roster "41111" (VStr "5") roster_41111 in
  Ok (<["11111" := c1]> (<["21111" := c2]> (<["31111" := c3]>
        (<["31112" := c3']> (<["41111" := c4]> ∅))))).

(** One run: the registration pass, then the writing of the placements. *)
Definition run (responses : list FormResponse)
  : result (pass_state * write_state) :=
  let* gs := get_students_parents uuid responses log_sheet log_sheet sheet_data
               parent_sheet in
  let* cl := classes in
  let* ws := write_placements (gs_students gs) (gs_parents gs) cl sheet_data in
  Ok (gs, ws).

(** The students of a class after a run. *)
Definition students_after (responses : list FormResponse) (code : string)
  : option (list value) :=
  match run responses with
  | Ok (_, ws) => c_students <$> (ws_classes ws !! code)
  | Raise _ => None
  end.

(** A pass that has not seen a response yet, with empty parent registry. *)
Definition pass0 : pass_state :=
  {| gs_students := []; gs_parents := []; gs_info_list := [];
     gs_invalid_info := [(VStr "Student", VStr "Parent 1 Email",
                          VStr "Parent 2 Email", VStr "Code")];
     gs_full_info := [(VStr "Student", VStr "Parent 1 Email",
                       VStr "Parent 2 Email", VStr "Code")];
     gs_offsets := offsets0; gs_uuids := 0; gs_events := [] |}.

(** The state in which the registration pass ends. *)
Definition pass_of (responses : list FormResponse) : pass_state :=
  match get_students_parents uuid responses log_sheet log_sheet sheet_data
          parent_sheet with
  | Ok gs => gs
  | Raise _ => pass0
  end.

(** A new student whose only choice is full. *)
Definition zed : FormResponse :=
  response "Zed" "Moss" "Yan" "Moss" "yan@x.org" ["21111"].

Definition zed_student : Student :=
  {| s_person := {| p_first := "Zed"; p_last := "Moss";
                    p_full_name := "Zed Moss"; p_email := Some "kid@x.org";
                    p_id := VStr (uuid 0) |};
     s_note := Some ""; s_parents := []; s_classes := [] |}.

Definition zed_placed : place_state :=
  {| ps_student := zed_student; ps_offsets := offsets0;
     ps_unaccepted := ["21111"]; ps_invalid := []; ps_found := false |}.

(** The students of a class before the run. *)
Definition students_before (code : string) : option (list value) :=
  match classes with
  | Ok cl => c_students <$> (cl !! code)
  | Raise _ => None
  end.

(** The identifier column of a roster after a run, with the rows that
    [write_placements] has written to it. *)
Definition roster_ids_after (responses : list FormResponse) (code : string)
  : option (list value) :=
  match run responses with
  | Ok (_, ws) =>
      match ws_rosters ws !! code with
      | Some roster => get_column roster 1
      | None => None
      end
  | Raise _ => None
  end.

(** The batch offset of a class at the end of the registration pass. *)
Definition offset_after (responses : list FormResponse) (code : string)
  : option Z :=
  match run responses with
  | Ok (gs, _) => gs_offsets gs !! code
  | Raise _ => None
  end.


End Demo.

(** ** Further sheets of the small school *)

Module More.

(** A row of the registration form with its 27 cells; the answers stand at
    the columns that [get_form_responses] reads. *)
Definition form_row (sf sl se pf pl pe c1 c2 : string) : row :=
  map VStr (["11/3"; ""; ""; sf; sl; se; pf; pl; pe; ""; ""; ""]
              ++ replicate 11 "" ++ ["none"; ""] ++ [c1; c2]).

Definition form_sheet : sheet :=
  [ map VStr ["Timestamp"];
    form_row " Cy" "Young " "kid@x.org" "Di" "Young" "di@x.org" " 31111 " "41111";
    [];
    form_row "Zed" "Moss" "kid@x.org" "Yan" "Moss" "yan@x.org" "21111" " " ].

(** A form sheet whose one response stops after the student's name. *)
Definition short_row : row := map VStr ["11/3"; ""; ""; "Cy"; "Young"].

Definition short_sheet : sheet := [ map VStr ["Timestamp"]; short_row ].

Definition responses : list FormResponse :=
  match get_form_responses form_sheet with
  | Ok rs => rs
  | Raise _ => []
  end.

(** The state in which [place_student] leaves the student of [Demo.cy]. *)
Definition cy_placed : place_state :=
  match Demo.place Demo.cy (choices Demo.cy) with
  | Ok st => st
  | Raise _ => Demo.zed_placed
  end.

(** The registry that the registration pass seeds from the parent sheet. *)
Definition loaded_parents : dict Parent :=
  match load_parents Demo.uuid Demo.parent_sheet with
  | Ok (parents, _) => parents
  | Raise _ => []
  end.

(** What [Class.__init__] reads off a code of the master sheet. *)
Definition info_of (code : string) : ClassInfo :=
  match class_info code with
  | Ok info => info
  | Raise _ =>
      {| ci_course := ""; ci_level := ""; ci_days := ""; ci_time := "";
         ci_session := 0 |}
  end.

(** The sheet "Teachers": a teacher entered under one name, and one under
    two. *)
Definition teacher_sheet : sheet :=
  [ map VStr ["UUID"; "First Name"; "Last Name"; "Email"; "Phone"];
    map VStr ["t1"; ""; "Cher"; "cher@x.org"; "555"];
    map VStr ["t2"; "Ann"; "Lee"; "ann@x.org"; "556"] ].

Definition teachers : dict Teacher :=
  match get_teachers Demo.uuid teacher_sheet 0 with
  | Ok (ts, _) => ts
  | Raise _ => []
  end.

(** What the batch read returns for the codes of the master sheet. *)
Definition all_data : list sheet :=
  [ Demo.roster_11111; Demo.roster_21111; Demo.roster_31111;
    Demo.roster_31112; Demo.roster_41111 ].

Definition codes_column : list value :=
  map VStr ["Code"; "11111"; "21111"; "31111"; "31112"; "41111"].

Definition classes0 : gmap string Class :=
  match Demo.classes with
  | Ok cl => cl
  | Raise _ => ∅
  end.

(** The writer's state after a run on the response of [Demo.cy]. *)
Definition written : write_state :=
  match Demo.run [Demo.cy] with
  | Ok (_, ws) => ws
  | Raise _ =>
      {| ws_classes := ∅; ws_rosters := ∅; ws_requests := []; ws_events := [] |}
  end.

(** A roster with a namesake of Cy Young whose parent is not on the parent
    sheet. *)
Definition roster_namesake : sheet :=
  [ Demo.roster_header;
    map VStr ["1"; "id-eve"; "Eve"; "Ray"; "eve@x.org"; ""; "p2"];
    map VStr ["2"; "id-cy"; "Cy"; "Young"; "cy@x.org"; ""; "p9"];
    map VStr ["3"; "id-bob"; "Bob"; "Ray"; "bob@x.org"; ""; "p2"] ].

(** The first response of the form, its student as [get_student] builds it
    at the first draw, and the state in which [place_student] leaves it. *)
Definition first_response : FormResponse := hd Demo.cy responses.

Definition first_student : Student :=
  match get_student Demo.uuid first_response 0 with
  | Ok (s, _, _) => s
  | Raise _ => Demo.cy_student
  end.

Definition first_placed : place_state :=
  match place_student first_student (choices first_response)
          (Demo.stud_info_of first_response) Demo.sheet_data
          Demo.parent_sheet Demo.offsets0 with
  | Ok st => st
  | Raise _ => Demo.zed_placed
  end.

(** The classes as [get_classes] loads them for the codes and capacities of
    [Demo.main_sheet] from the rosters of [sd]. *)
Definition classes_of (sd : gmap string sheet) : result (gmap string Class) :=
  foldM (fun (acc : gmap string Class) (e : string * string) =>
           match sd !! fst e with
           | None => Raise KeyError
           | Some roster =>
               let* c := class_of_roster (fst e) (VStr (snd e)) roster in
               Ok (<[fst e := c]> acc)
           end)
        [("11111", "5"); ("21111", "1"); ("31111", "2"); ("31112", "5");
         ("41111", "5")] ∅.

(** One run on the rosters [sd], the identifiers drawn from [uuid]: the
    registration pass, then the writing of the placements. *)
Definition run_on (uuid : nat -> string) (sd : gmap string sheet)
    (responses : list FormResponse) : result (pass_state * write_state) :=
  let* gs := get_students_parents uuid responses Demo.log_sheet Demo.log_sheet
               sd Demo.parent_sheet in
  let* cl := classes_of sd in
  let* ws := write_placements (gs_students gs) (gs_parents gs) cl sd in
  Ok (gs, ws).

(** Ann Lee, seated in 11111, registered by Pat Lee for 41111 alone, and
    later for both classes. *)
Definition ann_41 : FormResponse :=
  Demo.response "Ann" "Lee" "Pat" "Lee" "pat@x.org" ["41111"].

Definition ann_both : FormResponse :=
  Demo.response "Ann" "Lee" "Pat" "Lee" "pat@x.org" ["11111"; "41111"].

(** The rows that the first run, on [ann_41], hands to the batch update. *)
Definition first_run_requests : list (string * list row) :=
  match run_on Demo.uuid Demo.sheet_data [ann_41] with
  | Ok (_, ws) =>
      flat_map (fun e : event =>
                  match e with RunBatchUpdate rq => rq | _ => [] end)
               (ws_events ws)
  | Raise _ => []
  end.

(** The roster of 41111 with the row of the first run, and the sheets that
    the second run reads. *)
Definition roster_41111_ann : sheet :=
  [ Demo.roster_header;
    map VStr ["1"; "fresh-2"; "Ann"; "Lee"; "kid@x.org"; ""; "p1"] ].

Definition sheets_after_first : gmap string sheet :=
  <["41111" := roster_41111_ann]> Demo.sheet_data.

(** The identifiers that the second run draws. *)
Definition later_uuid (n : nat) : string :=
  "later-" ++ String (ascii_of_nat (48 + n)) EmptyString.

(** The second run, on [ann_both]. *)
Definition second_run : result (pass_state * write_state) :=
  run_on later_uuid sheets_after_first [ann_both].

Definition registry_after_second
  : option (list (value * string * string * list string)) :=
  match second_run with
  | Ok (gs, _) =>
      Some (map (fun e : value * Student =>
                   (p_id (s_person (snd e)), p_first (s_person (snd e)),
                    p_last (s_person (snd e)), s_classes (snd e)))
                (gs_students gs))
  | Raise _ => None
  end.

(** The rows of a roster after the second run, as the search zips them. *)
Definition names_after_second (code : string)
  : list (value * value * value * value) :=
  match second_run with
  | Ok (_, ws) =>
      match ws_rosters ws !! code with
      | Some roster => Demo.names_of roster
      | None => []
      end
  | Raise _ => []
  end.

Definition offset_after_second (code : string) : option Z :=
  match second_run with
  | Ok (gs, _) => gs_offsets gs !! code
  | Raise _ => None
  end.

End More.

(** * Properties *)

(** ** The exception monad and the loops *)

Lemma foldM_app {A S : Type} (body : S -> A -> result S) (l1 l2 : list A) (s : S) :
  foldM body (l1 ++ l2) s = let* s' := foldM body l1 s in foldM body l2 s'.
Proof.
  revert s; induction l1 as [|x l1 IH]; intros s; simpl; [reflexivity|].
  destruct (body s x); simpl; [apply IH | reflexivity].
Qed.

(** A property that every iteration preserves holds when the loop returns. *)
Lemma foldM_invariant {A S : Type} (P : S -> Prop) (body : S -> A -> result S) :
  (forall s x s', P s -> body s x = Ok s' -> P s') ->
  forall l s s', P s -> foldM body l s = Ok s' -> P s'.
Proof.
  intros Hstep l; induction l as [|x l IH]; intros s s' Hs Hrun; simpl in Hrun.
  - congruence.
  - destruct (body s x) as [s1|] eqn:Hb; simpl in Hrun; [|discriminate].
    eapply IH; [eapply Hstep; eassumption | exact Hrun].
Qed.

Lemma with_id_same (s : Student) : with_id s (p_id (s_person s)) = s.
Proof. destruct s as [[] ? ? ?]; reflexivity. Qed.

(** ** The search of a roster *)

Lemma scan_row_found si psheet sid rn :
  scan_row si psheet (true, sid) rn = Ok (true, sid).
Proof. reflexivity. Qed.

(** Once [found] is set, the rest of the search changes nothing. *)
Lemma scan_found_fixed si psheet l sid :
  foldM (scan_row si psheet) l (true, sid) = Ok (true, sid).
Proof. induction l as [|rn l IH]; simpl; [reflexivity | exact IH]. Qed.

(** A search that ends without a match leaves the identifier alone. *)
Lemma scan_not_found_id si psheet l sid sid' :
  foldM (scan_row si psheet) l (false, sid) = Ok (false, sid') -> sid' = sid.
Proof.
  induction l as [|rn l IH]; simpl; intros H; [congruence|].
  unfold scan_row in H at 1; simpl in H.
  destruct (corroborated si psheet rn) as [[|]|]; simpl in H.
  - rewrite scan_found_fixed in H; discriminate.
  - exact (IH H).
  - discriminate.
Qed.

(** A search that sets [found] took the identifier of a corroborated row. *)
Lemma scan_found_row si psheet l sid sid' :
  foldM (scan_row si psheet) l (false, sid) = Ok (true, sid') ->
  exists rn, In rn l /\ corroborated si psheet rn = Ok true
             /\ fst (fst (fst rn)) = sid'.
Proof.
  induction l as [|rn l IH]; simpl; intros H; [congruence|].
  unfold scan_row in H at 1; simpl in H.
  destruct (corroborated si psheet rn) as [[|]|] eqn:Hc; simpl in H.
  - rewrite scan_found_fixed in H. exists rn. split; [now left|].
    split; [exact Hc | congruence].
  - destruct (IH H) as (rn' & Hin & Hc' & Hid).
    exists rn'; split; [now right | split; assumption].
  - discriminate.
Qed.

(** ** One choice *)

(** What [place_choice] returns for a choice that reaches the roster search
    and the capacity test without an exception. *)
Lemma place_choice_roster si sd psheet main st code roster rn found sid cap off :
  String.eqb (strip code) "" = false ->
  existsb (session_equiv code) (s_classes (ps_student st)) = false ->
  sd !! code = Some roster ->
  zip_columns roster 1 2 3 6 = Ok rn ->
  scan_roster si psheet rn (ps_found st, p_id (s_person (ps_student st)))
    = Ok (found, sid) ->
  class_cap_of main code = Ok cap ->
  ps_offsets st !! code = Some off ->
  place_choice si sd psheet main st code =
    Ok (if found then
          {| ps_student := classes_append (with_id (ps_student st) sid) code;
             ps_offsets := ps_offsets st;
             ps_unaccepted := ps_unaccepted st;
             ps_invalid := ps_invalid st; ps_found := true |}
        else if (occupancy rn off <? cap)%Z then
          {| ps_student := classes_append (with_id (ps_student st) sid) code;
             ps_offsets := <[code := (off + 1)%Z]> (ps_offsets st);
             ps_unaccepted := ps_unaccepted st;
             ps_invalid := ps_invalid st; ps_found := false |}
        else
          {| ps_student := with_id (ps_student st) sid;
             ps_offsets := ps_offsets st;
             ps_unaccepted := ps_unaccepted st ++ [code];
             ps_invalid := ps_invalid st; ps_found := false |}).
Proof.
  intros Hb Hs Hr Hz Hscan Hcap Hoff. unfold place_choice.
  rewrite Hb, Hs, Hr, Hz. simpl.
  rewrite Hscan. simpl. rewrite Hcap. simpl. rewrite Hoff.
  destruct found; simpl.
  - rewrite !andb_false_r. reflexivity.
  - rewrite !andb_true_r.
    destruct (occupancy rn off <? cap)%Z eqn:Hlt; [reflexivity|].
    apply Z.ltb_ge in Hlt. apply Z.leb_le in Hlt. rewrite Hlt. reflexivity.
Qed.

(** [found] is never reset, and the identifier it came with is kept. *)
Lemma place_choice_keeps_found si sd psheet main st code st' :
  ps_found st = true ->
  place_choice si sd psheet main st code = Ok st' ->
  ps_found st' = true
  /\ p_id (s_person (ps_student st')) = p_id (s_person (ps_student st)).
Proof.
  intros Hf. unfold place_choice.
  destruct (String.eqb (strip code) ""); [intros [= <-]; auto|].
  destruct (existsb _ _); [intros [= <-]; auto|].
  destruct (sd !! code) as [roster|]; [|intros [= <-]; auto].
  destruct (zip_columns roster 1 2 3 6) as [rn|]; simpl; [|discriminate].
  rewrite Hf. unfold scan_roster. rewrite scan_found_fixed. simpl.
  destruct (class_cap_of main code) as [cap|]; simpl; [|discriminate].
  destruct (ps_offsets st !! code) as [off|]; [|discriminate].
  rewrite !andb_false_r. simpl. intros [= <-]. simpl. auto.
Qed.

Lemma place_choices_keep_found si sd psheet main cs st st' :
  ps_found st = true ->
  foldM (place_choice si sd psheet main) cs st = Ok st' ->
  ps_found st' = true
  /\ p_id (s_person (ps_student st')) = p_id (s_person (ps_student st)).
Proof.
  intros Hf Hrun.
  apply (foldM_invariant
           (fun s => ps_found s = true
                     /\ p_id (s_person (ps_student s))
                        = p_id (s_person (ps_student st)))
           (place_choice si sd psheet main)) with (l := cs) (s := st);
    [|auto|exact Hrun].
  intros s x s1 [Hs Hid] Hstep.
  destruct (place_choice_keeps_found _ _ _ _ _ _ _ Hs Hstep) as [H1 H2].
  split; [exact H1 | congruence].
Qed.

(** C10. In one call of [place_student] the flag [found] is never reset: once
    it is set, it stays set with the identifier it came with over all later
    choices, and a later choice that is not blank, is not session-equivalent
    to a class the student holds and has a roster is accepted whatever the
    capacity [cap] and the batch offset [off] of its class are, the offsets
    being left as they were. *)
Theorem found_flag_is_sticky si sd psheet main st code roster rn cap off :
  ps_found st = true ->
  String.eqb (strip code) "" = false ->
  existsb (session_equiv code) (s_classes (ps_student st)) = false ->
  sd !! code = Some roster ->
  zip_columns roster 1 2 3 6 = Ok rn ->
  class_cap_of main code = Ok cap ->
  ps_offsets st !! code = Some off ->
  (exists st',
      place_choice si sd psheet main st code = Ok st'
      /\ s_classes (ps_student st') = s_classes (ps_student st) ++ [code]
      /\ p_id (s_person (ps_student st')) = p_id (s_person (ps_student st))
      /\ ps_offsets st' = ps_offsets st
      /\ ps_unaccepted st' = ps_unaccepted st
      /\ ps_invalid st' = ps_invalid st
      /\ ps_found st' = true)
  /\ (forall cs st'',
         foldM (place_choice si sd psheet main) cs st = Ok st'' ->
         ps_found st'' = true
         /\ p_id (s_person (ps_student st''))
            = p_id (s_person (ps_student st))).
Proof.
  intros Hf Hb Hs Hr Hz Hcap Hoff. split.
  - eexists. split.
    + eapply place_choice_roster; try eassumption.
      rewrite Hf. unfold scan_roster. apply scan_found_fixed.
    + simpl. repeat split; reflexivity.
  - intros cs st''. apply place_choices_keep_found. exact Hf.
Qed.

(** The first choice of Ann Lee on the sheets of [Demo]. *)
Lemma ann_first_choice : Demo.place Demo.ann ["11111"] = Ok Demo.ann_seated.
Proof. vm_compute. reflexivity. Qed.

(** The sticky flag on the sheets of [Demo]: Ann Lee has been found on the
    roster of 11111, and 21111, whose only seat is taken, is accepted. *)
Lemma found_flag_is_sticky_witness :
  (exists st',
      place_choice (Demo.stud_info_of Demo.ann) Demo.sheet_data
        Demo.parent_sheet Demo.main_sheet Demo.ann_seated "21111" = Ok st'
      /\ s_classes (ps_student st') = ["11111"; "21111"]
      /\ p_id (s_person (ps_student st')) = VStr "id-ann"
      /\ ps_offsets st' = Demo.offsets0
      /\ ps_unaccepted st' = []
      /\ ps_invalid st' = []
      /\ ps_found st' = true)
  /\ (forall cs st'',
         foldM (place_choice (Demo.stud_info_of Demo.ann) Demo.sheet_data
                  Demo.parent_sheet Demo.main_sheet) cs Demo.ann_seated
           = Ok st'' ->
         ps_found st'' = true
         /\ p_id (s_person (ps_student st'')) = VStr "id-ann").
Proof.
  apply (found_flag_is_sticky (Demo.stud_info_of Demo.ann) Demo.sheet_data
           Demo.parent_sheet Demo.main_sheet Demo.ann_seated "21111"
           Demo.roster_21111 (Demo.names_of Demo.roster_21111) 1%Z 0%Z);
    vm_compute; reflexivity.
Defined.

(** A non-blank code without a roster goes unclassified when it is
    session-equivalent to a class the student holds: on the sheets of [Demo],
    41112 has no roster and follows the accepted 41111. *)
Lemma equivalent_unknown_code_unclassified :
  String.eqb (strip "41112") "" = false
  /\ Demo.sheet_data !! "41112" = None
  /\ exists st,
       Demo.place Demo.cy ["41111"; "41112"] = Ok st
       /\ s_classes (ps_student st) = ["41111"]
       /\ ps_invalid st = []
       /\ ps_unaccepted st = [].
Proof.
  split; [reflexivity|]. split; [vm_compute; reflexivity|].
  eexists. split; [vm_compute; reflexivity|]. repeat split; reflexivity.
Qed.

(** C6 (amended). A choice that is not blank, is not session-equivalent to a
    class the student holds and has no roster is appended to [invalid];
    the student, the batch offsets, [unaccepted] and [found] are left as they
    were, and the loop goes on with the next choice. The rosters are only
    read by [place_choice]. *)
Theorem unknown_code_is_invalid si sd psheet main st code rest :
  String.eqb (strip code) "" = false ->
  existsb (session_equiv code) (s_classes (ps_student st)) = false ->
  sd !! code = None ->
  exists st',
    place_choice si sd psheet main st code = Ok st'
    /\ ps_invalid st' = ps_invalid st ++ [code]
    /\ ps_student st' = ps_student st
    /\ ps_offsets st' = ps_offsets st
    /\ ps_unaccepted st' = ps_unaccepted st
    /\ ps_found st' = ps_found st
    /\ foldM (place_choice si sd psheet main) (code :: rest) st
       = foldM (place_choice si sd psheet main) rest st'.
Proof.
  intros Hb Hs Hr. eexists. split.
  - unfold place_choice. rewrite Hb, Hs, Hr. reflexivity.
  - simpl. repeat split; try reflexivity.
    unfold place_choice. rewrite Hb, Hs, Hr. reflexivity.
Qed.

Lemma unknown_code_is_invalid_witness :
  exists st',
    place_choice (Demo.stud_info_of Demo.ann) Demo.sheet_data Demo.parent_sheet
      Demo.main_sheet Demo.ann_seated "99999" = Ok st'
    /\ ps_invalid st' = ps_invalid Demo.ann_seated ++ ["99999"]
    /\ ps_student st' = ps_student Demo.ann_seated
    /\ ps_offsets st' = ps_offsets Demo.ann_seated
    /\ ps_unaccepted st' = ps_unaccepted Demo.ann_seated
    /\ ps_found st' = ps_found Demo.ann_seated
    /\ foldM (place_choice (Demo.stud_info_of Demo.ann) Demo.sheet_data
                Demo.parent_sheet Demo.main_sheet) ("99999" :: ["21111"])
         Demo.ann_seated
       = foldM (place_choice (Demo.stud_info_of Demo.ann) Demo.sheet_data
                  Demo.parent_sheet Demo.main_sheet) ["21111"] st'.
Proof.
  apply (unknown_code_is_invalid (Demo.stud_info_of Demo.ann) Demo.sheet_data
           Demo.parent_sheet Demo.main_sheet Demo.ann_seated "99999" ["21111"]);
    vm_compute; reflexivity.
Defined.

(** ** The order of the choices *)

(** On the sheets of [Demo] the first choice of a new student is full, the
    second has exactly one open seat and the third has room: the student is
    placed into the second and into the third. And a choice with a roster
    that has room, on which the student is not found, is neither accepted nor
    classified full when it is session-equivalent to a class just accepted:
    31112 after 31111. *)
Lemma third_choice_also_placed :
  class_cap_of Demo.main_sheet "21111" = Ok 1%Z
  /\ occupancy (Demo.names_of Demo.roster_21111) 0 = 1%Z
  /\ class_cap_of Demo.main_sheet "31111" = Ok 2%Z
  /\ occupancy (Demo.names_of Demo.roster_31111) 0 = 1%Z
  /\ (exists st,
         Demo.place Demo.cy ["21111"; "31111"; "41111"] = Ok st
         /\ ps_found st = false
         /\ ps_unaccepted st = ["21111"]
         /\ s_classes (ps_student st) = ["31111"; "41111"])
  /\ class_cap_of Demo.main_sheet "31112" = Ok 5%Z
  /\ occupancy (Demo.names_of Demo.roster_31112) 0 = 0%Z
  /\ (exists st,
         Demo.place Demo.cy ["31111"; "31112"] = Ok st
         /\ ps_found st = false
         /\ ps_unaccepted st = []
         /\ s_classes (ps_student st) = ["31111"]).
Proof.
  repeat (split; [vm_compute; reflexivity|]).
  split; [|repeat (split; [vm_compute; reflexivity|])];
    (eexists; split; [vm_compute; reflexivity|]; repeat split; reflexivity).
Qed.

Lemma session_equiv_refl (code : string) : session_equiv code code = true.
Proof. unfold session_equiv. apply String.eqb_refl. Qed.

(** C2 (amended). The choices are processed in the order given. A choice that
    is not blank, is not session-equivalent to a class the student holds, has
    a roster and leaves [found] unset after the search of that roster is
    accepted when the rows below the roster's header plus the batch offset of
    its code are fewer than the capacity, the offset then growing by one, and
    goes to [unaccepted] otherwise. For choices [A; B; C] of a student who
    holds no class and is found on none of the three rosters, with [A] full
    and [B] having an open seat: [A] is classified full and [B] accepted;
    [C] is skipped when it is session-equivalent to [B] and is otherwise
    decided by the same rule, so it is accepted too when it has room. *)
Theorem choices_in_order si sd psheet main :
  (forall st code roster rn sid cap off,
      String.eqb (strip code) "" = false ->
      existsb (session_equiv code) (s_classes (ps_student st)) = false ->
      sd !! code = Some roster ->
      zip_columns roster 1 2 3 6 = Ok rn ->
      scan_roster si psheet rn (ps_found st, p_id (s_person (ps_student st)))
        = Ok (false, sid) ->
      class_cap_of main code = Ok cap ->
      ps_offsets st !! code = Some off ->
      exists st',
        place_choice si sd psheet main st code = Ok st'
        /\ ps_invalid st' = ps_invalid st
        /\ ps_found st' = false
        /\ ((occupancy rn off < cap)%Z ->
            s_classes (ps_student st') = s_classes (ps_student st) ++ [code]
            /\ ps_offsets st' = <[code := (off + 1)%Z]> (ps_offsets st)
            /\ ps_unaccepted st' = ps_unaccepted st)
        /\ ((cap <= occupancy rn off)%Z ->
            s_classes (ps_student st') = s_classes (ps_student st)
            /\ ps_offsets st' = ps_offsets st
            /\ ps_unaccepted st' = ps_unaccepted st ++ [code]))
  /\ (forall student offs A B C rA rB rC nA nB nC sA sB sC capA capB capC oA oB oC,
         sd !! "Classes" = Some main ->
         s_classes student = [] ->
         String.eqb (strip A) "" = false ->
         String.eqb (strip B) "" = false ->
         String.eqb (strip C) "" = false ->
         sd !! A = Some rA -> sd !! B = Some rB -> sd !! C = Some rC ->
         zip_columns rA 1 2 3 6 = Ok nA ->
         zip_columns rB 1 2 3 6 = Ok nB ->
         zip_columns rC 1 2 3 6 = Ok nC ->
         scan_roster si psheet nA (false, p_id (s_person student)) = Ok (false, sA) ->
         scan_roster si psheet nB (false, p_id (s_person student)) = Ok (false, sB) ->
         scan_roster si psheet nC (false, p_id (s_person student)) = Ok (false, sC) ->
         class_cap_of main A = Ok capA ->
         class_cap_of main B = Ok capB ->
         class_cap_of main C = Ok capC ->
         offs !! A = Some oA -> offs !! B = Some oB -> offs !! C = Some oC ->
         (capA <= occupancy nA oA)%Z ->
         (occupancy nB oB < capB)%Z ->
         exists st',
           place_student student [A; B; C] si sd psheet offs = Ok st'
           /\ s_classes (ps_student st')
              = B :: (if session_equiv C B then []
                      else if (occupancy nC oC <? capC)%Z then [C] else [])
           /\ ps_unaccepted st'
              = A :: (if session_equiv C B then []
                      else if (occupancy nC oC <? capC)%Z then [] else [C])
           /\ ps_invalid st' = []).
Proof.
  split.
  - intros st code roster rn sid cap off Hb Hs Hr Hz Hscan Hcap Hoff.
    eexists. split; [eapply place_choice_roster; eassumption|].
    cbv beta iota.
    destruct (occupancy rn off <? cap)%Z eqn:Hlt; simpl.
    + apply Z.ltb_lt in Hlt. repeat split; try reflexivity; lia.
    + apply Z.ltb_ge in Hlt. repeat split; try reflexivity; lia.
  - intros student offs A B C rA rB rC nA nB nC sA sB sC capA capB capC oA oB oC
      Hmain Hcl HbA HbB HbC HrA HrB HrC HzA HzB HzC HsA HsB HsC HcA HcB HcC
      HoA HoB HoC HfullA HopenB.
    pose proof (scan_not_found_id _ _ _ _ _ HsA) as ->.
    pose proof (scan_not_found_id _ _ _ _ _ HsB) as ->.
    pose proof (scan_not_found_id _ _ _ _ _ HsC) as ->.
    unfold place_student. rewrite Hmain. simpl.
    erewrite place_choice_roster; try eassumption;
      [| simpl; rewrite Hcl; reflexivity]. simpl.
    apply Z.ltb_ge in HfullA. rewrite HfullA. simpl.
    rewrite with_id_same.
    erewrite place_choice_roster; try eassumption;
      [| simpl; rewrite Hcl; reflexivity]. simpl.
    apply Z.ltb_lt in HopenB. rewrite HopenB. simpl.
    rewrite with_id_same.
    destruct (session_equiv C B) eqn:Heq.
    + unfold place_choice at 1. rewrite HbC. simpl. rewrite Hcl. simpl.
      rewrite Heq. simpl. eexists. split; [reflexivity|].
      simpl. rewrite ?Hcl. repeat split; reflexivity.
    + assert (C <> B) as Hne.
      { intros ->. rewrite session_equiv_refl in Heq. discriminate. }
      rewrite (place_choice_roster si sd psheet main _ C rC nC false
                 (p_id (s_person student)) capC oC); try assumption.
      * simpl. destruct (occupancy nC oC <? capC)%Z; simpl;
          (eexists; split; [reflexivity|]); simpl; rewrite ?Hcl;
          repeat split; reflexivity.
      * simpl. rewrite Hcl. simpl. rewrite Heq. reflexivity.
      * simpl. rewrite lookup_insert_ne; [exact HoC | congruence].
Qed.

Lemma cy_student_built :
  get_student Demo.uuid Demo.cy 0 = Ok (Demo.cy_student, choices Demo.cy, 1).
Proof. reflexivity. Qed.

Lemma choices_in_order_witness :
  (exists st',
      place_choice (Demo.stud_info_of Demo.cy) Demo.sheet_data Demo.parent_sheet
        Demo.main_sheet (place_init Demo.cy_student Demo.offsets0) "31111"
      = Ok st'
      /\ ps_invalid st' = []
      /\ ps_found st' = false
      /\ ((occupancy (Demo.names_of Demo.roster_31111) 0 < 2)%Z ->
          s_classes (ps_student st') = [] ++ ["31111"]
          /\ ps_offsets st' = <["31111" := (0 + 1)%Z]> Demo.offsets0
          /\ ps_unaccepted st' = [])
      /\ ((2 <= occupancy (Demo.names_of Demo.roster_31111) 0)%Z ->
          s_classes (ps_student st') = []
          /\ ps_offsets st' = Demo.offsets0
          /\ ps_unaccepted st' = [] ++ ["31111"]))
  /\ (exists st',
         place_student Demo.cy_student ["21111"; "31111"; "41111"]
           (Demo.stud_info_of Demo.cy) Demo.sheet_data Demo.parent_sheet
           Demo.offsets0 = Ok st'
         /\ s_classes (ps_student st') = ["31111"; "41111"]
         /\ ps_unaccepted st' = ["21111"]
         /\ ps_invalid st' = []).
Proof.
  destruct (choices_in_order (Demo.stud_info_of Demo.cy) Demo.sheet_data
              Demo.parent_sheet Demo.main_sheet) as [Hrule Htrio].
  split.
  - apply (Hrule (place_init Demo.cy_student Demo.offsets0) "31111"
             Demo.roster_31111 (Demo.names_of Demo.roster_31111)
             (VStr (Demo.uuid 0)) 2%Z 0%Z);
      vm_compute; reflexivity.
  - apply (Htrio Demo.cy_student Demo.offsets0 "21111" "31111" "41111"
             Demo.roster_21111 Demo.roster_31111 Demo.roster_41111
             (Demo.names_of Demo.roster_21111) (Demo.names_of Demo.roster_31111)
             (Demo.names_of Demo.roster_41111)
             (VStr (Demo.uuid 0)) (VStr (Demo.uuid 0)) (VStr (Demo.uuid 0))
             1%Z 2%Z 5%Z 0%Z 0%Z 0%Z);
      vm_compute; first [reflexivity | discriminate].
Defined.

(** ** Returning students *)

Lemma zip4_drop1 {A : Type} (a b c d : list A) :
  drop 1 (zip4 a b c d) = zip4 (drop 1 a) (drop 1 b) (drop 1 c) (drop 1 d).
Proof.
  destruct a as [|x a]; [reflexivity|].
  destruct b as [|y b]; [destruct a; reflexivity|].
  destruct c as [|z c]; [destruct a, b; reflexivity|].
  destruct d as [|w d]; [destruct a, b, c; reflexivity|].
  reflexivity.
Qed.

Lemma zip4_fst_in {A : Type} (a b c d : list A) (rn : A * A * A * A) :
  In rn (zip4 a b c d) -> In (fst (fst (fst rn))) a.
Proof.
  revert b c d; induction a as [|x a IH]; intros b c d; simpl; [tauto|].
  destruct b as [|y b]; simpl; [tauto|].
  destruct c as [|z c]; simpl; [tauto|].
  destruct d as [|w d]; simpl; [tauto|].
  intros [<-|Hin]; [now left | right; eapply IH; exact Hin].
Qed.

Lemma zip_columns_inv (s : sheet) (i j k l : nat) rn :
  zip_columns s i j k l = Ok rn ->
  exists a b c d,
    get_column s i = Some a /\ get_column s j = Some b
    /\ get_column s k = Some c /\ get_column s l = Some d
    /\ rn = zip4 a b c d.
Proof.
  unfold zip_columns.
  destruct (get_column s i) as [a|]; [|discriminate].
  destruct (get_column s j) as [b|]; [|discriminate].
  destruct (get_column s k) as [c|]; [|discriminate].
  destruct (get_column s l) as [d|]; [|discriminate].
  intros [= <-]. exists a, b, c, d. repeat split; reflexivity.
Qed.

Lemma students_append_all (l : list value) (c : Class) :
  c_students (fold_left students_append l c) = c_students c ++ l.
Proof.
  revert c; induction l as [|v l IH]; intros c; simpl.
  - now rewrite app_nil_r.
  - rewrite IH. simpl. now rewrite <- app_assoc.
Qed.

(** The students of a class loaded from a roster are the identifier column
    below the header. *)
Lemma class_of_roster_students code capv roster cls :
  class_of_roster code capv roster = Ok cls ->
  exists uuids, get_column roster 1 = Some uuids /\ c_students cls = drop 1 uuids.
Proof.
  unfold class_of_roster.
  destruct (py_int capv) as [cap|]; simpl; [|discriminate].
  unfold new_Class, set_students. simpl.
  destruct (_ <? _)%Z; simpl; [discriminate|].
  destruct (get_column roster 1) as [uuids|]; [|discriminate].
  intros [= <-]. exists uuids. split; [reflexivity|].
  now rewrite students_append_all.
Qed.

Lemma existsb_py_eq_in (x : value) (l : list value) :
  In x l -> existsb (py_eq x) l = true.
Proof.
  intros Hin. apply existsb_exists. exists x. split; [exact Hin|].
  unfold py_eq. now apply bool_decide_eq_true.
Qed.

(** [write_placement] does nothing for a student whose identifier is among
    the students of the class. *)
Lemma write_placement_seated parents student wst code cls :
  ws_classes wst !! code = Some cls ->
  In (p_id (s_person student)) (c_students cls) ->
  write_placement parents student wst code = Ok wst.
Proof.
  intros Hc Hin. unfold write_placement. rewrite Hc.
  now rewrite (existsb_py_eq_in _ _ Hin).
Qed.

(** The re-seat where the search of the roster itself finds the student: a
    choice that reaches the search of its roster with [found] unset and on
    whose roster the search finds the student (a row below the header with
    the student's first and last name whose parent row carries the first
    parent's names) is accepted whatever the capacity [cap] and the batch
    offset [off] are: the code is appended to the student's classes, the
    student takes the identifier [sid] of that row, the batch offsets are left
    as they were, and when the placements are written no row is added for the
    student on that roster: [write_placement] returns its state unchanged for
    any student with that identifier and any class that has kept the
    students loaded from the roster. *)
Lemma reseated_on_own_roster si sd psheet main st code roster rn sid cap off :
  String.eqb (strip code) "" = false ->
  existsb (session_equiv code) (s_classes (ps_student st)) = false ->
  sd !! code = Some roster ->
  zip_columns roster 1 2 3 6 = Ok rn ->
  ps_found st = false ->
  scan_roster si psheet rn (false, p_id (s_person (ps_student st)))
    = Ok (true, sid) ->
  class_cap_of main code = Ok cap ->
  ps_offsets st !! code = Some off ->
  exists st',
    place_choice si sd psheet main st code = Ok st'
    /\ s_classes (ps_student st') = s_classes (ps_student st) ++ [code]
    /\ p_id (s_person (ps_student st')) = sid
    /\ ps_offsets st' = ps_offsets st
    /\ ps_unaccepted st' = ps_unaccepted st
    /\ ps_invalid st' = ps_invalid st
    /\ ps_found st' = true
    /\ (exists row, In row (drop 1 rn)
                    /\ corroborated si psheet row = Ok true
                    /\ fst (fst (fst row)) = sid)
    /\ (forall parents student wst capv cls0 cls more,
           p_id (s_person student) = sid ->
           class_of_roster code capv roster = Ok cls0 ->
           c_students cls = c_students cls0 ++ more ->
           ws_classes wst !! code = Some cls ->
           write_placement parents student wst code = Ok wst).
Proof.
  intros Hb Hs Hr Hz Hf Hscan Hcap Hoff.
  destruct (scan_found_row _ _ _ _ _ Hscan) as (row & Hin & Hcor & Hid).
  eexists. split.
  { eapply place_choice_roster; try eassumption. rewrite Hf. exact Hscan. }
  simpl. repeat split; try reflexivity.
  - exists row. repeat split; assumption.
  - intros parents student wst capv cls0 cls more Hsid Hcls Hmore Hws.
    eapply write_placement_seated; [exact Hws|].
    rewrite Hmore. apply in_or_app. left.
    destruct (class_of_roster_students _ _ _ _ Hcls) as (uuids & Hcol & ->).
    destruct (zip_columns_inv _ _ _ _ _ _ Hz) as (a & b & c & d & Ha & _ & _ & _ & ->).
    rewrite Hcol in Ha. injection Ha as <-.
    rewrite Hsid, <- Hid. rewrite zip4_drop1 in Hin.
    eapply zip4_fst_in. exact Hin.
Qed.

Lemma reseated_on_own_roster_witness :
  exists st',
    place_choice (Demo.stud_info_of Demo.ann) Demo.sheet_data Demo.parent_sheet
      Demo.main_sheet (place_init Demo.ann_student Demo.offsets0) "11111"
    = Ok st'
    /\ s_classes (ps_student st') = [] ++ ["11111"]
    /\ p_id (s_person (ps_student st')) = VStr "id-ann"
    /\ ps_offsets st' = Demo.offsets0
    /\ ps_unaccepted st' = []
    /\ ps_invalid st' = []
    /\ ps_found st' = true
    /\ (exists row, In row (drop 1 (Demo.names_of Demo.roster_11111))
                    /\ corroborated (Demo.stud_info_of Demo.ann)
                         Demo.parent_sheet row = Ok true
                    /\ fst (fst (fst row)) = VStr "id-ann")
    /\ (forall parents student wst capv cls0 cls more,
           p_id (s_person student) = VStr "id-ann" ->
           class_of_roster "11111" capv Demo.roster_11111 = Ok cls0 ->
           c_students cls = c_students cls0 ++ more ->
           ws_classes wst !! "11111" = Some cls ->
           write_placement parents student wst "11111" = Ok wst).
Proof.
  apply (reseated_on_own_roster (Demo.stud_info_of Demo.ann) Demo.sheet_data
           Demo.parent_sheet Demo.main_sheet
           (place_init Demo.ann_student Demo.offsets0) "11111"
           Demo.roster_11111 (Demo.names_of Demo.roster_11111)
           (VStr "id-ann") 5%Z 0%Z);
    vm_compute; reflexivity.
Defined.

(** ** Capacity and enrollment limits *)

(** A choice leaves the offsets alone or takes one seat of a class that had
    one left. *)
Lemma place_choice_offsets si sd psheet main st code st' :
  place_choice si sd psheet main st code = Ok st' ->
  ps_offsets st' = ps_offsets st
  \/ exists roster rn cap off,
       sd !! code = Some roster
       /\ zip_columns roster 1 2 3 6 = Ok rn
       /\ class_cap_of main code = Ok cap
       /\ ps_offsets st !! code = Some off
       /\ (occupancy rn off < cap)%Z
       /\ ps_offsets st' = <[code := (off + 1)%Z]> (ps_offsets st).
Proof.
  unfold place_choice.
  destruct (String.eqb (strip code) ""); [intros [= <-]; auto|].
  destruct (existsb _ _); [intros [= <-]; auto|].
  destruct (sd !! code) as [roster|] eqn:Hr; [|intros [= <-]; auto].
  destruct (zip_columns roster 1 2 3 6) as [rn|] eqn:Hz; simpl; [|discriminate].
  destruct (scan_roster _ _ _ _) as [[found sid]|]; simpl; [|discriminate].
  destruct (class_cap_of main code) as [cap|] eqn:Hc; simpl; [|discriminate].
  destruct (ps_offsets st !! code) as [off|] eqn:Ho; [|discriminate].
  destruct found; simpl.
  - rewrite !andb_false_r. intros [= <-]. now left.
  - rewrite !andb_true_r.
    destruct (occupancy rn off <? cap)%Z eqn:Hlt.
    + intros [= <-]. simpl. right. exists roster, rn, cap, off.
      apply Z.ltb_lt in Hlt. repeat split; try reflexivity; assumption.
    + destruct (cap <=? occupancy rn off)%Z; intros [= <-]; now left.
Qed.

(** The seats that the batch offsets hand out never exceed a capacity: this
    is the part of the capacity test that [place_student] performs. *)
Lemma place_student_within_capacity student cs si sd psheet main offs st' :
  sd !! "Classes" = Some main ->
  within_capacity sd main offs ->
  place_student student cs si sd psheet offs = Ok st' ->
  within_capacity sd main (ps_offsets st').
Proof.
  intros Hmain Hw. unfold place_student. rewrite Hmain.
  apply (foldM_invariant (fun s => within_capacity sd main (ps_offsets s)));
    [|exact Hw].
  intros s x s1 Hs Hstep.
  destruct (place_choice_offsets _ _ _ _ _ _ _ Hstep)
    as [->|(roster & rn & cap & off & Hr & Hz & Hc & Ho & Hlt & ->)];
    [exact Hs|].
  intros code roster' rn' cap' off' Hr' Hz' Hc' Ho'.
  destruct (decide (x = code)) as [->|Hne].
  - rewrite lookup_insert_eq in Ho'. injection Ho' as <-.
    rewrite Hr in Hr'. injection Hr' as <-.
    rewrite Hz in Hz'. injection Hz' as <-.
    rewrite Hc in Hc'. injection Hc' as <-.
    right. unfold occupancy in *. lia.
  - rewrite lookup_insert_ne in Ho' by exact Hne.
    eapply Hs; eassumption.
Qed.

(** The same for the whole registration pass, whose offsets start at 0. *)
Lemma pass_within_capacity
    uuid responses invalid_sheet full_class_sheet sd psheet main gs :
  sd !! "Classes" = Some main ->
  get_students_parents uuid responses invalid_sheet full_class_sheet sd psheet
    = Ok gs ->
  within_capacity sd main (gs_offsets gs).
Proof.
  intros Hmain. unfold get_students_parents.
  destruct (zip_columns invalid_sheet 0 1 2 3); simpl; [|discriminate].
  destruct (zip_columns full_class_sheet 0 1 2 3); simpl; [|discriminate].
  destruct (load_parents uuid psheet) as [[parents n]|]; simpl; [|discriminate].
  apply (foldM_invariant (fun s => within_capacity sd main (gs_offsets s))).
  - intros s r s1 Hs. unfold process_response.
    match goal with
    | |- context [existsb ?f (gs_info_list s)] =>
        destruct (existsb f (gs_info_list s))
    end; [now intros [= <-]|].
    destruct (get_student uuid r (gs_uuids s)) as [[[student0 cs] n0]|];
      simpl; [|discriminate].
    destruct (place_student _ _ _ _ _ _) as [ps|] eqn:Hp; simpl; [|discriminate].
    match goal with
    | |- context [rbind ?c _] => destruct c as [[[students parents'] n1]|]
    end; simpl; [|discriminate].
    destruct (fold_left _ (ps_invalid ps) _) as [invalid_info ev1].
    destruct (fold_left _ (ps_unaccepted ps) _) as [full_info ev2].
    intros [= <-]. simpl.
    eapply place_student_within_capacity; eassumption.
  - simpl. intros code roster rn cap off _ _ _ Ho. left.
    rewrite lookup_fmap in Ho. destruct (sd !! code); simpl in Ho; congruence.
Qed.

(** C1. One run on the sheets of [Demo] with the single response of Ann Lee,
    who is on the roster of 11111 and also asks for 21111: the class 21111
    has capacity 1 and one student before the run, and two students after it,
    the second of them written to its roster, while its batch offset is
    still 0. *)
Theorem capacity_exceeded_after_run :
  class_cap_of Demo.main_sheet "21111" = Ok 1%Z
  /\ Demo.students_before "21111" = Some [VStr "id-bob"]
  /\ Demo.students_after [Demo.ann] "21111"
     = Some [VStr "id-bob"; VStr "id-ann"]
  /\ Demo.roster_ids_after [Demo.ann] "21111"
     = Some [VStr "UUID"; VStr "id-bob"; VStr "id-ann"]
  /\ Demo.offset_after [Demo.ann] "21111" = Some 0%Z.
Proof. repeat split; vm_compute; reflexivity. Qed.

(** C4. [place_student] called on a student who holds three classes of three
    different session groups, with a choice of a fourth group that has room:
    it returns without an exception and the student holds four classes, a
    list that [set_classes] refuses. *)
Theorem fourth_class_appended :
  exists s st,
    Demo.full_student = Ok s
    /\ s_classes s = ["11111"; "21111"; "31111"]
    /\ place_student s ["41111"] (Demo.stud_info_of Demo.cy) Demo.sheet_data
         Demo.parent_sheet Demo.offsets0 = Ok st
    /\ s_classes (ps_student st) = ["11111"; "21111"; "31111"; "41111"]
    /\ List.NoDup (map prefix4 (s_classes (ps_student st)))
    /\ set_classes s (s_classes (ps_student st)) = Raise ValueError.
Proof.
  eexists _, _. split; [vm_compute; reflexivity|].
  split; [reflexivity|]. split; [vm_compute; reflexivity|].
  split; [reflexivity|]. split; [|reflexivity].
  apply NoDup_ListNoDup, (bool_decide_unpack _). vm_compute. reflexivity.
Qed.

(** ** Session groups *)

Lemma not_held_notin (code : string) (l : list string) :
  existsb (session_equiv code) l = false -> ~ In (prefix4 code) (map prefix4 l).
Proof.
  induction l as [|c l IH]; simpl; [tauto|].
  intros H. apply orb_false_iff in H as [Hc Hl].
  intros [Heq|Hin]; [|exact (IH Hl Hin)].
  unfold session_equiv in Hc. apply String.eqb_neq in Hc. congruence.
Qed.

Lemma NoDup_snoc {A : Type} (l : list A) (x : A) :
  List.NoDup l -> ~ In x l -> List.NoDup (l ++ [x]).
Proof.
  induction 1 as [|y l Hy Hl IH]; simpl; intros Hx.
  - constructor; [simpl; tauto | constructor].
  - constructor.
    + rewrite in_app_iff. simpl. intros [H|[H|[]]]; [tauto | subst; tauto].
    + apply IH. tauto.
Qed.

(** A choice leaves the classes alone or appends its code, the latter only
    when no class held is session-equivalent to it. *)
Lemma place_choice_classes si sd psheet main st code st' :
  place_choice si sd psheet main st code = Ok st' ->
  s_classes (ps_student st') = s_classes (ps_student st)
  \/ (existsb (session_equiv code) (s_classes (ps_student st)) = false
      /\ s_classes (ps_student st') = s_classes (ps_student st) ++ [code]).
Proof.
  unfold place_choice.
  destruct (String.eqb (strip code) ""); [intros [= <-]; auto|].
  destruct (existsb _ _) eqn:Hs; [intros [= <-]; auto|].
  destruct (sd !! code) as [roster|]; [|intros [= <-]; auto].
  destruct (zip_columns roster 1 2 3 6) as [rn|]; simpl; [|discriminate].
  destruct (scan_roster _ _ _ _) as [[found sid]|]; simpl; [|discriminate].
  destruct (class_cap_of main code) as [cap|]; simpl; [|discriminate].
  destruct (ps_offsets st !! code) as [off|]; [|discriminate].
  destruct (_ && _); [intros [= <-]; simpl; auto|].
  destruct (_ && _); [intros [= <-]; simpl; auto|].
  destruct found; intros [= <-]; simpl; auto.
Qed.

Lemma place_choice_distinct si sd psheet main st code st' :
  List.NoDup (map prefix4 (s_classes (ps_student st))) ->
  place_choice si sd psheet main st code = Ok st' ->
  List.NoDup (map prefix4 (s_classes (ps_student st'))).
Proof.
  intros Hnd Hstep.
  destruct (place_choice_classes _ _ _ _ _ _ _ Hstep) as [->|[Hs ->]];
    [exact Hnd|].
  rewrite map_app. simpl. apply NoDup_snoc; [exact Hnd|].
  now apply not_held_notin.
Qed.

(** [place_student] keeps the classes of a student in distinct session
    groups. *)
Lemma place_student_distinct student cs si sd psheet offs st' :
  List.NoDup (map prefix4 (s_classes student)) ->
  place_student student cs si sd psheet offs = Ok st' ->
  List.NoDup (map prefix4 (s_classes (ps_student st'))).
Proof.
  intros Hnd. unfold place_student.
  destruct (sd !! "Classes") as [main|]; [|discriminate].
  apply (foldM_invariant
           (fun s => List.NoDup (map prefix4 (s_classes (ps_student s))))); [|exact Hnd].
  intros s x s1. apply place_choice_distinct.
Qed.

(** ** The registry of students *)

Lemma get_student_classes uuid r n s cs n' :
  get_student uuid r n = Ok (s, cs, n') -> s_classes s = [] /\ cs = choices r.
Proof. unfold get_student. simpl. intros [= <- <- <-]. split; reflexivity. Qed.

(** [register] writes one entry, for the identifier of the student, whose
    classes are those of the student. *)
Lemma register_students uuid r student students parents n students' parents' n' :
  register uuid r student students parents n = Ok (students', parents', n') ->
  exists s',
    s_classes s' = s_classes student
    /\ students' = dict_set (p_id (s_person student)) s' students.
Proof.
  unfold register.
  destruct (resolve_parent _ _ (get_parent1 uuid r) parents n)
    as [[[parents1 pid1] n1]|]; simpl; [|discriminate].
  destruct (parent2_first r) as [f2|]; [|discriminate].
  destruct (negb _).
  - destruct (parent2_email r) as [e2|]; [|discriminate].
    destruct (resolve_parent _ _ (get_parent2 uuid r) parents1 n1)
      as [[[parents2 pid2] n2]|]; simpl; [|discriminate].
    intros [= <- <- <-]. eexists. split; [|reflexivity]. reflexivity.
  - intros [= <- <- <-]. eexists. split; [|reflexivity]. reflexivity.
Qed.

Lemma dict_set_in {V : Type} (k : value) (v : V) (d : dict V) (e : value * V) :
  In e (dict_set k v d) -> In e d \/ snd e = v.
Proof.
  induction d as [|[k' v'] d IH]; simpl.
  - intros [<-|[]]. now right.
  - destruct (py_eq k' k); simpl.
    + intros [<-|Hin]; [now right | left; now right].
    + intros [<-|Hin]; [left; now left|].
      destruct (IH Hin) as [H|H]; [left; now right | now right].
Qed.

(** What one response does to the registries: nothing, or the registration
    of the placed student, who then holds at least one class. *)
Lemma process_response_students uuid sd psheet st r st' :
  process_response uuid sd psheet st r = Ok st' ->
  (gs_students st' = gs_students st /\ gs_parents st' = gs_parents st)
  \/ exists student0 cs n0 ps s',
       get_student uuid r (gs_uuids st) = Ok (student0, cs, n0)
       /\ place_student student0 cs
            (student_first r, student_last r, parent1_first r, parent1_last r)
            sd psheet (gs_offsets st) = Ok ps
       /\ s_classes (ps_student ps) <> []
       /\ s_classes s' = s_classes (ps_student ps)
       /\ gs_students st'
          = dict_set (p_id (s_person (ps_student ps))) s' (gs_students st).
Proof.
  unfold process_response.
  match goal with
  | |- context [existsb ?f (gs_info_list st)] =>
      destruct (existsb f (gs_info_list st)); [intros [= <-]; auto|]
  end.
  destruct (get_student uuid r (gs_uuids st)) as [[[student0 cs] n0]|] eqn:Hg;
    simpl; [|discriminate].
  destruct (place_student _ _ _ _ _ _) as [ps|] eqn:Hp; simpl; [|discriminate].
  destruct (0 <? length (s_classes (ps_student ps)))%nat eqn:Hlen.
  - destruct (register _ _ _ _ _ _) as [[[students parents] n1]|] eqn:Hr;
      simpl; [|discriminate].
    destruct (fold_left _ (ps_invalid ps) _) as [invalid_info ev1].
    destruct (fold_left _ (ps_unaccepted ps) _) as [full_info ev2].
    intros [= <-]. simpl. right.
    destruct (register_students _ _ _ _ _ _ _ _ _ Hr) as (s' & Hcl & ->).
    exists student0, cs, n0, ps, s'. repeat split; try assumption.
    intros Hnil. rewrite Hnil in Hlen. discriminate.
  - simpl.
    destruct (fold_left _ (ps_invalid ps) _) as [invalid_info ev1].
    destruct (fold_left _ (ps_unaccepted ps) _) as [full_info ev2].
    intros [= <-]. simpl. auto.
Qed.

Lemma distinct_one_per_session_group (classes : list string) :
  List.NoDup (map prefix4 classes) <-> one_per_session_group classes.
Proof.
  rewrite <- NoDup_ListNoDup, NoDup_alt.
  change (map prefix4 classes) with (prefix4 <$> classes).
  split.
  - intros Hnd i j a b Hi Hj Heq. apply (Hnd i j (prefix4 a)).
    + now rewrite list_lookup_fmap, Hi.
    + rewrite list_lookup_fmap, Hj. simpl.
      unfold session_equiv in Heq. apply String.eqb_eq in Heq. now rewrite Heq.
  - intros Hone i j x Hi Hj. rewrite list_lookup_fmap in Hi, Hj.
    destruct (classes !! i) as [a|] eqn:Ha; [|discriminate].
    destruct (classes !! j) as [b|] eqn:Hb; [|discriminate].
    simpl in Hi, Hj. apply (Hone i j a b Ha Hb).
    unfold session_equiv. apply String.eqb_eq. congruence.
Qed.

(** Every registered student holds classes of distinct session groups. *)
Lemma registry_distinct uuid sd psheet responses st st' :
  Forall (fun e : value * Student =>
            List.NoDup (map prefix4 (s_classes (snd e)))) (gs_students st) ->
  foldM (process_response uuid sd psheet) responses st = Ok st' ->
  Forall (fun e : value * Student =>
            List.NoDup (map prefix4 (s_classes (snd e)))) (gs_students st').
Proof.
  apply (foldM_invariant
           (fun s => Forall (fun e : value * Student =>
                               List.NoDup (map prefix4 (s_classes (snd e))))
                            (gs_students s))).
  intros s r s1 Hs Hstep.
  destruct (process_response_students _ _ _ _ _ _ Hstep)
    as [[-> _]|(student0 & cs & n0 & ps & s' & Hg & Hp & _ & Hcl & ->)];
    [exact Hs|].
  apply List.Forall_forall. intros e Hin.
  destruct (dict_set_in _ _ _ _ Hin) as [Hold| ->].
  - exact (proj1 (List.Forall_forall _ _) Hs e Hold).
  - rewrite Hcl. eapply place_student_distinct; [|exact Hp].
    destruct (get_student_classes _ _ _ _ _ _ Hg) as [-> _]. constructor.
Qed.

(** C5. After the registration pass no two classes of a registered student
    are session-equivalent; [place_student] keeps this for any student it is
    given; and a choice that is session-equivalent to a class the student
    holds leaves every variable of the loop as it was: it is neither
    accepted nor put on [unaccepted] or [invalid]. *)
Theorem one_class_per_session
    uuid responses invalid_sheet full_class_sheet sd psheet gs :
  get_students_parents uuid responses invalid_sheet full_class_sheet sd psheet
    = Ok gs ->
  (forall k s, In (k, s) (gs_students gs) -> one_per_session_group (s_classes s))
  /\ (forall student cs si offs st',
         one_per_session_group (s_classes student) ->
         place_student student cs si sd psheet offs = Ok st' ->
         one_per_session_group (s_classes (ps_student st')))
  /\ (forall si main st code,
         existsb (session_equiv code) (s_classes (ps_student st)) = true ->
         place_choice si sd psheet main st code = Ok st).
Proof.
  intros Hrun. split; [|split].
  - intros k s Hin. apply distinct_one_per_session_group.
    unfold get_students_parents in Hrun.
    destruct (zip_columns invalid_sheet 0 1 2 3); simpl in Hrun; [|discriminate].
    destruct (zip_columns full_class_sheet 0 1 2 3); simpl in Hrun; [|discriminate].
    destruct (load_parents uuid psheet) as [[parents n]|]; simpl in Hrun;
      [|discriminate].
    eapply registry_distinct in Hrun; [|constructor].
    apply (proj1 (List.Forall_forall _ _) Hrun (k, s) Hin).
  - intros student cs si offs st' Hnd Hp.
    apply distinct_one_per_session_group.
    apply distinct_one_per_session_group in Hnd.
    eapply place_student_distinct; eassumption.
  - intros si main st code Hs. unfold place_choice. rewrite Hs.
    destruct (String.eqb (strip code) ""); reflexivity.
Qed.

Lemma one_class_per_session_witness :
  (forall k s, In (k, s) (gs_students (Demo.pass_of [Demo.cy; Demo.ann])) ->
               one_per_session_group (s_classes s))
  /\ (forall student cs si offs st',
         one_per_session_group (s_classes student) ->
         place_student student cs si Demo.sheet_data Demo.parent_sheet offs
           = Ok st' ->
         one_per_session_group (s_classes (ps_student st')))
  /\ (forall si main st code,
         existsb (session_equiv code) (s_classes (ps_student st)) = true ->
         place_choice si Demo.sheet_data Demo.parent_sheet main st code = Ok st).
Proof.
  apply (one_class_per_session Demo.uuid [Demo.cy; Demo.ann] Demo.log_sheet
           Demo.log_sheet Demo.sheet_data Demo.parent_sheet
           (Demo.pass_of [Demo.cy; Demo.ann])).
  vm_compute. reflexivity.
Defined.

(** C9. A response whose student leaves [place_student] without a class is
    processed without touching the registries: [students] and [parents] are
    the same before and after, so the student is not registered and no parent
    receives it as a child or is created for it. *)
Theorem zero_classes_not_registered uuid sd psheet st r student0 cs n0 ps :
  get_student uuid r (gs_uuids st) = Ok (student0, cs, n0) ->
  place_student student0 cs
    (student_first r, student_last r, parent1_first r, parent1_last r)
    sd psheet (gs_offsets st) = Ok ps ->
  s_classes (ps_student ps) = [] ->
  exists st',
    process_response uuid sd psheet st r = Ok st'
    /\ gs_students st' = gs_students st
    /\ gs_parents st' = gs_parents st.
Proof.
  intros Hg Hp Hnil. unfold process_response.
  match goal with
  | |- context [existsb ?f (gs_info_list st)] =>
      destruct (existsb f (gs_info_list st))
  end.
  - exists st. repeat split; reflexivity.
  - rewrite Hg. simpl. rewrite Hp. simpl. rewrite Hnil. simpl.
    destruct (fold_left _ (ps_invalid ps) _) as [invalid_info ev1].
    destruct (fold_left _ (ps_unaccepted ps) _) as [full_info ev2].
    eexists. split; [reflexivity|]. split; reflexivity.
Qed.

Lemma zero_classes_not_registered_witness :
  exists st',
    process_response Demo.uuid Demo.sheet_data Demo.parent_sheet Demo.pass0
      Demo.zed = Ok st'
    /\ gs_students st' = gs_students Demo.pass0
    /\ gs_parents st' = gs_parents Demo.pass0.
Proof.
  apply (zero_classes_not_registered Demo.uuid Demo.sheet_data Demo.parent_sheet
           Demo.pass0 Demo.zed Demo.zed_student (choices Demo.zed) 1
           Demo.zed_placed);
    vm_compute; reflexivity.
Defined.

(** No registered student is without a class. *)
Lemma registry_students_hold_classes uuid sd psheet responses st st' :
  Forall (fun e : value * Student => s_classes (snd e) <> []) (gs_students st) ->
  foldM (process_response uuid sd psheet) responses st = Ok st' ->
  Forall (fun e : value * Student => s_classes (snd e) <> []) (gs_students st').
Proof.
  apply (foldM_invariant
           (fun s => Forall (fun e : value * Student => s_classes (snd e) <> [])
                            (gs_students s))).
  intros s r s1 Hs Hstep.
  destruct (process_response_students _ _ _ _ _ _ Hstep)
    as [[-> _]|(student0 & cs & n0 & ps & s' & Hg & Hp & Hne & Hcl & ->)];
    [exact Hs|].
  apply List.Forall_forall. intros e Hin.
  destruct (dict_set_in _ _ _ _ Hin) as [Hold| ->].
  - exact (proj1 (List.Forall_forall _ _) Hs e Hold).
  - now rewrite Hcl.
Qed.

(** ** Notifications *)

(** A log read from a sheet has at least its header row. *)
Lemma zip_columns_nonempty (s : sheet) (i j k l : nat) log :
  zip_columns s i j k l = Ok log -> log <> [].
Proof.
  unfold zip_columns, get_column.
  destruct s as [|r s]; [discriminate|]. simpl.
  repeat match goal with
         | |- context [if ?b then None else Some _] => destruct b
         end; try discriminate.
  intros [= <-]. discriminate.
Qed.

Lemma notify_once_nonempty k sheet_name full_name p1 p2 st code :
  fst st <> [] ->
  fst (notify_once k sheet_name full_name p1 p2 st code) <> [].
Proof.
  destruct st as [log events]. unfold notify_once. simpl.
  destruct (logged _ _ _ _); simpl; [auto|].
  intros _ H. now apply app_eq_nil in H as [_ H].
Qed.

Lemma notify_all_nonempty k sheet_name full_name p1 p2 codes st :
  fst st <> [] ->
  fst (fold_left (notify_once k sheet_name full_name p1 p2) codes st) <> [].
Proof.
  revert st; induction codes as [|c codes IH]; intros st Hne; simpl; [exact Hne|].
  apply IH. now apply notify_once_nonempty.
Qed.

(** Both logs keep their header row all through the registration pass, so
    every notification of the pass runs on a log that is not empty. *)
Lemma pass_logs_nonempty uuid sd psheet responses st st' :
  gs_invalid_info st <> [] /\ gs_full_info st <> [] ->
  foldM (process_response uuid sd psheet) responses st = Ok st' ->
  gs_invalid_info st' <> [] /\ gs_full_info st' <> [].
Proof.
  apply (foldM_invariant
           (fun s => gs_invalid_info s <> [] /\ gs_full_info s <> [])).
  intros s r s1 [Hi Hf]. unfold process_response.
  match goal with
  | |- context [existsb ?f (gs_info_list s)] =>
      destruct (existsb f (gs_info_list s))
  end; [intros [= <-]; auto|].
  destruct (get_student uuid r (gs_uuids s)) as [[[student0 cs] n0]|];
    simpl; [|discriminate].
  destruct (place_student _ _ _ _ _ _) as [ps|]; simpl; [|discriminate].
  match goal with
  | |- context [rbind ?c _] => destruct c as [[[students parents] n1]|]
  end; simpl; [|discriminate].
  destruct (fold_left _ (ps_invalid ps) _) as [invalid_info ev1] eqn:E1.
  destruct (fold_left _ (ps_unaccepted ps) _) as [full_info ev2] eqn:E2.
  intros [= <-]. simpl. split.
  - change invalid_info with (fst (invalid_info, ev1)). rewrite <- E1.
    now apply notify_all_nonempty.
  - change full_info with (fst (full_info, ev2)). rewrite <- E2.
    now apply notify_all_nonempty.
Qed.

Lemma py_eq_refl {A : Type} `{EqDecision A} (a : A) : py_eq a a = true.
Proof. unfold py_eq. now apply bool_decide_eq_true. Qed.

(** The row that a notification logs answers the same notification. *)
Lemma logged_after_append log full_name p1 p2 code :
  log <> [] ->
  logged (log ++ [(VStr full_name, p1, p2, VStr code)]) [p1; p2] full_name code
  = true.
Proof.
  intros Hne. unfold logged.
  destruct log as [|header log]; [contradiction|]. simpl. unfold drop.
  rewrite existsb_app. simpl.
  rewrite !py_eq_refl. simpl. apply orb_true_r.
Qed.

(** C8. For either kind of rejection, on a log with its header row: a
    notification whose student name and code are logged with one of the
    response's two addresses sends nothing and logs nothing; otherwise it
    sends once and appends one row to the log; and issuing the same
    notification again then sends nothing and logs nothing, so that two
    identical notifications leave one send and one row. *)
Theorem notify_once_idempotent k sheet_name full_name p1 p2 log events code :
  log <> [] ->
  let st1 := notify_once k sheet_name full_name p1 p2 (log, events) code in
  notify_once k sheet_name full_name p1 p2 st1 code = st1
  /\ (logged log [p1; p2] full_name code = true -> st1 = (log, events))
  /\ (logged log [p1; p2] full_name code = false ->
      st1 = (log ++ [(VStr full_name, p1, p2, VStr code)],
             events ++ [Send k [p1; p2] full_name code;
                        WriteRow sheet_name
                          [VStr full_name; p1; p2; VStr code] (length log)])).
Proof.
  intros Hne. cbv zeta.
  destruct (logged log [p1; p2] full_name code) eqn:Hl.
  - assert (notify_once k sheet_name full_name p1 p2 (log, events) code
            = (log, events)) as E
      by (unfold notify_once; now rewrite Hl).
    rewrite E. split; [exact E | split; [reflexivity | discriminate]].
  - assert (notify_once k sheet_name full_name p1 p2 (log, events) code
            = (log ++ [(VStr full_name, p1, p2, VStr code)],
               events ++ [Send k [p1; p2] full_name code;
                          WriteRow sheet_name
                            [VStr full_name; p1; p2; VStr code] (length log)]))
      as E by (unfold notify_once; now rewrite Hl).
    rewrite E. split; [|split; [discriminate | reflexivity]].
    unfold notify_once. now rewrite logged_after_append.
Qed.

Lemma notify_once_idempotent_witness :
  let log := gs_full_info Demo.pass0 in
  let st1 := notify_once ClassFull "Full Class Emails" "Zed Moss"
               (VStr "yan@x.org") (VStr "") (log, []) "21111" in
  notify_once ClassFull "Full Class Emails" "Zed Moss"
    (VStr "yan@x.org") (VStr "") st1 "21111" = st1
  /\ (logged log [VStr "yan@x.org"; VStr ""] "Zed Moss" "21111" = true ->
      st1 = (log, []))
  /\ (logged log [VStr "yan@x.org"; VStr ""] "Zed Moss" "21111" = false ->
      st1 = (log ++ [(VStr "Zed Moss", VStr "yan@x.org", VStr "", VStr "21111")],
             [] ++ [Send ClassFull [VStr "yan@x.org"; VStr ""] "Zed Moss" "21111";
                    WriteRow "Full Class Emails"
                      [VStr "Zed Moss"; VStr "yan@x.org"; VStr ""; VStr "21111"]
                      (length log)])).
Proof.
  apply (notify_once_idempotent ClassFull "Full Class Emails" "Zed Moss"
           (VStr "yan@x.org") (VStr "") (gs_full_info Demo.pass0) [] "21111").
  vm_compute. discriminate.
Defined.

(** ** Identity of parents and students *)

Lemma lstrip_clean (s : string) : starts_clean (lstrip s).
Proof.
  induction s as [|c s IH]; simpl; [exact I|].
  destruct (isspace c) eqn:Hc; [exact IH | exact Hc].
Qed.

Lemma lstrip_of_clean (s : string) : starts_clean s -> lstrip s = s.
Proof. destruct s as [|c s]; simpl; [reflexivity|]. now intros ->. Qed.

Lemma rstrip_clean (s : string) : starts_clean s -> starts_clean (rstrip s).
Proof.
  destruct s as [|c s]; simpl; [auto|]. intros Hc.
  destruct (rstrip s); [rewrite Hc|]; exact Hc.
Qed.

Lemma rstrip_idempotent (s : string) : rstrip (rstrip s) = rstrip s.
Proof.
  induction s as [|c s IH]; simpl; [reflexivity|].
  destruct (rstrip s) as [|c2 r] eqn:Hr.
  - destruct (isspace c) eqn:Hc; simpl; [reflexivity|]. now rewrite Hc.
  - change (rstrip (String c (String c2 r)))
      with (match rstrip (String c2 r) with
            | EmptyString =>
                if isspace c then EmptyString else String c EmptyString
            | String a b => String c (String a b)
            end).
    rewrite IH. reflexivity.
Qed.

(** [s.strip().strip() == s.strip()] *)
Lemma strip_idempotent (s : string) : strip (strip s) = strip s.
Proof.
  unfold strip.
  rewrite (lstrip_of_clean (rstrip (lstrip s))).
  - apply rstrip_idempotent.
  - apply rstrip_clean, lstrip_clean.
Qed.

Lemma cell_strip_stripped (r : row) (k : nat) (s : string) :
  cell_strip r k = Ok s -> strip s = s.
Proof.
  unfold cell_strip. destruct (r !! k) as [[|t|]|]; try discriminate.
  simpl. intros [= <-]. apply strip_idempotent.
Qed.

(** The responses that [get_form_responses] builds carry the first parent's
    names and address stripped. *)
Lemma form_response_stripped (rw : row) (r : FormResponse) :
  form_response_of_row rw = Ok r ->
  strip (parent1_first r) = parent1_first r
  /\ strip (parent1_last r) = parent1_last r
  /\ strip (parent1_email r) = parent1_email r.
Proof.
  unfold form_response_of_row.
  destruct (cell_strip rw 3) as [sf|]; simpl; [|discriminate].
  destruct (cell_strip rw 4) as [sl|]; simpl; [|discriminate].
  destruct (cell_strip rw 6) as [p1f|] eqn:H6; simpl; [|discriminate].
  destruct (cell_strip rw 7) as [p1l|] eqn:H7; simpl; [|discriminate].
  destruct (cell_strip rw 8) as [p1e|] eqn:H8; simpl; [|discriminate].
  destruct (strip_codes _) as [cs|]; simpl; [|discriminate].
  destruct (cell_strip rw 5) as [se|]; simpl; [|discriminate].
  destruct (cell_strip rw 23) as [sn|]; simpl; [|discriminate].
  destruct (cell_strip rw 9) as [p2f|]; simpl; [|discriminate].
  destruct (cell_strip rw 10) as [p2l|]; simpl; [|discriminate].
  destruct (cell_strip rw 11) as [p2e|]; simpl; [|discriminate].
  intros [= <-]. simpl.
  repeat split; eapply cell_strip_stripped; eassumption.
Qed.




Lemma isspace_lower_char (c : ascii) : isspace (lower_char c) = isspace c.
Proof. destruct c as [[] [] [] [] [] [] [] []]; reflexivity. Qed.

Lemma lower_char_idempotent (c : ascii) : lower_char (lower_char c) = lower_char c.
Proof. destruct c as [[] [] [] [] [] [] [] []]; reflexivity. Qed.

Lemma lower_idempotent (s : string) : lower (lower s) = lower s.
Proof.
  induction s as [|c s IH]; simpl; [reflexivity|].
  now rewrite lower_char_idempotent, IH.
Qed.

Lemma lstrip_lower (s : string) : lstrip (lower s) = lower (lstrip s).
Proof.
  induction s as [|c s IH]; simpl; [reflexivity|].
  rewrite isspace_lower_char. destruct (isspace c); [exact IH | reflexivity].
Qed.

Lemma rstrip_lower (s : string) : rstrip (lower s) = lower (rstrip s).
Proof.
  induction s as [|c s IH]; simpl; [reflexivity|].
  rewrite IH, isspace_lower_char.
  destruct (rstrip s); simpl; [destruct (isspace c)|]; reflexivity.
Qed.

(** [s.lower().strip() == s.strip().lower()] *)
Lemma strip_lower (s : string) : strip (lower s) = lower (strip s).
Proof. unfold strip. now rewrite lstrip_lower, rstrip_lower. Qed.

(** The parent that [get_parent1] builds for a stripped response has the key
    of the response. *)
Lemma get_parent1_key uuid r children n p n' :
  strip (parent1_first r) = parent1_first r ->
  strip (parent1_last r) = parent1_last r ->
  strip (parent1_email r) = parent1_email r ->
  get_parent1 uuid r children n = Ok (p, n') ->
  parent_key p = parent1_key r /\ p_id (pa_person p) = VStr (uuid n)
  /\ pa_children p = children /\ n' = S n.
Proof.
  intros Hf Hl He. unfold get_parent1, new_Parent, new_Person. simpl.
  intros [= <- <-]. unfold parent_key, parent1_key. simpl.
  now rewrite Hf, Hl, He.
Qed.



(** A response that has been processed is skipped from then on. *)
Lemma process_response_seen uuid sd psheet st r st1 :
  process_response uuid sd psheet st r = Ok st1 ->
  existsb (py_eq (student_first r, student_last r, parent1_first r,
                  parent1_last r)) (gs_info_list st1) = true.
Proof.
  unfold process_response.
  match goal with
  | |- context [existsb ?f (gs_info_list st)] =>
      destruct (existsb f (gs_info_list st)) eqn:Hseen
  end; [now intros [= <-]|].
  destruct (get_student uuid r (gs_uuids st)) as [[[student0 cs] n0]|];
    simpl; [|discriminate].
  destruct (place_student _ _ _ _ _ _) as [ps|]; simpl; [|discriminate].
  match goal with
  | |- context [rbind ?c _] => destruct c as [[[students parents] n1]|]
  end; simpl; [|discriminate].
  destruct (fold_left _ (ps_invalid ps) _) as [invalid_info ev1].
  destruct (fold_left _ (ps_unaccepted ps) _) as [full_info ev2].
  intros [= <-]. simpl. rewrite existsb_app. simpl.
  rewrite py_eq_refl. simpl. apply orb_true_r.
Qed.










(** * Further properties of the code *)

(** ** Sheets *)

Lemma get_column_length (s : sheet) (i : nat) (col : list value) :
  get_column s i = Some col -> length col = length s.
Proof.
  unfold get_column. destruct (forallb _ _); [discriminate|].
  intros [= <-]. apply List.length_map.
Qed.

Lemma zip4_length {A : Type} (a b c d : list A) (n : nat) :
  length a = n -> length b = n -> length c = n -> length d = n ->
  length (zip4 a b c d) = n.
Proof.
  revert a b c d; induction n as [|n IH]; intros a b c d Ha Hb Hc Hd.
  - destruct a; [reflexivity | discriminate].
  - destruct a as [|x a], b as [|y b], c as [|z c], d as [|w d];
      try discriminate.
    simpl. f_equal. apply IH; simpl in *; congruence.
Qed.

(** X1. The rows that [place_student] zips from a roster are as many as the
    rows of the roster, so the occupancy it compares with the capacity is the
    number of rows below the header, rows without an identifier included,
    plus the batch offset. *)
Theorem occupancy_counts_rows (roster : sheet) rn (off : Z) :
  zip_columns roster 1 2 3 6 = Ok rn ->
  length rn = length roster
  /\ occupancy rn off = (Z.of_nat (length roster) - 1 + off)%Z.
Proof.
  intros Hz.
  destruct (zip_columns_inv _ _ _ _ _ _ Hz)
    as (a & b & c & d & Ha & Hb & Hc & Hd & ->).
  assert (length (zip4 a b c d) = length roster) as Hlen
    by (apply zip4_length; eapply get_column_length; eassumption).
  split; [exact Hlen|]. unfold occupancy. now rewrite Hlen.
Qed.

Lemma occupancy_counts_rows_witness :
  length (Demo.names_of Demo.roster_21111) = length Demo.roster_21111
  /\ occupancy (Demo.names_of Demo.roster_21111) 3
     = (Z.of_nat (length Demo.roster_21111) - 1 + 3)%Z.
Proof.
  apply (occupancy_counts_rows Demo.roster_21111
           (Demo.names_of Demo.roster_21111) 3%Z).
  vm_compute. reflexivity.
Defined.

(** X2. A choice whose roster lacks one of the four columns that are zipped
    (identifier, first name, last name, first parent), as a sheet without
    rows does, is not classified: [place_student] raises [TypeError] at that
    choice, whatever choices follow. *)
Theorem roster_without_column_raises si sd psheet main st code roster rest :
  String.eqb (strip code) "" = false ->
  existsb (session_equiv code) (s_classes (ps_student st)) = false ->
  sd !! code = Some roster ->
  get_column roster 1 = None \/ get_column roster 2 = None
  \/ get_column roster 3 = None \/ get_column roster 6 = None ->
  place_choice si sd psheet main st code = Raise TypeError
  /\ foldM (place_choice si sd psheet main) (code :: rest) st = Raise TypeError.
Proof.
  intros Hb Hs Hr Hcol.
  assert (place_choice si sd psheet main st code = Raise TypeError) as H.
  { unfold place_choice. rewrite Hb, Hs, Hr. unfold zip_columns.
    destruct Hcol as [-> | [-> | [-> | ->]]];
      repeat match goal with
             | |- context [match get_column ?s ?i with _ => _ end] =>
                 destruct (get_column s i)
             end; reflexivity. }
  split; [exact H|]. simpl. now rewrite H.
Qed.

Lemma roster_without_column_raises_witness :
  place_choice (Demo.stud_info_of Demo.cy) (<["51111" := []]> Demo.sheet_data)
    Demo.parent_sheet Demo.main_sheet
    (place_init Demo.cy_student Demo.offsets0) "51111" = Raise TypeError
  /\ foldM (place_choice (Demo.stud_info_of Demo.cy)
              (<["51111" := []]> Demo.sheet_data) Demo.parent_sheet
              Demo.main_sheet) ("51111" :: ["41111"])
       (place_init Demo.cy_student Demo.offsets0) = Raise TypeError.
Proof.
  apply (roster_without_column_raises (Demo.stud_info_of Demo.cy)
           (<["51111" := []]> Demo.sheet_data) Demo.parent_sheet
           Demo.main_sheet (place_init Demo.cy_student Demo.offsets0)
           "51111" [] ["41111"]); try (vm_compute; reflexivity).
  left. reflexivity.
Defined.

(** X3. A choice that has a roster but no row in the master sheet is neither
    accepted nor classified: once the search of its roster is through,
    looking up its capacity raises [ValueError]; an exception of the search
    itself comes first. The key "Classes", under which the master sheet
    itself is stored among the rosters, is such a choice. *)
Theorem unlisted_class_raises si sd psheet main st code roster rn col0 :
  String.eqb (strip code) "" = false ->
  existsb (session_equiv code) (s_classes (ps_student st)) = false ->
  sd !! code = Some roster ->
  zip_columns roster 1 2 3 6 = Ok rn ->
  get_column main 0 = Some col0 ->
  list_index (VStr code) col0 = None ->
  place_choice si sd psheet main st code
  = match scan_roster si psheet rn
            (ps_found st, p_id (s_person (ps_student st))) with
    | Ok _ => Raise ValueError
    | Raise e => Raise e
    end.
Proof.
  intros Hb Hs Hr Hz Hc Hi. unfold place_choice.
  rewrite Hb, Hs, Hr, Hz. simpl.
  destruct (scan_roster _ _ _ _) as [[found sid]|]; simpl; [|reflexivity].
  unfold class_cap_of. rewrite Hc, Hi. reflexivity.
Qed.

Lemma unlisted_class_raises_witness :
  place_choice (Demo.stud_info_of Demo.cy) Demo.sheet_data Demo.parent_sheet
    Demo.main_sheet (place_init Demo.cy_student Demo.offsets0) "Classes"
  = match scan_roster (Demo.stud_info_of Demo.cy) Demo.parent_sheet
            (Demo.names_of Demo.main_sheet)
            (false, p_id (s_person Demo.cy_student)) with
    | Ok _ => Raise ValueError
    | Raise e => Raise e
    end.
Proof.
  apply (unlisted_class_raises (Demo.stud_info_of Demo.cy) Demo.sheet_data
           Demo.parent_sheet Demo.main_sheet
           (place_init Demo.cy_student Demo.offsets0) "Classes"
           Demo.main_sheet (Demo.names_of Demo.main_sheet)
           (map VStr ["Code"; "11111"; "21111"; "31111"; "31112"; "41111"]));
    vm_compute; reflexivity.
Defined.

(** X4. [simulate_write_row] on a sheet with a first row: the row at [index]
    becomes the data cut or padded with [None] to the width of the first row,
    every other row that was there is kept, the rows between the old end and
    [index] are empty, and the sheet has [max (len, index + 1)] rows. *)
Theorem simulate_write_row_spec (header : row) (rest : sheet) (data : row)
    (index : nat) :
  exists s',
    simulate_write_row (header :: rest) data index = Ok s'
    /\ length s' = Nat.max (length (header :: rest)) (S index)
    /\ (exists lst,
          s' !! index = Some lst
          /\ length lst = length header
          /\ forall i, (i < length header)%nat ->
                       lst !! i = Some (default VNone (data !! i)))
    /\ (forall j, j <> index -> (j < length (header :: rest))%nat ->
                  s' !! j = (header :: rest) !! j)
    /\ (forall j, (length (header :: rest) <= j)%nat -> (j < index)%nat ->
                  s' !! j = Some []).
Proof.
  set (lst := map (fun i : nat => default VNone (data !! i))
                  (seq 0 (length header))).
  assert (length lst = length header) as Hlen
    by (unfold lst; now rewrite List.length_map, List.length_seq).
  assert (forall i, (i < length header)%nat ->
                    lst !! i = Some (default VNone (data !! i))) as Hlst.
  { intros i Hi. unfold lst.
    change (map ?f ?l) with (f <$> l).
    rewrite list_lookup_fmap, lookup_seq_lt by exact Hi. reflexivity. }
  unfold simulate_write_row. fold lst.
  destruct (index <? length (header :: rest))%nat eqn:Hlt.
  - apply Nat.ltb_lt in Hlt.
    exists (<[index := lst]> (header :: rest)). split; [reflexivity|].
    split; [rewrite length_insert; lia|].
    split; [exists lst; split; [now apply list_lookup_insert_eq | auto]|].
    split.
    + intros j Hj _. now apply list_lookup_insert_ne.
    + intros j Hj1 Hj2. lia.
  - apply Nat.ltb_ge in Hlt.
    exists ((header :: rest)
            ++ replicate (index - length (header :: rest)) [] ++ [lst]).
    split; [reflexivity|].
    split; [rewrite !length_app, length_replicate; simpl in *; lia|].
    split.
    { exists lst. split; [|auto].
      rewrite (lookup_app_r (header :: rest)) by exact Hlt.
      rewrite (lookup_app_r (replicate _ _))
        by (rewrite length_replicate; lia).
      rewrite length_replicate, Nat.sub_diag. reflexivity. }
    split.
    + intros j _ Hj. now apply (lookup_app_l (header :: rest)).
    + intros j Hj1 Hj2.
      rewrite (lookup_app_r (header :: rest)) by exact Hj1.
      rewrite (lookup_app_l (replicate _ _))
        by (rewrite length_replicate; lia).
      apply lookup_replicate_2. lia.
Qed.

(** ** What [place_student] does to its variables *)

Lemma place_choices_offsets si sd psheet main cs st st' :
  foldM (place_choice si sd psheet main) cs st = Ok st' ->
  dom (ps_offsets st') = dom (ps_offsets st)
  /\ forall code off,
       ps_offsets st !! code = Some off ->
       exists off',
         ps_offsets st' !! code = Some off' /\ (off <= off')%Z
         /\ (~ In code cs -> off' = off).
Proof.
  revert st; induction cs as [|c cs IH]; intros st; simpl.
  - intros [= <-]. split; [reflexivity|]. intros code off H.
    exists off. split; [exact H|]. split; [lia | reflexivity].
  - destruct (place_choice si sd psheet main st c) as [s1|] eqn:Hstep; simpl;
      [|discriminate].
    intros Hrun. destruct (IH _ Hrun) as [Hdom Hoff].
    destruct (place_choice_offsets _ _ _ _ _ _ _ Hstep)
      as [Heq|(roster & rn & cap & off0 & _ & _ & _ & Ho & _ & Heq)].
    + rewrite Heq in Hdom, Hoff. split; [exact Hdom|].
      intros code off H. destruct (Hoff code off H) as (off' & H1 & H2 & H3).
      exists off'. split; [exact H1|]. split; [exact H2|]. tauto.
    + rewrite Heq in Hdom, Hoff. split.
      * rewrite Hdom. apply dom_insert_lookup_L. now exists off0.
      * intros code off H. destruct (decide (c = code)) as [->|Hne].
        -- rewrite Ho in H. injection H as <-.
           destruct (Hoff code (off0 + 1)%Z) as (off' & H1 & H2 & _);
             [apply lookup_insert_eq|].
           exists off'. split; [exact H1|]. split; [lia|]. tauto.
        -- destruct (Hoff code off) as (off' & H1 & H2 & H3);
             [now rewrite lookup_insert_ne|].
           exists off'. split; [exact H1|]. split; [exact H2|]. tauto.
Qed.

(** X5. [place_student] never adds or removes a batch offset and never
    lowers one; the offset of a class that is not among the choices is left
    as it was. *)
Theorem offsets_only_grow student cs si sd psheet offs st' :
  place_student student cs si sd psheet offs = Ok st' ->
  dom (ps_offsets st') = dom offs
  /\ forall code off,
       offs !! code = Some off ->
       exists off',
         ps_offsets st' !! code = Some off' /\ (off <= off')%Z
         /\ (~ In code cs -> off' = off).
Proof.
  unfold place_student. destruct (sd !! "Classes") as [main|]; [|discriminate].
  intros Hrun. exact (place_choices_offsets _ _ _ _ _ _ _ Hrun).
Qed.

Lemma offsets_only_grow_witness :
  dom (ps_offsets Demo.zed_placed) = dom Demo.offsets0
  /\ forall code off,
       Demo.offsets0 !! code = Some off ->
       exists off',
         ps_offsets Demo.zed_placed !! code = Some off' /\ (off <= off')%Z
         /\ (~ In code (choices Demo.zed) -> off' = off).
Proof.
  apply (offsets_only_grow Demo.zed_student (choices Demo.zed)
           (Demo.stud_info_of Demo.zed) Demo.sheet_data Demo.parent_sheet
           Demo.offsets0 Demo.zed_placed).
  vm_compute. reflexivity.
Defined.

(** What one choice does to the three lists: nothing, or its code, which is
    then not blank, goes to the end of exactly one of them. *)
Lemma place_choice_lists si sd psheet main st code st' :
  place_choice si sd psheet main st code = Ok st' ->
  (s_classes (ps_student st') = s_classes (ps_student st)
   /\ ps_unaccepted st' = ps_unaccepted st /\ ps_invalid st' = ps_invalid st)
  \/ (String.eqb (strip code) "" = false
      /\ ((s_classes (ps_student st') = s_classes (ps_student st) ++ [code]
           /\ ps_unaccepted st' = ps_unaccepted st
           /\ ps_invalid st' = ps_invalid st)
          \/ (s_classes (ps_student st') = s_classes (ps_student st)
              /\ ps_unaccepted st' = ps_unaccepted st ++ [code]
              /\ ps_invalid st' = ps_invalid st)
          \/ (s_classes (ps_student st') = s_classes (ps_student st)
              /\ ps_unaccepted st' = ps_unaccepted st
              /\ ps_invalid st' = ps_invalid st ++ [code]))).
Proof.
  unfold place_choice.
  destruct (String.eqb (strip code) "") eqn:Hb; [intros [= <-]; auto|].
  destruct (existsb _ _); [intros [= <-]; auto|].
  destruct (sd !! code) as [roster|]; [|intros [= <-]; simpl; auto 10].
  destruct (zip_columns roster 1 2 3 6) as [rn|]; simpl; [|discriminate].
  destruct (scan_roster _ _ _ _) as [[found sid]|]; simpl; [|discriminate].
  destruct (class_cap_of main code) as [cap|]; simpl; [|discriminate].
  destruct (ps_offsets st !! code) as [off|]; [|discriminate].
  destruct (_ && _); [intros [= <-]; simpl; auto 10|].
  destruct (_ && _); [intros [= <-]; simpl; auto 10|].
  destruct found; intros [= <-]; simpl; auto 10.
Qed.

Lemma place_choices_lists si sd psheet main cs st st' :
  foldM (place_choice si sd psheet main) cs st = Ok st' ->
  exists accepted full invalid,
    s_classes (ps_student st') = s_classes (ps_student st) ++ accepted
    /\ ps_unaccepted st' = ps_unaccepted st ++ full
    /\ ps_invalid st' = ps_invalid st ++ invalid
    /\ (length accepted + length full + length invalid <= length cs)%nat
    /\ Forall (fun c => In c cs /\ String.eqb (strip c) "" = false)
              (accepted ++ full ++ invalid).
Proof.
  revert st; induction cs as [|c cs IH]; intros st; simpl.
  - intros [= <-]. exists [], [], []. rewrite !app_nil_r.
    repeat split; auto.
  - destruct (place_choice si sd psheet main st c) as [s1|] eqn:Hstep; simpl;
      [|discriminate].
    intros Hrun.
    destruct (IH _ Hrun) as (acc & full & inv & Ha & Hf & Hi & Hlen & Hall).
    assert (Forall (fun c0 => (c = c0 \/ In c0 cs)
                              /\ String.eqb (strip c0) "" = false)
                   (acc ++ full ++ inv)) as Hall'.
    { eapply Forall_impl; [exact Hall|]. simpl. intros x [H1 H2]. auto. }
    destruct (place_choice_lists _ _ _ _ _ _ _ Hstep)
      as [(E1 & E2 & E3)|(Hb & [(E1 & E2 & E3)|[(E1 & E2 & E3)|(E1 & E2 & E3)]])];
      rewrite E1 in Ha; rewrite E2 in Hf; rewrite E3 in Hi.
    + exists acc, full, inv. repeat split; auto; try lia.
    + exists (c :: acc), full, inv. rewrite <- app_assoc in Ha.
      repeat split; auto; try (simpl; lia).
      simpl. constructor; auto.
    + exists acc, (c :: full), inv. rewrite <- app_assoc in Hf.
      repeat split; auto; try (simpl; lia).
      apply Forall_app in Hall' as [H1 H2].
      apply Forall_app. split; [exact H1|]. simpl. constructor; auto.
    + exists acc, full, (c :: inv). rewrite <- app_assoc in Hi.
      repeat split; auto; try (simpl; lia).
      apply Forall_app in Hall' as [H1 H2].
      apply Forall_app in H2 as [H2 H3].
      apply Forall_app. split; [exact H1|].
      apply Forall_app. split; [exact H2|]. constructor; auto.
Qed.

(** X6. [place_student] only appends: the student keeps the classes held, and
    the codes accepted, those put on [unaccepted] and those put on [invalid]
    are choices that are not blank, no more of them altogether than there
    are choices. *)
Theorem choices_accounted student cs si sd psheet offs st' :
  place_student student cs si sd psheet offs = Ok st' ->
  exists accepted,
    s_classes (ps_student st') = s_classes student ++ accepted
    /\ (length accepted + length (ps_unaccepted st') + length (ps_invalid st')
        <= length cs)%nat
    /\ Forall (fun c => In c cs /\ String.eqb (strip c) "" = false)
              (accepted ++ ps_unaccepted st' ++ ps_invalid st').
Proof.
  unfold place_student. destruct (sd !! "Classes") as [main|]; [|discriminate].
  intros Hrun.
  destruct (place_choices_lists _ _ _ _ _ _ _ Hrun)
    as (acc & full & inv & Ha & Hf & Hi & Hlen & Hall).
  simpl in Ha, Hf, Hi. rewrite Hf, Hi. exists acc. auto.
Qed.

Lemma choices_accounted_witness :
  exists accepted,
    s_classes (ps_student More.cy_placed)
    = s_classes Demo.cy_student ++ accepted
    /\ (length accepted + length (ps_unaccepted More.cy_placed)
        + length (ps_invalid More.cy_placed)
        <= length (choices Demo.cy))%nat
    /\ Forall (fun c => In c (choices Demo.cy)
                        /\ String.eqb (strip c) "" = false)
              (accepted ++ ps_unaccepted More.cy_placed
                 ++ ps_invalid More.cy_placed).
Proof.
  apply (choices_accounted Demo.cy_student (choices Demo.cy)
           (Demo.stud_info_of Demo.cy) Demo.sheet_data Demo.parent_sheet
           Demo.offsets0 More.cy_placed).
  vm_compute. reflexivity.
Defined.

(** ** Form responses *)

Lemma foldM_invariant_in {A S : Type} (P : S -> Prop) (body : S -> A -> result S)
    (l : list A) :
  (forall s x s', In x l -> P s -> body s x = Ok s' -> P s') ->
  forall s s', P s -> foldM body l s = Ok s' -> P s'.
Proof.
  induction l as [|x l IH]; intros Hstep s s' Hs Hrun; simpl in Hrun.
  - congruence.
  - destruct (body s x) as [s1|] eqn:Hb; simpl in Hrun; [|discriminate].
    eapply IH; [| |exact Hrun].
    + intros s0 y s0' Hy. apply Hstep. now right.
    + eapply Hstep; [now left | exact Hs | exact Hb].
Qed.

(** A loop raises when its body raises at some element whatever the state. *)
Lemma foldM_raises {A S : Type} (body : S -> A -> result S) (l : list A) (x : A) :
  In x l -> (forall s, exists e, body s x = Raise e) ->
  forall s, exists e, foldM body l s = Raise e.
Proof.
  intros Hin Hx. induction l as [|y l IH]; [destruct Hin|].
  intros s. simpl. destruct Hin as [->|Hin].
  - destruct (Hx s) as (e & ->). now exists e.
  - destruct (body s y) as [s1|e]; simpl; [now apply IH | now exists e].
Qed.

Lemma strip_codes_spec (cells : list value) (cs : list string) :
  strip_codes cells = Ok cs ->
  (length cs <= length cells)%nat
  /\ Forall (fun c => strip c = c /\ c <> "") cs.
Proof.
  revert cs; induction cells as [|v cells IH]; intros cs; simpl.
  - intros [= <-]. split; [simpl; lia | constructor].
  - destruct v as [|s|]; simpl; try discriminate.
    destruct (strip_codes cells) as [cs'|]; simpl; [|discriminate].
    destruct (IH cs' eq_refl) as [Hlen Hall].
    destruct (String.eqb (strip s) "") eqn:Hb; intros [= <-].
    + split; [simpl; lia | exact Hall].
    + split; [simpl; lia|]. constructor; [|exact Hall].
      split; [apply strip_idempotent | now apply String.eqb_neq].
Qed.

Lemma form_response_choices (rw : row) (r : FormResponse) :
  form_response_of_row rw = Ok r ->
  (length (choices r) <= 2)%nat
  /\ Forall (fun c => strip c = c /\ c <> "") (choices r).
Proof.
  unfold form_response_of_row.
  destruct (cell_strip rw 3) as [sf|]; simpl; [|discriminate].
  destruct (cell_strip rw 4) as [sl|]; simpl; [|discriminate].
  destruct (cell_strip rw 6) as [p1f|]; simpl; [|discriminate].
  destruct (cell_strip rw 7) as [p1l|]; simpl; [|discriminate].
  destruct (cell_strip rw 8) as [p1e|]; simpl; [|discriminate].
  destruct (strip_codes _) as [cs|] eqn:Hcs; simpl; [|discriminate].
  destruct (cell_strip rw 5) as [se|]; simpl; [|discriminate].
  destruct (cell_strip rw 23) as [sn|]; simpl; [|discriminate].
  destruct (cell_strip rw 9) as [p2f|]; simpl; [|discriminate].
  destruct (cell_strip rw 10) as [p2l|]; simpl; [|discriminate].
  destruct (cell_strip rw 11) as [p2e|]; simpl; [|discriminate].
  intros [= <-]. simpl.
  destruct (strip_codes_spec _ _ Hcs) as [Hlen Hall]. split; [|exact Hall].
  rewrite length_take in Hlen. lia.
Qed.

Lemma get_form_responses_acc (rows : sheet) (acc res : list FormResponse) :
  foldM (fun (responses : list FormResponse) (r : row) =>
           match r with
           | [] => Ok responses
           | _ :: _ =>
               let* f := form_response_of_row r in Ok (responses ++ [f])
           end) rows acc = Ok res ->
  exists new,
    res = acc ++ new
    /\ length new = length (List.filter (fun r : row => negb (Nat.eqb (length r) 0)) rows)
    /\ Forall (fun r => exists rw, In rw rows /\ form_response_of_row rw = Ok r)
              new.
Proof.
  revert acc; induction rows as [|rw rows IH]; intros acc; simpl.
  - intros [= <-]. exists []. rewrite app_nil_r. repeat split. constructor.
  - destruct rw as [|c rw].
    + simpl. intros Hrun. destruct (IH _ Hrun) as (new & -> & Hlen & Hall).
      exists new. repeat split; [exact Hlen|].
      eapply Forall_impl; [exact Hall|]. simpl.
      intros r (rw' & Hin & Hr). exists rw'. auto.
    + destruct (form_response_of_row (c :: rw)) as [f|] eqn:Hf; simpl;
        [|discriminate].
      intros Hrun. destruct (IH _ Hrun) as (new & -> & Hlen & Hall).
      exists (f :: new). rewrite <- app_assoc. repeat split.
      * simpl. now rewrite Hlen.
      * constructor; [exists (c :: rw); auto|].
        eapply Forall_impl; [exact Hall|]. simpl.
        intros r (rw' & Hin & Hr). exists rw'. auto.
Qed.

(** X7. [get_form_responses] gives one response for every row below the
    header that is not empty, in order; a response carries at most two
    choices, each stripped and not blank. *)
Theorem form_responses_choices (spreadsheet : sheet) responses :
  get_form_responses spreadsheet = Ok responses ->
  length responses
  = length (List.filter (fun r : row => negb (Nat.eqb (length r) 0))
                   (drop 1 spreadsheet))
  /\ Forall (fun r => (length (choices r) <= 2)%nat
                      /\ Forall (fun c => strip c = c /\ c <> "") (choices r))
            responses.
Proof.
  unfold get_form_responses. intros Hrun.
  destruct (get_form_responses_acc _ _ _ Hrun) as (new & -> & Hlen & Hall).
  simpl. split; [exact Hlen|].
  eapply Forall_impl; [exact Hall|]. simpl.
  intros r (rw & _ & Hr). now apply (form_response_choices rw).
Qed.

Lemma form_responses_choices_witness :
  length More.responses
  = length (List.filter (fun r : row => negb (Nat.eqb (length r) 0))
                   (drop 1 More.form_sheet))
  /\ Forall (fun r => (length (choices r) <= 2)%nat
                      /\ Forall (fun c => strip c = c /\ c <> "") (choices r))
            More.responses.
Proof.
  apply (form_responses_choices More.form_sheet More.responses).
  vm_compute. reflexivity.
Defined.

Lemma cell_strip_short (r : row) (k : nat) :
  (length r <= k)%nat -> cell_strip r k = Raise IndexError.
Proof.
  intros H. unfold cell_strip.
  assert (r !! k = None) as -> by (apply lookup_ge_None_2; exact H).
  reflexivity.
Qed.

Lemma form_response_short (rw : row) :
  (length rw <= 23)%nat -> exists e, form_response_of_row rw = Raise e.
Proof.
  intros Hlen. unfold form_response_of_row.
  destruct (cell_strip rw 3); simpl; [|eexists; reflexivity].
  destruct (cell_strip rw 4); simpl; [|eexists; reflexivity].
  destruct (cell_strip rw 6); simpl; [|eexists; reflexivity].
  destruct (cell_strip rw 7); simpl; [|eexists; reflexivity].
  destruct (cell_strip rw 8); simpl; [|eexists; reflexivity].
  destruct (strip_codes _); simpl; [|eexists; reflexivity].
  destruct (cell_strip rw 5); simpl; [|eexists; reflexivity].
  rewrite (cell_strip_short rw 23 Hlen). simpl. eexists; reflexivity.
Qed.

(** X8. A row of the form sheet below the header that has between 1 and 23
    cells makes [get_form_responses] raise: the note of the response is read
    from the 24th cell. *)
Theorem short_form_row_aborts (spreadsheet : sheet) (rw : row) :
  In rw (drop 1 spreadsheet) ->
  rw <> [] ->
  (length rw <= 23)%nat ->
  exists e, get_form_responses spreadsheet = Raise e.
Proof.
  intros Hin Hne Hlen. unfold get_form_responses.
  apply (foldM_raises _ _ rw Hin). intros s.
  destruct (form_response_short rw Hlen) as (e & He).
  destruct rw as [|c rw]; [contradiction|].
  rewrite He. exists e. reflexivity.
Qed.

Lemma short_form_row_aborts_witness :
  exists e, get_form_responses More.short_sheet = Raise e.
Proof.
  apply (short_form_row_aborts More.short_sheet More.short_row).
  - simpl. left. reflexivity.
  - discriminate.
  - simpl. lia.
Defined.

Lemma pass_class_bound uuid sd psheet (k : nat) responses st st' :
  Forall (fun r => (length (choices r) <= k)%nat) responses ->
  Forall (fun e : value * Student => (length (s_classes (snd e)) <= k)%nat)
         (gs_students st) ->
  foldM (process_response uuid sd psheet) responses st = Ok st' ->
  Forall (fun e : value * Student => (length (s_classes (snd e)) <= k)%nat)
         (gs_students st').
Proof.
  intros Hk.
  apply (foldM_invariant_in
           (fun s => Forall (fun e : value * Student =>
                               (length (s_classes (snd e)) <= k)%nat)
                            (gs_students s))).
  intros s r s1 Hin Hs Hstep.
  destruct (process_response_students _ _ _ _ _ _ Hstep)
    as [[-> _]|(student0 & cs & n0 & ps & s' & Hg & Hp & _ & Hcl & ->)];
    [exact Hs|].
  apply List.Forall_forall. intros e He.
  destruct (dict_set_in _ _ _ _ He) as [Hold| ->].
  - exact (proj1 (List.Forall_forall _ _) Hs e Hold).
  - rewrite Hcl.
    destruct (get_student_classes _ _ _ _ _ _ Hg) as [Hnil ->].
    unfold place_student in Hp.
    destruct (sd !! "Classes") as [main|]; [|discriminate].
    destruct (place_choices_lists _ _ _ _ _ _ _ Hp)
      as (acc & full & inv & Ha & _ & _ & Hlen & _).
    simpl in Ha. rewrite Ha, Hnil. simpl.
    pose proof (proj1 (List.Forall_forall _ _) Hk r Hin) as Hr. simpl in Hr. lia.
Qed.

(** X9. Through the form no student passes the enrollment limit: when the
    responses are those that [get_form_responses] reads, every student that
    the registration pass registers holds one or two classes, a list that
    [set_classes] accepts. *)
Theorem form_students_within_limit
    uuid form_sheet responses invalid_sheet full_class_sheet sd psheet gs :
  get_form_responses form_sheet = Ok responses ->
  get_students_parents uuid responses invalid_sheet full_class_sheet sd psheet
    = Ok gs ->
  forall k s,
    In (k, s) (gs_students gs) ->
    (1 <= length (s_classes s) <= 2)%nat
    /\ exists s', set_classes s (s_classes s) = Ok s'.
Proof.
  intros Hform Hrun k s Hin.
  assert (Forall (fun r => (length (choices r) <= 2)%nat
                           /\ Forall (fun c => strip c = c /\ c <> "") (choices r))
                 responses) as Hch.
  { unfold get_form_responses in Hform.
    destruct (get_form_responses_acc _ _ _ Hform) as (new & -> & _ & Hall).
    simpl. eapply Forall_impl; [exact Hall|]. simpl.
    intros r (rw & _ & Hr). now apply (form_response_choices rw). }
  unfold get_students_parents in Hrun.
  destruct (zip_columns invalid_sheet 0 1 2 3); simpl in Hrun; [|discriminate].
  destruct (zip_columns full_class_sheet 0 1 2 3); simpl in Hrun; [|discriminate].
  destruct (load_parents uuid psheet) as [[parents n]|]; simpl in Hrun;
    [|discriminate].
  assert ((length (s_classes s) <= 2)%nat) as Hle.
  { eapply pass_class_bound in Hrun; [| |constructor].
    - exact (proj1 (List.Forall_forall _ _) Hrun (k, s) Hin).
    - eapply Forall_impl; [exact Hch|]. simpl. tauto. }
  assert (s_classes s <> []) as Hne.
  { eapply registry_students_hold_classes in Hrun; [|constructor].
    exact (proj1 (List.Forall_forall _ _) Hrun (k, s) Hin). }
  split.
  - destruct (s_classes s); [contradiction | simpl in *; lia].
  - unfold set_classes, MAX_ENROLLMENTS.
    destruct (3 <? length (s_classes s))%nat eqn:H3.
    + apply Nat.ltb_lt in H3. lia.
    + eexists. reflexivity.
Qed.

Lemma form_students_within_limit_witness :
  gs_students (Demo.pass_of More.responses) <> []
  /\ Forall (fun e : value * Student =>
               (1 <= length (s_classes (snd e)) <= 2)%nat
               /\ exists s', set_classes (snd e) (s_classes (snd e)) = Ok s')
            (gs_students (Demo.pass_of More.responses)).
Proof.
  split; [vm_compute; discriminate|].
  apply List.Forall_forall. intros [k s].
  apply (form_students_within_limit Demo.uuid More.form_sheet More.responses
           Demo.log_sheet Demo.log_sheet Demo.sheet_data Demo.parent_sheet
           (Demo.pass_of More.responses)).
  - vm_compute. reflexivity.
  - vm_compute. reflexivity.
Defined.

(** ** The registries *)

Lemma process_response_skips uuid sd psheet st r :
  existsb (py_eq (student_first r, student_last r, parent1_first r,
                  parent1_last r)) (gs_info_list st) = true ->
  process_response uuid sd psheet st r = Ok st.
Proof. intros H. unfold process_response. now rewrite H. Qed.

Lemma process_response_keeps_seen uuid sd psheet st r st' (k : stud_info_t) :
  existsb (py_eq k) (gs_info_list st) = true ->
  process_response uuid sd psheet st r = Ok st' ->
  existsb (py_eq k) (gs_info_list st') = true.
Proof.
  intros Hk. unfold process_response.
  match goal with
  | |- context [existsb ?f (gs_info_list st)] =>
      destruct (existsb f (gs_info_list st))
  end; [now intros [= <-]|].
  destruct (get_student uuid r (gs_uuids st)) as [[[student0 cs] n0]|];
    simpl; [|discriminate].
  destruct (place_student _ _ _ _ _ _) as [ps|]; simpl; [|discriminate].
  match goal with
  | |- context [rbind ?c _] => destruct c as [[[students parents] n1]|]
  end; simpl; [|discriminate].
  destruct (fold_left _ (ps_invalid ps) _) as [invalid_info ev1].
  destruct (fold_left _ (ps_unaccepted ps) _) as [full_info ev2].
  intros [= <-]. simpl. rewrite existsb_app, Hk. reflexivity.
Qed.

Lemma pass_sees_all uuid sd psheet rs st st' r :
  In r rs ->
  foldM (process_response uuid sd psheet) rs st = Ok st' ->
  existsb (py_eq (student_first r, student_last r, parent1_first r,
                  parent1_last r)) (gs_info_list st') = true.
Proof.
  revert st; induction rs as [|x rs IH]; intros st Hin; [destruct Hin|].
  simpl. destruct (process_response uuid sd psheet st x) as [s1|] eqn:Hstep;
    simpl; [|discriminate].
  intros Hrun. destruct Hin as [->|Hin]; [|now apply (IH s1)].
  pose proof (process_response_seen _ _ _ _ _ _ Hstep) as Hseen.
  revert Hrun. apply (foldM_invariant (fun s => existsb _ (gs_info_list s) = true));
    [|exact Hseen].
  intros s y s' Hs. now apply process_response_keeps_seen.
Qed.

(** X10. Only the first response of a student counts: a response whose
    student's and first parent's names are those of an earlier response of
    the run changes nothing, whatever its choices and addresses are; the
    pass ends as it does without that response. *)
Theorem repeated_response_ignored
    uuid rs r r' invalid_sheet full_class_sheet sd psheet :
  In r rs ->
  (student_first r', student_last r', parent1_first r', parent1_last r')
  = (student_first r, student_last r, parent1_first r, parent1_last r) ->
  get_students_parents uuid (rs ++ [r']) invalid_sheet full_class_sheet sd psheet
  = get_students_parents uuid rs invalid_sheet full_class_sheet sd psheet.
Proof.
  intros Hin Hkey. unfold get_students_parents.
  destruct (zip_columns invalid_sheet 0 1 2 3); simpl; [|reflexivity].
  destruct (zip_columns full_class_sheet 0 1 2 3); simpl; [|reflexivity].
  destruct (load_parents uuid psheet) as [[parents n]|]; simpl; [|reflexivity].
  rewrite foldM_app.
  destruct (foldM _ rs _) as [st'|] eqn:Hrun; simpl; [|reflexivity].
  rewrite process_response_skips; [reflexivity|]. rewrite Hkey.
  eapply pass_sees_all; eassumption.
Qed.

Lemma repeated_response_ignored_witness :
  get_students_parents Demo.uuid
    ([Demo.cy; Demo.ann]
     ++ [Demo.response "Cy" "Young" "Di" "Young" "other@x.org" ["11111"]])
    Demo.log_sheet Demo.log_sheet Demo.sheet_data Demo.parent_sheet
  = get_students_parents Demo.uuid [Demo.cy; Demo.ann]
      Demo.log_sheet Demo.log_sheet Demo.sheet_data Demo.parent_sheet.
Proof.
  apply (repeated_response_ignored Demo.uuid [Demo.cy; Demo.ann] Demo.cy
           (Demo.response "Cy" "Young" "Di" "Young" "other@x.org" ["11111"])).
  - left. reflexivity.
  - reflexivity.
Defined.

Lemma dict_get_set_same {V : Type} (k : value) (v : V) (d : dict V) :
  dict_get k (dict_set k v d) = Some v.
Proof.
  induction d as [|[k' v'] d IH]; simpl.
  - now rewrite py_eq_refl.
  - destruct (py_eq k' k) eqn:Hk; simpl; now rewrite Hk.
Qed.

Lemma dict_get_set_mono {V : Type} (j k : value) (v : V) (d : dict V) :
  is_Some (dict_get j d) -> is_Some (dict_get j (dict_set k v d)).
Proof.
  induction d as [|[k' v'] d IH]; simpl; [intros [? [=]]|].
  destruct (py_eq k' k) eqn:Hk; simpl; destruct (py_eq k' j); eauto.
Qed.

Lemma dict_set_keyed (k : value) (p : Parent) (d : dict Parent) :
  keyed_by_id d -> p_id (pa_person p) = k -> keyed_by_id (dict_set k p d).
Proof.
  unfold keyed_by_id. intros Hd Hp.
  induction d as [|[k' p'] d IH]; simpl.
  - constructor; [exact Hp | constructor].
  - inversion Hd as [|? ? H1 H2]; subst.
    destruct (py_eq k' (p_id (pa_person p))) eqn:Hk.
    + constructor; [|exact H2]. simpl.
      unfold py_eq in Hk. apply bool_decide_eq_true in Hk. now symmetry.
    + constructor; [exact H1 | now apply IH].
Qed.

Lemma adopt_keyed ne child parents parents' pid :
  keyed_by_id parents ->
  adopt ne child parents = Some (parents', pid) ->
  keyed_by_id parents'
  /\ is_Some (dict_get pid parents')
  /\ forall j, is_Some (dict_get j parents) -> is_Some (dict_get j parents').
Proof.
  unfold keyed_by_id.
  revert parents'; induction parents as [|[k p] rest IH]; intros parents' Hd;
    simpl; [discriminate|].
  inversion Hd as [|? ? H1 H2]; subst. simpl in H1.
  destruct (py_eq (parent_key p) ne).
  - intros [= <- <-]. split; [constructor; assumption|].
    split; [simpl; rewrite H1, py_eq_refl; eauto|].
    intros j. simpl. destruct (py_eq k j); eauto.
  - destruct (adopt ne child rest) as [[rest' pid']|]; [|discriminate].
    intros [= <- <-]. destruct (IH rest' H2 eq_refl) as (Hk & Hpid & Hmono).
    split; [constructor; assumption|].
    split; [simpl; destruct (py_eq k _); eauto|].
    intros j. simpl. destruct (py_eq k j); eauto.
Qed.

Lemma new_Parent_children uuid f l e children n p n' :
  new_Parent uuid f l e children n = Ok (p, n') -> pa_children p = children.
Proof.
  unfold new_Parent, new_Person. destruct f, l; simpl; try discriminate.
  now intros [= <- <-].
Qed.

Lemma resolve_parent_keyed ne child make parents n parents' pid n' :
  keyed_by_id parents ->
  resolve_parent ne child make parents n = Ok (parents', pid, n') ->
  keyed_by_id parents'
  /\ is_Some (dict_get pid parents')
  /\ forall j, is_Some (dict_get j parents) -> is_Some (dict_get j parents').
Proof.
  intros Hk. unfold resolve_parent.
  destruct (adopt ne child parents) as [[parents1 pid1]|] eqn:Ha.
  - intros [= <- <- <-]. eapply adopt_keyed; eassumption.
  - destruct (make [child] n) as [[p n1]|]; simpl; [|discriminate].
    intros [= <- <- <-]. split; [now apply dict_set_keyed|].
    split; [rewrite dict_get_set_same; eauto|].
    intros j. apply dict_get_set_mono.
Qed.

(** What [register] does: the parents stay keyed by their identifiers and
    none is lost, and the student is stored with one or two more parents,
    all of them registered. *)
Lemma register_parents uuid r student students parents n students' parents' n' :
  keyed_by_id parents ->
  register uuid r student students parents n = Ok (students', parents', n') ->
  keyed_by_id parents'
  /\ (forall j, is_Some (dict_get j parents) -> is_Some (dict_get j parents'))
  /\ exists s' extra,
       students' = dict_set (p_id (s_person student)) s' students
       /\ s_parents s' = s_parents student ++ extra
       /\ (length extra = 1 \/ length extra = 2)%nat
       /\ known_parents parents' extra.
Proof.
  intros Hk. unfold register.
  destruct (resolve_parent _ _ (get_parent1 uuid r) parents n)
    as [[[parents1 pid1] n1]|] eqn:H1; simpl; [|discriminate].
  destruct (resolve_parent_keyed _ _ _ _ _ _ _ _ Hk H1) as (Hk1 & Hp1 & Hm1).
  destruct (parent2_first r) as [f2|]; [|discriminate].
  destruct (negb _).
  - destruct (parent2_email r) as [e2|]; [|discriminate].
    destruct (resolve_parent _ _ (get_parent2 uuid r) parents1 n1)
      as [[[parents2 pid2] n2]|] eqn:H2; simpl; [|discriminate].
    destruct (resolve_parent_keyed _ _ _ _ _ _ _ _ Hk1 H2) as (Hk2 & Hp2 & Hm2).
    intros [= <- <- <-]. split; [exact Hk2|]. split; [auto|].
    eexists _, [pid1; pid2]. split; [reflexivity|].
    split; [simpl; now rewrite <- app_assoc|]. split; [now right|].
    constructor; [auto | constructor; [exact Hp2 | constructor]].
  - intros [= <- <- <-]. split; [exact Hk1|]. split; [exact Hm1|].
    eexists _, [pid1]. split; [reflexivity|]. split; [reflexivity|].
    split; [now left|]. constructor; [exact Hp1 | constructor].
Qed.

Lemma place_choice_parents si sd psheet main st code st' :
  place_choice si sd psheet main st code = Ok st' ->
  s_parents (ps_student st') = s_parents (ps_student st).
Proof.
  unfold place_choice.
  destruct (String.eqb (strip code) ""); [now intros [= <-]|].
  destruct (existsb _ _); [now intros [= <-]|].
  destruct (sd !! code) as [roster|]; [|now intros [= <-]].
  destruct (zip_columns roster 1 2 3 6) as [rn|]; simpl; [|discriminate].
  destruct (scan_roster _ _ _ _) as [[found sid]|]; simpl; [|discriminate].
  destruct (class_cap_of main code) as [cap|]; simpl; [|discriminate].
  destruct (ps_offsets st !! code) as [off|]; [|discriminate].
  destruct (_ && _); [now intros [= <-]|].
  destruct (_ && _); [now intros [= <-]|].
  destruct found; now intros [= <-].
Qed.

Lemma place_student_parents student cs si sd psheet offs st' :
  place_student student cs si sd psheet offs = Ok st' ->
  s_parents (ps_student st') = s_parents student.
Proof.
  unfold place_student. destruct (sd !! "Classes") as [main|]; [|discriminate].
  apply (foldM_invariant
           (fun s => s_parents (ps_student s) = s_parents student));
    [|reflexivity].
  intros s x s1 Hs Hstep. rewrite <- Hs. eapply place_choice_parents, Hstep.
Qed.

Lemma get_student_parents uuid r n s cs n' :
  get_student uuid r n = Ok (s, cs, n') -> s_parents s = [].
Proof. unfold get_student. simpl. now intros [= <- <- <-]. Qed.

(** One response leaves both registries alone or registers its student. *)
Lemma process_response_register uuid sd psheet st r st' :
  process_response uuid sd psheet st r = Ok st' ->
  (gs_students st' = gs_students st /\ gs_parents st' = gs_parents st)
  \/ exists student0 cs n0 ps n1,
       get_student uuid r (gs_uuids st) = Ok (student0, cs, n0)
       /\ place_student student0 cs
            (student_first r, student_last r, parent1_first r, parent1_last r)
            sd psheet (gs_offsets st) = Ok ps
       /\ register uuid r (ps_student ps) (gs_students st) (gs_parents st) n0
          = Ok (gs_students st', gs_parents st', n1).
Proof.
  unfold process_response.
  match goal with
  | |- context [existsb ?f (gs_info_list st)] =>
      destruct (existsb f (gs_info_list st)); [intros [= <-]; auto|]
  end.
  destruct (get_student uuid r (gs_uuids st)) as [[[student0 cs] n0]|] eqn:Hg;
    simpl; [|discriminate].
  destruct (place_student _ _ _ _ _ _) as [ps|] eqn:Hp; simpl; [|discriminate].
  destruct (0 <? length (s_classes (ps_student ps)))%nat.
  - destruct (register _ _ _ _ _ _) as [[[students parents] n1]|] eqn:Hr;
      simpl; [|discriminate].
    destruct (fold_left _ (ps_invalid ps) _) as [invalid_info ev1].
    destruct (fold_left _ (ps_unaccepted ps) _) as [full_info ev2].
    intros [= <-]. simpl. right. exists student0, cs, n0, ps, n1. auto.
  - simpl.
    destruct (fold_left _ (ps_invalid ps) _) as [invalid_info ev1].
    destruct (fold_left _ (ps_unaccepted ps) _) as [full_info ev2].
    intros [= <-]. simpl. auto.
Qed.

Lemma load_parents_keyed uuid psheet parents n :
  load_parents uuid psheet = Ok (parents, n) -> keyed_by_id parents.
Proof.
  unfold load_parents. destruct (get_column psheet 0); [|discriminate].
  intros Hrun.
  change (keyed_by_id (fst (parents, n))).
  revert Hrun.
  apply (foldM_invariant (fun s : dict Parent * nat => keyed_by_id (fst s)));
    [|constructor].
  intros [d m] rw [d' m'] Hd. unfold load_parent_row.
  destruct rw as [|k [|f [|la rest]]]; try (intros [= <- <-]; exact Hd).
  destruct (py_strip f) as [f'|]; simpl; [|discriminate].
  destruct (py_strip la) as [l'|]; simpl; [|discriminate].
  destruct (email_arg _) as [e'|]; simpl; [|discriminate].
  intros [= <- <-]. simpl. now apply dict_set_keyed.
Qed.

Lemma parent_emails_known parents ids :
  known_parents parents ids ->
  exists emails,
    parent_emails parents ids = Ok emails /\ length emails = length ids.
Proof.
  induction 1 as [|i ids [p Hp] Hids (emails & IH & Hlen)]; simpl.
  - exists []. auto.
  - rewrite Hp, IH. simpl. eexists. split; [reflexivity|].
    simpl. now rewrite Hlen.
Qed.

Lemma pass_parents_known uuid sd psheet responses st st' :
  keyed_by_id (gs_parents st)
  /\ Forall (fun e : value * Student =>
               (length (s_parents (snd e)) = 1 \/ length (s_parents (snd e)) = 2)%nat
               /\ known_parents (gs_parents st) (s_parents (snd e)))
            (gs_students st) ->
  foldM (process_response uuid sd psheet) responses st = Ok st' ->
  keyed_by_id (gs_parents st')
  /\ Forall (fun e : value * Student =>
               (length (s_parents (snd e)) = 1 \/ length (s_parents (snd e)) = 2)%nat
               /\ known_parents (gs_parents st') (s_parents (snd e)))
            (gs_students st').
Proof.
  apply (foldM_invariant
           (fun s =>
              keyed_by_id (gs_parents s)
              /\ Forall (fun e : value * Student =>
                           (length (s_parents (snd e)) = 1
                            \/ length (s_parents (snd e)) = 2)%nat
                           /\ known_parents (gs_parents s) (s_parents (snd e)))
                        (gs_students s))).
  intros s r s1 [Hk Hs] Hstep.
  destruct (process_response_register _ _ _ _ _ _ Hstep)
    as [[-> ->]|(student0 & cs & n0 & ps & n1 & Hg & Hp & Hr)]; [auto|].
  destruct (register_parents _ _ _ _ _ _ _ _ _ Hk Hr)
    as (Hk1 & Hmono & s' & extra & -> & Hpar & Hlen & Hknown).
  split; [exact Hk1|].
  apply List.Forall_forall. intros e He.
  destruct (dict_set_in _ _ _ _ He) as [Hold| ->].
  - destruct (proj1 (List.Forall_forall _ _) Hs e Hold) as [H1 H2].
    split; [exact H1|]. unfold known_parents in *.
    eapply Forall_impl; [exact H2|]. simpl. auto.
  - rewrite Hpar, (place_student_parents _ _ _ _ _ _ _ Hp),
      (get_student_parents _ _ _ _ _ _ Hg). simpl. auto.
Qed.

(** X11. After the registration pass every parent stands in the registry
    under its own identifier, and every registered student has one or two
    parents, each of them in the registry: when the placements are written,
    the student's first parent exists and the addresses for the welcome
    e-mail are found, one for each parent. *)
Theorem registered_students_have_parents
    uuid responses invalid_sheet full_class_sheet sd psheet gs :
  get_students_parents uuid responses invalid_sheet full_class_sheet sd psheet
    = Ok gs ->
  keyed_by_id (gs_parents gs)
  /\ forall k s,
       In (k, s) (gs_students gs) ->
       (length (s_parents s) = 1 \/ length (s_parents s) = 2)%nat
       /\ exists emails,
            parent_emails (gs_parents gs) (s_parents s) = Ok emails
            /\ length emails = length (s_parents s).
Proof.
  unfold get_students_parents.
  destruct (zip_columns invalid_sheet 0 1 2 3); simpl; [|discriminate].
  destruct (zip_columns full_class_sheet 0 1 2 3); simpl; [|discriminate].
  destruct (load_parents uuid psheet) as [[parents n]|] eqn:Hl; simpl;
    [|discriminate].
  intros Hrun. eapply pass_parents_known in Hrun.
  - destruct Hrun as [Hk Hs]. split; [exact Hk|]. intros k s Hin.
    destruct (proj1 (List.Forall_forall _ _) Hs (k, s) Hin) as [H1 H2].
    split; [exact H1|]. now apply parent_emails_known.
  - simpl. split; [eapply load_parents_keyed, Hl | constructor].
Qed.

Lemma registered_students_have_parents_witness :
  keyed_by_id (gs_parents (Demo.pass_of [Demo.cy; Demo.ann]))
  /\ forall k s,
       In (k, s) (gs_students (Demo.pass_of [Demo.cy; Demo.ann])) ->
       (length (s_parents s) = 1 \/ length (s_parents s) = 2)%nat
       /\ exists emails,
            parent_emails (gs_parents (Demo.pass_of [Demo.cy; Demo.ann]))
              (s_parents s) = Ok emails
            /\ length emails = length (s_parents s).
Proof.
  apply (registered_students_have_parents Demo.uuid [Demo.cy; Demo.ann]
           Demo.log_sheet Demo.log_sheet Demo.sheet_data Demo.parent_sheet
           (Demo.pass_of [Demo.cy; Demo.ann])).
  vm_compute. reflexivity.
Defined.

Lemma parent_rows_cons (e : value * Parent) parents uuids start :
  parent_rows (e :: parents) uuids start
  = if existsb (py_eq (p_id (pa_person (snd e)))) uuids
    then parent_rows parents uuids start
    else WriteRow "Parents" (parent_info (snd e)) start
         :: parent_rows parents uuids (S start).
Proof.
  unfold parent_rows. simpl.
  destruct (existsb _ uuids); simpl; [reflexivity|].
  rewrite Nat.add_0_r. f_equal. apply imap_ext. intros i x _. simpl.
  f_equal. lia.
Qed.

Lemma write_parents_fold parents uuids start acc :
  snd (fold_left
         (fun (st : nat * list event) (e : value * Parent) =>
            if existsb (py_eq (p_id (pa_person (snd e)))) uuids then st
            else (S (fst st),
                  snd st ++ [WriteRow "Parents" (parent_info (snd e)) (fst st)]))
         parents (start, acc))
  = acc ++ parent_rows parents uuids start.
Proof.
  revert start acc; induction parents as [|e parents IH]; intros start acc.
  - simpl. now rewrite app_nil_r.
  - rewrite parent_rows_cons. simpl.
    destruct (existsb _ uuids); [apply IH|].
    simpl. rewrite IH. now rewrite <- app_assoc.
Qed.

(** X12. [write_parents] writes one row for every parent whose identifier is
    not in the first column of the parent sheet, in the order of the
    registry and at consecutive positions from the first one below the
    sheet; a parent whose identifier is there is not written again. *)
Theorem write_parents_rows (parents : dict Parent) (parent_sheet : sheet) :
  write_parents parents parent_sheet
  = match get_column parent_sheet 0 with
    | None => Raise TypeError
    | Some uuids => Ok (parent_rows parents uuids (length parent_sheet))
    end.
Proof.
  unfold write_parents.
  destruct (get_column parent_sheet 0) as [uuids|] eqn:Hc; [|reflexivity].
  rewrite write_parents_fold. simpl.
  now rewrite (get_column_length _ _ _ Hc).
Qed.

Lemma dict_set_Forall {V : Type} (P : V -> Prop) (k : value) (v : V) (d : dict V) :
  Forall (fun e : value * V => P (snd e)) d -> P v ->
  Forall (fun e : value * V => P (snd e)) (dict_set k v d).
Proof.
  intros Hd Hv. induction d as [|[k' v'] d IH]; simpl.
  - constructor; [exact Hv | constructor].
  - inversion Hd as [|? ? H1 H2]; subst.
    destruct (py_eq k' k); constructor; auto.
Qed.

Lemma parent_rows_known parents uuids start :
  Forall (fun e : value * Parent =>
            existsb (py_eq (p_id (pa_person (snd e)))) uuids = true) parents ->
  parent_rows parents uuids start = [].
Proof.
  induction 1 as [|e parents He Hall IH]; [reflexivity|].
  rewrite parent_rows_cons, He. exact IH.
Qed.

Lemma first_cell_in_column (s : sheet) (col : list value) (rw : row) (k : value) :
  get_column s 0 = Some col -> In rw s -> rw !! 0 = Some k ->
  existsb (py_eq k) col = true.
Proof.
  unfold get_column. destruct (forallb _ _); [discriminate|].
  intros [= <-] Hin Hk. apply existsb_exists. exists k.
  split; [|apply py_eq_refl].
  apply in_map_iff. exists rw. split; [now rewrite Hk | exact Hin].
Qed.

Lemma In_drop {A : Type} (n : nat) (l : list A) (x : A) :
  In x (drop n l) -> In x l.
Proof.
  revert l; induction n as [|n IH]; intros l; [now rewrite drop_0|].
  destruct l as [|y l]; simpl; [tauto|]. intros H. right. now apply IH.
Qed.

(** X13. The parents read from the parent sheet are not written back to it:
    [write_parents] on the registry that the registration pass seeds from a
    sheet writes no row to that sheet. *)
Theorem loaded_parents_not_rewritten uuid (parent_sheet : sheet) parents n :
  load_parents uuid parent_sheet = Ok (parents, n) ->
  write_parents parents parent_sheet = Ok [].
Proof.
  intros Hload. unfold write_parents. unfold load_parents in Hload.
  destruct (get_column parent_sheet 0) as [uuids|] eqn:Hc; [|discriminate].
  rewrite write_parents_fold. simpl. f_equal. apply parent_rows_known.
  change parents with (fst (parents, n)). revert Hload.
  apply (foldM_invariant_in
           (fun s : dict Parent * nat =>
              Forall (fun e : value * Parent =>
                        existsb (py_eq (p_id (pa_person (snd e)))) uuids = true)
                     (fst s))); [|constructor].
  intros [d m] rw [d' m'] Hin Hd. unfold load_parent_row.
  destruct rw as [|k [|f [|la rest]]] eqn:Hrw; try (intros [= <- <-]; exact Hd).
  destruct (py_strip f) as [f'|]; simpl; [|discriminate].
  destruct (py_strip la) as [l'|]; simpl; [|discriminate].
  destruct (email_arg _) as [e'|]; simpl; [|discriminate].
  intros [= <- <-]. simpl.
  apply (dict_set_Forall
           (fun p => existsb (py_eq (p_id (pa_person p))) uuids = true));
    [exact Hd|]. simpl.
  apply (first_cell_in_column parent_sheet uuids (k :: f :: la :: rest));
    [exact Hc | eapply In_drop, Hin | reflexivity].
Qed.

Lemma loaded_parents_not_rewritten_witness :
  write_parents More.loaded_parents Demo.parent_sheet = Ok [].
Proof.
  apply (loaded_parents_not_rewritten Demo.uuid Demo.parent_sheet
           More.loaded_parents 2).
  vm_compute. reflexivity.
Defined.

(** ** The notification loops *)

Lemma logged_mono log more recipients full_name code :
  log <> [] ->
  logged log recipients full_name code = true ->
  logged (log ++ more) recipients full_name code = true.
Proof.
  intros Hne. unfold logged. destruct log as [|h log]; [contradiction|].
  simpl. unfold drop. rewrite existsb_app. now intros ->.
Qed.

Lemma notify_once_grows k sheet_name full_name p1 p2 log events code :
  exists rows sent,
    notify_once k sheet_name full_name p1 p2 (log, events) code
    = (log ++ rows, events ++ sent)
    /\ (length rows <= 1)%nat /\ length sent = (2 * length rows)%nat.
Proof.
  unfold notify_once. destruct (logged _ _ _ _).
  - exists [], []. rewrite !app_nil_r. auto.
  - eexists [_], [_; _]. auto.
Qed.

Lemma notify_once_logs k sheet_name full_name p1 p2 log events code :
  log <> [] ->
  logged (fst (notify_once k sheet_name full_name p1 p2 (log, events) code))
    [p1; p2] full_name code = true.
Proof.
  intros Hne. unfold notify_once.
  destruct (logged log [p1; p2] full_name code) eqn:Hl; simpl; [exact Hl|].
  now apply logged_after_append.
Qed.

Lemma notify_all_grows k sheet_name full_name p1 p2 codes log events :
  exists rows sent,
    fold_left (notify_once k sheet_name full_name p1 p2) codes (log, events)
    = (log ++ rows, events ++ sent)
    /\ (length rows <= length codes)%nat
    /\ length sent = (2 * length rows)%nat.
Proof.
  revert log events; induction codes as [|c codes IH]; intros log events;
    cbn [fold_left].
  - exists [], []. rewrite !app_nil_r. auto.
  - destruct (notify_once_grows k sheet_name full_name p1 p2 log events c)
      as (r1 & s1 & -> & Hr1 & Hs1).
    destruct (IH (log ++ r1) (events ++ s1)) as (r2 & s2 & E2 & Hr2 & Hs2).
    exists (r1 ++ r2), (s1 ++ s2).
    split; [rewrite !app_assoc; exact E2|].
    rewrite !length_app. simpl. lia.
Qed.

Lemma notify_all_logged k sheet_name full_name p1 p2 codes st :
  Forall (fun c => logged (fst st) [p1; p2] full_name c = true) codes ->
  fold_left (notify_once k sheet_name full_name p1 p2) codes st = st.
Proof.
  induction 1 as [|c codes Hc Hall IH]; [reflexivity|].
  cbn [fold_left]. destruct st as [log events].
  assert (notify_once k sheet_name full_name p1 p2 (log, events) c
          = (log, events)) as ->
    by (unfold notify_once; simpl in Hc; now rewrite Hc).
  exact IH.
Qed.

(** X14. A notification loop only appends: the log keeps its rows and gains
    at most one row per code, with one e-mail sent and one row written for
    each row gained; afterwards every code of the loop is logged for the
    student and these addresses, so that running the same loop again sends
    and logs nothing. *)
Theorem notify_all_idempotent k sheet_name full_name p1 p2 codes log events :
  log <> [] ->
  let st1 :=
    fold_left (notify_once k sheet_name full_name p1 p2) codes (log, events) in
  (exists rows sent,
      st1 = (log ++ rows, events ++ sent)
      /\ (length rows <= length codes)%nat
      /\ length sent = (2 * length rows)%nat)
  /\ Forall (fun c => logged (fst st1) [p1; p2] full_name c = true) codes
  /\ fold_left (notify_once k sheet_name full_name p1 p2) codes st1 = st1.
Proof.
  intros Hne. cbv zeta.
  assert (Forall (fun c =>
                    logged (fst (fold_left
                                   (notify_once k sheet_name full_name p1 p2)
                                   codes (log, events)))
                           [p1; p2] full_name c = true) codes) as Hall.
  { revert log events Hne; induction codes as [|c codes IH];
      intros log events Hne; [constructor|].
    cbn [fold_left]. constructor.
    - pose proof (notify_once_logs k sheet_name full_name p1 p2 log events c Hne)
        as Hc.
      destruct (notify_once k sheet_name full_name p1 p2 (log, events) c)
        as [log1 ev1] eqn:E1.
      assert (log1 <> []) as Hne1.
      { change log1 with (fst (log1, ev1)). rewrite <- E1.
        now apply notify_once_nonempty. }
      destruct (notify_all_grows k sheet_name full_name p1 p2 codes log1 ev1)
        as (rows & sent & -> & _). simpl in *. now apply logged_mono.
    - destruct (notify_once k sheet_name full_name p1 p2 (log, events) c)
        as [log1 ev1] eqn:E1.
      apply IH. change log1 with (fst (log1, ev1)). rewrite <- E1.
      now apply notify_once_nonempty. }
  split; [apply notify_all_grows|]. split; [exact Hall|].
  now apply notify_all_logged.
Qed.

Lemma notify_all_idempotent_witness :
  let log := gs_invalid_info Demo.pass0 in
  let st1 :=
    fold_left (notify_once InvalidCode "Invalid Code Emails" "Zed Moss"
                 (VStr "yan@x.org") (VStr ""))
      ["99999"; "88888"; "99999"] (log, []) in
  (exists rows sent,
      st1 = (log ++ rows, [] ++ sent)
      /\ (length rows <= length ["99999"; "88888"; "99999"])%nat
      /\ length sent = (2 * length rows)%nat)
  /\ Forall (fun c => logged (fst st1) [VStr "yan@x.org"; VStr ""] "Zed Moss" c
                      = true) ["99999"; "88888"; "99999"]
  /\ fold_left (notify_once InvalidCode "Invalid Code Emails" "Zed Moss"
                  (VStr "yan@x.org") (VStr ""))
       ["99999"; "88888"; "99999"] st1 = st1.
Proof.
  apply (notify_all_idempotent InvalidCode "Invalid Code Emails" "Zed Moss"
           (VStr "yan@x.org") (VStr "") ["99999"; "88888"; "99999"]
           (gs_invalid_info Demo.pass0) []).
  vm_compute. discriminate.
Defined.

(** ** Persons, teachers and classes *)

(** X15. [Person.__init__] stores its fields in a normal form: the names are
    stripped, the address is stripped and in lower case, the full name is the
    two names joined by one space; a person built again from the stored
    fields has the same names, full name and address. *)
Theorem person_fields_normal uuid first last email n p n' m :
  new_Person uuid first last email n = Ok (p, n') ->
  strip (p_first p) = p_first p
  /\ strip (p_last p) = p_last p
  /\ p_full_name p = (p_first p ++ " " ++ p_last p)%string
  /\ (forall e, p_email p = Some e -> lower (strip e) = e)
  /\ exists q,
       new_Person uuid (Some (p_first p)) (Some (p_last p)) (p_email p) m
       = Ok (q, S m)
       /\ p_first q = p_first p /\ p_last q = p_last p
       /\ p_full_name q = p_full_name p /\ p_email q = p_email p.
Proof.
  unfold new_Person. destruct first as [f|], last as [l|]; try discriminate.
  intros [= <- <-]. simpl.
  assert (forall e, lower (strip (lower (strip e))) = lower (strip e)) as Hn
    by (intros e; now rewrite strip_lower, lower_idempotent, strip_idempotent).
  split; [apply strip_idempotent|]. split; [apply strip_idempotent|].
  split; [reflexivity|]. split.
  - destruct email as [e0|]; simpl; [|discriminate]. intros e [= <-]. apply Hn.
  - eexists. split; [reflexivity|]. simpl. rewrite !strip_idempotent.
    repeat split. destruct email as [e0|]; simpl; [|reflexivity].
    now rewrite Hn.
Qed.

Lemma person_fields_normal_witness :
  let p := {| p_first := "Ann"; p_last := "Lee"; p_full_name := "Ann Lee";
              p_email := Some "ann@x.org"; p_id := VStr (Demo.uuid 4) |} in
  strip (p_first p) = p_first p
  /\ strip (p_last p) = p_last p
  /\ p_full_name p = (p_first p ++ " " ++ p_last p)%string
  /\ (forall e, p_email p = Some e -> lower (strip e) = e)
  /\ exists q,
       new_Person Demo.uuid (Some (p_first p)) (Some (p_last p)) (p_email p) 7
       = Ok (q, 8)
       /\ p_first q = p_first p /\ p_last q = p_last p
       /\ p_full_name q = p_full_name p /\ p_email q = p_email p.
Proof.
  apply (person_fields_normal Demo.uuid (Some "  Ann ") (Some "Lee ")
           (Some " Ann@X.org ") 4 _ 5 7).
  vm_compute. reflexivity.
Defined.

Lemma table_get_inj (table : list (string * string)) (k k' v : string) :
  List.NoDup (map snd table) ->
  table_get table k = Ok v -> table_get table k' = Ok v -> k = k'.
Proof.
  induction table as [|[k0 v0] table IH]; simpl; [discriminate|].
  intros Hnd. inversion Hnd as [|? ? Hnin Hnd']; subst.
  assert (forall key, table_get table key = Ok v0 -> False) as Hv0.
  { intros key. clear IH Hnd Hnd'. induction table as [|[k1 v1] table IH];
      simpl; [discriminate|].
    destruct (String.eqb k1 key).
    - intros [= ->]. apply Hnin. now left.
    - apply IH. intros H. apply Hnin. now right. }
  destruct (String.eqb k0 k) eqn:E1, (String.eqb k0 k') eqn:E2.
  - apply String.eqb_eq in E1, E2. congruence.
  - intros [= <-] H. destruct (Hv0 _ H).
  - intros H [= <-]. destruct (Hv0 _ H).
  - now apply IH.
Qed.

Lemma tables_injective :
  List.NoDup (map snd COURSES) /\ List.NoDup (map snd LEVELS)
  /\ List.NoDup (map snd DAYS) /\ List.NoDup (map snd TIMES).
Proof.
  repeat split; apply NoDup_ListNoDup, (bool_decide_unpack _);
    vm_compute; reflexivity.
Qed.

(** The shape of a code that [Class.__init__] decodes: five characters at
    least, the first four being keys of the four tables. *)
Lemma class_info_inv (code : string) (info : ClassInfo) :
  class_info code = Ok info ->
  exists c0 c1 c2 c3 c4 rest,
    code = String c0 (String c1 (String c2 (String c3 (String c4 rest))))
    /\ table_get COURSES (String c0 "") = Ok (ci_course info)
    /\ table_get LEVELS (String c1 "") = Ok (ci_level info)
    /\ table_get DAYS (String c2 "") = Ok (ci_days info)
    /\ table_get TIMES (String c3 "") = Ok (ci_time info)
    /\ py_int (VStr (String c4 "")) = Ok (ci_session info).
Proof.
  unfold class_info, char_at.
  destruct code as [|c0 [|c1 [|c2 [|c3 [|c4 rest]]]]];
    cbn [String.get Nat.eqb Nat.pred rbind];
    repeat match goal with
           | |- context [rbind (table_get ?t ?k) _] =>
               destruct (table_get t k) eqn:?; cbn [rbind]; try discriminate
           end; try discriminate.
  destruct (py_int (VStr (String c4 EmptyString))) eqn:Hs; cbn [rbind];
    [|discriminate].
  intros [= <-]. cbn. exists c0, c1, c2, c3, c4, rest.
  repeat split; assumption.
Qed.

(** X16. For two codes that [Class.__init__] decodes, being
    session-equivalent is the same as having the same course, level, days
    and time; what follows the fifth character plays no part in the
    decoding. *)
Theorem session_equivalent_same_class (a b : string) (ia ib : ClassInfo) :
  class_info a = Ok ia ->
  class_info b = Ok ib ->
  (session_equiv a b = true
   <-> (ci_course ia, ci_level ia, ci_days ia, ci_time ia)
       = (ci_course ib, ci_level ib, ci_days ib, ci_time ib))
  /\ code_equals_ignore_session a b = session_equiv a b
  /\ forall more, class_info (a ++ more)%string = Ok ia.
Proof.
  intros Ha Hb.
  destruct (class_info_inv _ _ Ha)
    as (a0 & a1 & a2 & a3 & a4 & ra & -> & Ha0 & Ha1 & Ha2 & Ha3 & Ha4).
  destruct (class_info_inv _ _ Hb)
    as (b0 & b1 & b2 & b3 & b4 & rb & -> & Hb0 & Hb1 & Hb2 & Hb3 & Hb4).
  destruct tables_injective as (Nc & Nl & Nd & Nt).
  split; [|split].
  - unfold session_equiv, prefix4. cbn [substring]. rewrite String.eqb_eq.
    split.
    + intros [= -> -> -> ->]. congruence.
    + intros [= Hc Hl Hd Ht].
      rewrite <- Hc in Hb0. rewrite <- Hl in Hb1.
      rewrite <- Hd in Hb2. rewrite <- Ht in Hb3.
      pose proof (table_get_inj _ _ _ _ Nc Ha0 Hb0) as [= ->].
      pose proof (table_get_inj _ _ _ _ Nl Ha1 Hb1) as [= ->].
      pose proof (table_get_inj _ _ _ _ Nd Ha2 Hb2) as [= ->].
      pose proof (table_get_inj _ _ _ _ Nt Ha3 Hb3) as [= ->].
      reflexivity.
  - unfold code_equals_ignore_session, session_equiv.
    apply String.eqb_sym.
  - intros more. exact Ha.
Qed.

Lemma session_equivalent_same_class_witness :
  let ia := More.info_of "31111" in
  let ib := More.info_of "31112" in
  (session_equiv "31111" "31112" = true
   <-> (ci_course ia, ci_level ia, ci_days ia, ci_time ia)
       = (ci_course ib, ci_level ib, ci_days ib, ci_time ib))
  /\ code_equals_ignore_session "31111" "31112" = session_equiv "31111" "31112"
  /\ forall more, class_info ("31111" ++ more)%string = Ok ia.
Proof.
  apply (session_equivalent_same_class "31111" "31112"
           (More.info_of "31111") (More.info_of "31112")).
  - vm_compute. reflexivity.
  - vm_compute. reflexivity.
Defined.

(** ** Teachers *)

Lemma lower_app (a b : string) : lower (a ++ b) = (lower a ++ lower b)%string.
Proof. induction a as [|c a IH]; simpl; [reflexivity | now rewrite IH]. Qed.

Lemma spaceless_lower (s : string) : spaceless (lower s) = spaceless s.
Proof.
  induction s as [|c s IH]; simpl; [reflexivity|]. rewrite IH. f_equal. f_equal.
  destruct c as [[] [] [] [] [] [] [] []]; reflexivity.
Qed.

Lemma spaceless_app (a b : string) :
  spaceless (a ++ b) = spaceless a && spaceless b.
Proof.
  induction a as [|c a IH]; simpl; [reflexivity|].
  now rewrite IH, andb_assoc.
Qed.

Lemma new_Person_normal uuid first last email n p n' :
  new_Person uuid first last email n = Ok (p, n') -> normal_person p.
Proof.
  unfold new_Person. destruct first as [f|], last as [l|]; try discriminate.
  intros [= <- <-]. split; simpl; [reflexivity|].
  destruct email as [e0|]; simpl; [|discriminate]. intros e [= <-].
  now rewrite strip_lower, lower_idempotent, strip_idempotent.
Qed.

Lemma get_teachers_normal uuid (teacher_list : sheet) n teachers n' :
  get_teachers uuid teacher_list n = Ok (teachers, n') ->
  Forall (fun e : value * Teacher => normal_person (t_person (snd e))) teachers.
Proof.
  unfold get_teachers. destruct (get_column teacher_list 0); [|discriminate].
  intros Hrun.
  apply (foldM_invariant
           (fun st : dict Teacher * nat =>
              Forall (fun e : value * Teacher => normal_person (t_person (snd e)))
                     (fst st))
           _) with (s' := (teachers, n')) in Hrun; [exact Hrun| |constructor].
  clear. intros [ts n] rw [ts' n1] Hts Hrow. simpl in *.
  destruct rw as [|k [|f [|la [|e [|ph rest]]]]];
    try (injection Hrow as <- <-; exact Hts).
  destruct (str_arg f) as [f'|]; simpl in Hrow; [|discriminate].
  destruct (str_arg la) as [l'|]; simpl in Hrow; [|discriminate].
  destruct (email_arg e) as [e'|]; simpl in Hrow; [|discriminate].
  injection Hrow as <- <-.
  apply (dict_set_Forall (fun t => normal_person (t_person t))); [exact Hts|].
  destruct (new_Person_normal uuid (Some f') (Some l') e' n _ _ eq_refl)
    as [H1 H2].
  split; [exact H1 | exact H2].
Qed.

Lemma no_match_new (teachers : dict Teacher) full_name email phone :
  Forall (fun e : value * Teacher =>
            teacher_matches full_name email phone (snd e) = false) teachers ->
  isNewTeacher teachers full_name email phone = true
  /\ getMatchingTeacher teachers full_name email phone = None.
Proof.
  induction 1 as [|[k t] ts Ht _ IH]; simpl; [now split|].
  simpl in Ht. now rewrite Ht.
Qed.

(** X17. A name of one word never matches a teacher read from the sheet
    "Teachers": the full name of every teacher that [get_teachers] builds has
    a space between first and last name, so [isNewTeacher] answers [True] and
    [getMatchingTeacher] answers [None] whatever address and phone are
    given. *)
Theorem one_word_name_never_matches
    uuid (teacher_list : sheet) n teachers n' full_name email phone :
  get_teachers uuid teacher_list n = Ok (teachers, n') ->
  spaceless full_name = true ->
  isNewTeacher teachers full_name email phone = true
  /\ getMatchingTeacher teachers full_name email phone = None.
Proof.
  intros Hload Hname. apply no_match_new.
  eapply Forall_impl; [apply (get_teachers_normal _ _ _ _ _ Hload)|].
  intros [k t] [Hfull _]. simpl in *. unfold teacher_matches.
  destruct (String.eqb (lower (p_full_name (t_person t))) (lower full_name))
    eqn:E; [|reflexivity].
  apply String.eqb_eq in E.
  assert (spaceless (lower (p_full_name (t_person t))) = true) as Hs
    by now rewrite E, spaceless_lower.
  rewrite spaceless_lower, Hfull, !spaceless_app in Hs. simpl in Hs.
  rewrite andb_false_r in Hs. discriminate.
Qed.

Lemma one_word_name_never_matches_witness :
  isNewTeacher More.teachers "Cher" "cher@x.org" "555" = true
  /\ getMatchingTeacher More.teachers "Cher" "cher@x.org" "555" = None.
Proof.
  apply (one_word_name_never_matches Demo.uuid More.teacher_sheet 0
           More.teachers 2).
  - vm_compute. reflexivity.
  - vm_compute. reflexivity.
Defined.

(** X18. An address that is not in the form in which [Person.__init__] stores
    addresses (stripped, in lower case) never matches a teacher read from the
    sheet "Teachers": [isNewTeacher] answers [True] and [getMatchingTeacher]
    answers [None] whatever name and phone are given. *)
Theorem unnormalised_address_never_matches
    uuid (teacher_list : sheet) n teachers n' full_name email phone :
  get_teachers uuid teacher_list n = Ok (teachers, n') ->
  lower (strip email) <> email ->
  isNewTeacher teachers full_name email phone = true
  /\ getMatchingTeacher teachers full_name email phone = None.
Proof.
  intros Hload Hemail. apply no_match_new.
  eapply Forall_impl; [apply (get_teachers_normal _ _ _ _ _ Hload)|].
  intros [k t] [_ Hnorm]. simpl in *. unfold teacher_matches.
  destruct (py_eq (opt_value (p_email (t_person t))) (VStr email)) eqn:E;
    [|now rewrite andb_false_r].
  apply bool_decide_eq_true in E.
  destruct (p_email (t_person t)) as [e|] eqn:He; simpl in E; [|discriminate].
  injection E as ->. destruct Hemail. now apply Hnorm.
Qed.

Lemma unnormalised_address_never_matches_witness :
  isNewTeacher More.teachers "Ann Lee" "Ann@x.org" "556" = true
  /\ getMatchingTeacher More.teachers "Ann Lee" "Ann@x.org" "556" = None.
Proof.
  apply (unnormalised_address_never_matches Demo.uuid More.teacher_sheet 0
           More.teachers 2).
  - vm_compute. reflexivity.
  - vm_compute. discriminate.
Defined.

(** X19. [isNewTeacher] and [getMatchingTeacher] agree: the first answers
    [False] exactly when the second returns a teacher, which is then the
    first teacher of the registry, in its order, that passes the test on name,
    address and phone. *)
Theorem matching_teacher_agrees (teachers : dict Teacher) full_name email phone :
  match getMatchingTeacher teachers full_name email phone with
  | Some t =>
      isNewTeacher teachers full_name email phone = false
      /\ exists before k after,
           teachers = before ++ (k, t) :: after
           /\ teacher_matches full_name email phone t = true
           /\ Forall (fun e : value * Teacher =>
                        teacher_matches full_name email phone (snd e) = false)
                     before
  | None =>
      isNewTeacher teachers full_name email phone = true
      /\ Forall (fun e : value * Teacher =>
                   teacher_matches full_name email phone (snd e) = false)
                teachers
  end.
Proof.
  induction teachers as [|[k t] ts IH]; simpl; [now split|].
  destruct (teacher_matches full_name email phone t) eqn:Ht.
  - split; [reflexivity|]. exists [], k, ts. repeat split; auto.
  - destruct (getMatchingTeacher ts full_name email phone) as [t'|].
    + destruct IH as [Hn (before & k' & after & -> & Hm & Hb)].
      split; [exact Hn|]. exists ((k, t) :: before), k', after.
      repeat split; auto.
    + destruct IH as [Hn Hall]. split; [exact Hn|]. constructor; auto.
Qed.

(** ** The keys of the fetched rosters *)

Lemma rstrip_chars_cons (chars : string) (c : ascii) (s : string) :
  char_in c chars = false ->
  rstrip_chars chars (String c s) = String c (rstrip_chars chars s).
Proof. intros H. simpl. rewrite H. now destruct (rstrip_chars chars s). Qed.

Lemma rstrip_chars_app (chars a s : string) :
  rstrip_chars chars s <> EmptyString ->
  rstrip_chars chars (a ++ s) = (a ++ rstrip_chars chars s)%string.
Proof.
  intros Hs. induction a as [|c a IH]; simpl; [reflexivity|].
  rewrite IH. destruct (a ++ rstrip_chars chars s)%string eqn:E;
    [|now rewrite <- E].
  destruct a; simpl in E; [contradiction | discriminate].
Qed.

Lemma rstrip_chars_snoc (chars s : string) (c : ascii) :
  char_in c chars = true ->
  rstrip_chars chars (s ++ String c EmptyString) = rstrip_chars chars s.
Proof.
  intros Hc. induction s as [|x s IH]; simpl; [now rewrite Hc|].
  now rewrite IH.
Qed.

Lemma rstrip_chars_length (chars s : string) :
  (String.length (rstrip_chars chars s) <= String.length s)%nat.
Proof.
  induction s as [|c s IH]; simpl; [lia|].
  destruct (rstrip_chars chars s); [destruct (char_in c chars)|]; simpl in *; lia.
Qed.

Lemma string_length_app (a b : string) :
  String.length (a ++ b) = (String.length a + String.length b)%nat.
Proof. induction a as [|c a IH]; simpl; [reflexivity | now rewrite IH]. Qed.

Lemma sheet_key_range_name (code : string) :
  sheet_key (range_name code) = rstrip_chars "!" code.
Proof.
  unfold sheet_key, range_name.
  assert (rstrip_chars LARGE_RANGE ("!" ++ LARGE_RANGE) = "!"%string) as E
    by (vm_compute; reflexivity).
  rewrite rstrip_chars_app; rewrite E; [|discriminate].
  now apply rstrip_chars_snoc.
Qed.

(** X20. The key under which [SheetBatchGet] files the range fetched for a
    code is the code without its trailing exclamation marks: the two
    [rstrip] calls undo the suffix that was added, whatever characters of the
    suffix the code itself ends with, and the key is the code itself exactly
    when the code does not end in an exclamation mark. *)
Theorem roster_key_round_trip (code : string) :
  sheet_key (range_name code) = rstrip_chars "!" code
  /\ (sheet_key (range_name code) = code
      <-> forall s, code <> (s ++ "!")%string).
Proof.
  split; [apply sheet_key_range_name|]. rewrite sheet_key_range_name. split.
  - intros Heq s ->. rewrite rstrip_chars_snoc in Heq by reflexivity.
    pose proof (rstrip_chars_length "!" s) as Hlen. rewrite Heq in Hlen.
    rewrite string_length_app in Hlen. simpl in Hlen. lia.
  - induction code as [|c s IH]; intros Hend; [reflexivity|].
    assert (rstrip_chars "!" s = s) as Hs.
    { apply IH. intros s' ->. apply (Hend (String c s')). reflexivity. }
    cbn [rstrip_chars]. rewrite Hs. destruct s as [|c' s']; [|reflexivity].
    cbn [char_in]. destruct (Ascii.eqb "!" c) eqn:E; [|reflexivity].
    apply Ascii.eqb_eq in E. subst c. destruct (Hend EmptyString). reflexivity.
Qed.

Lemma range_names_inv (cells : list value) (names : list string) :
  range_names cells = Ok names ->
  exists codes, cells = map VStr codes /\ names = map range_name codes.
Proof.
  revert names. induction cells as [|v cells IH]; simpl; intros names.
  - intros [= <-]. now exists [].
  - destruct v as [|c|]; try discriminate.
    destruct (range_names cells) as [ns|]; simpl; [|discriminate].
    intros [= <-]. destruct (IH ns eq_refl) as (codes & -> & ->).
    now exists (c :: codes).
Qed.

Lemma fill_sheet_data_other (names : list string) :
  forall (all_data : list sheet) acc m key,
    fill_sheet_data names all_data acc = Ok m ->
    Forall (fun nm => sheet_key nm <> key) names ->
    m !! key = acc !! key.
Proof.
  induction names as [|nm names IH]; intros all_data acc m key; simpl.
  - now intros [= <-].
  - destruct all_data as [|d all_data]; [discriminate|].
    intros Hrun Hall. inversion Hall as [|? ? Hnm Hrest]; subst.
    rewrite (IH _ _ _ _ Hrun Hrest). now apply lookup_insert_ne.
Qed.

Lemma fill_sheet_data_lookup (names : list string) :
  forall (all_data : list sheet) acc m i nm data,
    fill_sheet_data names all_data acc = Ok m ->
    names !! i = Some nm ->
    all_data !! i = Some data ->
    Forall (fun nm' => sheet_key nm' <> sheet_key nm) (drop (S i) names) ->
    m !! sheet_key nm = Some data.
Proof.
  induction names as [|nm0 names IH]; intros all_data acc m i nm data; simpl.
  - intros _ H. discriminate.
  - destruct all_data as [|d all_data]; [discriminate|].
    intros Hrun Hn Hd Hlater. destruct i as [|i]; simpl in *.
    + injection Hn as ->. injection Hd as ->.
      rewrite (fill_sheet_data_other _ _ _ _ _ Hrun Hlater).
      apply lookup_insert_eq.
    + eapply IH; eassumption.
Qed.

(** X21. [SheetBatchGet.__init__] files the sheet fetched for the [i]-th code
    of the master sheet under that code without its trailing exclamation
    marks, unless a later code has the same key or the key is ["Classes"],
    under which the master sheet itself is filed last. *)
Theorem fetched_roster_found
    (extra_data : sheet) (all_data : list sheet) sd col i code data :
  build_sheet_data extra_data all_data = Ok sd ->
  get_column extra_data 0 = Some col ->
  drop 1 col !! i = Some (VStr code) ->
  all_data !! i = Some data ->
  rstrip_chars "!" code <> "Classes"%string ->
  Forall (fun v => forall c, v = VStr c ->
                             rstrip_chars "!" c <> rstrip_chars "!" code)
         (drop (S i) (drop 1 col)) ->
  sd !! rstrip_chars "!" code = Some data
  /\ sd !! "Classes"%string = Some extra_data.
Proof.
  unfold build_sheet_data. intros Hrun Hcol Hi Hd Hne Hlater.
  rewrite Hcol in Hrun.
  destruct (range_names (drop 1 col)) as [names|] eqn:Hn; simpl in Hrun;
    [|discriminate].
  destruct (fill_sheet_data names all_data ∅) as [m|] eqn:Hm; simpl in Hrun;
    [|discriminate].
  injection Hrun as <-.
  split; [|apply lookup_insert_eq].
  rewrite lookup_insert_ne by (intros E; apply Hne; now rewrite E).
  destruct (range_names_inv _ _ Hn) as (codes & Hcells & ->).
  rewrite Hcells in Hi, Hlater.
  rewrite list_lookup_fmap in Hi.
  destruct (codes !! i) as [c|] eqn:Hc; simpl in Hi; [|discriminate].
  injection Hi as ->.
  rewrite <- sheet_key_range_name.
  apply (fill_sheet_data_lookup _ _ _ _ i _ _ Hm).
  - now rewrite list_lookup_fmap, Hc.
  - exact Hd.
  - rewrite <- fmap_drop in Hlater. rewrite Forall_fmap in Hlater.
    rewrite <- fmap_drop. rewrite Forall_fmap.
    eapply Forall_impl; [exact Hlater|].
    intros c Hcc. simpl in *. rewrite !sheet_key_range_name.
    now apply Hcc.
Qed.

Lemma fetched_roster_found_witness :
  Demo.sheet_data !! rstrip_chars "!" "31111" = Some Demo.roster_31111
  /\ Demo.sheet_data !! "Classes"%string = Some Demo.main_sheet.
Proof.
  apply (fetched_roster_found Demo.main_sheet More.all_data Demo.sheet_data
           More.codes_column 2 "31111" Demo.roster_31111).
  - vm_compute. reflexivity.
  - vm_compute. reflexivity.
  - vm_compute. reflexivity.
  - vm_compute. reflexivity.
  - vm_compute. discriminate.
  - vm_compute. repeat constructor; intros c [= <-]; discriminate.
Defined.

(** ** The writing of the placements *)

Lemma seats_kept_refl (cl : gmap string Class) : seats_kept cl cl.
Proof.
  intros code cls H. exists cls. split; [exact H|]. split; [reflexivity|].
  exists []. now rewrite app_nil_r.
Qed.

Lemma seats_kept_trans (a b c : gmap string Class) :
  seats_kept a b -> seats_kept b c -> seats_kept a c.
Proof.
  intros Hab Hbc code cls H.
  destruct (Hab _ _ H) as (cls1 & H1 & Hcap1 & more1 & Hs1).
  destruct (Hbc _ _ H1) as (cls2 & H2 & Hcap2 & more2 & Hs2).
  exists cls2. split; [exact H2|]. split; [congruence|].
  exists (more1 ++ more2). now rewrite Hs2, Hs1, app_assoc.
Qed.

(** One step of the writer: the classes keep their students, and the student
    is among the students of the class afterwards. *)
Lemma write_placement_post parents student st code st' :
  write_placement parents student st code = Ok st' ->
  seats_kept (ws_classes st) (ws_classes st')
  /\ exists cls, ws_classes st' !! code = Some cls
                 /\ In (p_id (s_person student)) (c_students cls).
Proof.
  unfold write_placement.
  destruct (ws_classes st !! code) as [cls|] eqn:Hc; [|discriminate].
  destruct (existsb (py_eq (p_id (s_person student))) (c_students cls)) eqn:Hin.
  - intros [= <-]. split; [apply seats_kept_refl|].
    exists cls. split; [exact Hc|].
    apply existsb_exists in Hin. destruct Hin as (x & Hx & Heq).
    apply bool_decide_eq_true in Heq. now subst.
  - destruct (ws_rosters st !! code) as [roster|]; [|discriminate].
    destruct (s_parents student) as [|parent0 ps]; [discriminate|].
    destruct (get_column roster 1) as [uuids|]; [|discriminate].
    match goal with
    | |- (let* x := ?c in _) = _ -> _ => destruct c as [[[r' rq] ev]|]
    end; [|discriminate].
    cbn [rbind].
    destruct (parent_emails parents (parent0 :: ps)) as [recipients|];
      cbn [rbind]; [|discriminate].
    intros [= <-]. simpl. split.
    + intros c0 cls0 H0. destruct (decide (c0 = code)) as [->|Hne].
      * rewrite lookup_insert_eq. eexists. split; [reflexivity|].
        rewrite Hc in H0. injection H0 as <-. simpl.
        split; [reflexivity|]. now eexists.
      * rewrite lookup_insert_ne by congruence. exists cls0.
        split; [exact H0|]. split; [reflexivity|].
        exists []. now rewrite app_nil_r.
    + eexists. rewrite lookup_insert_eq. split; [reflexivity|].
      simpl. apply in_or_app. right. now left.
Qed.

Lemma seated_kept (a b : gmap string Class) (code : string) (sid : value) :
  seats_kept a b ->
  (exists cls, a !! code = Some cls /\ In sid (c_students cls)) ->
  exists cls, b !! code = Some cls /\ In sid (c_students cls).
Proof.
  intros Hab (cls & H & Hin).
  destruct (Hab _ _ H) as (cls' & H' & _ & more & Hs).
  exists cls'. split; [exact H'|]. rewrite Hs. apply in_or_app. now left.
Qed.

Lemma write_student_post parents student (codes : list string) :
  forall st st',
    foldM (write_placement parents student) codes st = Ok st' ->
    seats_kept (ws_classes st) (ws_classes st')
    /\ forall code, In code codes ->
         exists cls, ws_classes st' !! code = Some cls
                     /\ In (p_id (s_person student)) (c_students cls).
Proof.
  induction codes as [|c codes IH]; intros st st'; simpl.
  - intros [= <-]. split; [apply seats_kept_refl | intros ? []].
  - destruct (write_placement parents student st c) as [st1|] eqn:H1;
      simpl; [|discriminate].
    intros Hrest. destruct (write_placement_post _ _ _ _ _ H1) as [K1 S1].
    destruct (IH _ _ Hrest) as [K2 S2].
    split; [eapply seats_kept_trans; eassumption|].
    intros code [<-|Hin]; [|now apply S2].
    eapply seated_kept; eassumption.
Qed.

Lemma write_students_post parents (students : dict Student) :
  forall st st',
    foldM (fun st (entry : value * Student) =>
             foldM (write_placement parents (snd entry))
                   (s_classes (snd entry)) st) students st = Ok st' ->
    seats_kept (ws_classes st) (ws_classes st')
    /\ forall k s code, In (k, s) students -> In code (s_classes s) ->
         exists cls, ws_classes st' !! code = Some cls
                     /\ In (p_id (s_person s)) (c_students cls).
Proof.
  induction students as [|[k0 s0] students IH]; intros st st'; simpl.
  - intros [= <-]. split; [apply seats_kept_refl | intros ? ? ? []].
  - destruct (foldM (write_placement parents s0) (s_classes s0) st)
      as [st1|] eqn:H1; simpl; [|discriminate].
    intros Hrest. destruct (write_student_post _ _ _ _ _ H1) as [K1 S1].
    destruct (IH _ _ Hrest) as [K2 S2].
    split; [eapply seats_kept_trans; eassumption|].
    intros k s code [[= <- <-]|Hin] Hcode; [|now eapply S2; eauto].
    eapply seated_kept; [exact K2 | now apply S1].
Qed.

Lemma write_placements_classes students parents classes sheet_data ws :
  write_placements students parents classes sheet_data = Ok ws ->
  exists st,
    foldM (fun st (entry : value * Student) =>
             foldM (write_placement parents (snd entry))
                   (s_classes (snd entry)) st) students
          {| ws_classes := classes; ws_rosters := sheet_data;
             ws_requests := []; ws_events := [] |} = Ok st
    /\ ws_classes ws = ws_classes st.
Proof.
  unfold write_placements.
  match goal with
  | |- (let* x := ?c in _) = _ -> _ => destruct c as [st|]
  end; simpl; [|discriminate].
  intros H. exists st. split; [reflexivity|].
  destruct (ws_requests st); injection H as <-; reflexivity.
Qed.

Lemma write_placements_seats students parents classes sheet_data ws :
  write_placements students parents classes sheet_data = Ok ws ->
  seats_kept classes (ws_classes ws)
  /\ forall k s code, In (k, s) students -> In code (s_classes s) ->
       exists cls, ws_classes ws !! code = Some cls
                   /\ In (p_id (s_person s)) (c_students cls).
Proof.
  intros H. destruct (write_placements_classes _ _ _ _ _ H) as (st & Hst & ->).
  exact (write_students_post _ _ _ _ Hst).
Qed.

(** X22. When [write_placements] returns, every registered student is among
    the students of each class held, and every class has kept its capacity
    and the students it had, in their order: the writer only appends. *)
Theorem placements_written students parents classes sheet_data ws :
  write_placements students parents classes sheet_data = Ok ws ->
  seats_kept classes (ws_classes ws)
  /\ forall k s code, In (k, s) students -> In code (s_classes s) ->
       exists cls, ws_classes ws !! code = Some cls
                   /\ In (p_id (s_person s)) (c_students cls).
Proof. apply write_placements_seats. Qed.

Lemma foldM_fixed {A S : Type} (body : S -> A -> result S) (l : list A) (s : S) :
  (forall x, In x l -> body s x = Ok s) -> foldM body l s = Ok s.
Proof.
  induction l as [|x l IH]; intros H; simpl; [reflexivity|].
  rewrite (H x) by now left. simpl. apply IH. intros y Hy. apply H. now right.
Qed.

Lemma placements_written_witness :
  seats_kept More.classes0 (ws_classes More.written)
  /\ forall k s code,
       In (k, s) (gs_students (Demo.pass_of [Demo.cy])) ->
       In code (s_classes s) ->
       exists cls, ws_classes More.written !! code = Some cls
                   /\ In (p_id (s_person s)) (c_students cls).
Proof.
  apply (placements_written (gs_students (Demo.pass_of [Demo.cy]))
           (gs_parents (Demo.pass_of [Demo.cy])) More.classes0
           Demo.sheet_data More.written).
  vm_compute. reflexivity.
Defined.

(** X23. Writing the placements a second time over the classes that the first
    writing left does nothing: whatever rosters are read, the classes and the
    rosters stay as they are, no row is written, no request is prepared and
    no welcome is sent. *)
Theorem placements_written_once students parents classes sheet_data ws rosters :
  write_placements students parents classes sheet_data = Ok ws ->
  write_placements students parents (ws_classes ws) rosters
  = Ok {| ws_classes := ws_classes ws; ws_rosters := rosters;
          ws_requests := []; ws_events := [] |}.
Proof.
  intros H. destruct (write_placements_seats _ _ _ _ _ H) as [_ Hseated].
  unfold write_placements. rewrite foldM_fixed; [reflexivity|].
  intros [k s] Hin. simpl. apply foldM_fixed. intros code Hcode.
  destruct (Hseated _ _ _ Hin Hcode) as (cls & Hc & Hs).
  now apply write_placement_seated with (cls := cls).
Qed.

Lemma placements_written_once_witness :
  write_placements (gs_students (Demo.pass_of [Demo.cy]))
    (gs_parents (Demo.pass_of [Demo.cy])) (ws_classes More.written)
    (ws_rosters More.written)
  = Ok {| ws_classes := ws_classes More.written;
          ws_rosters := ws_rosters More.written;
          ws_requests := []; ws_events := [] |}.
Proof.
  apply (placements_written_once (gs_students (Demo.pass_of [Demo.cy]))
           (gs_parents (Demo.pass_of [Demo.cy])) More.classes0
           Demo.sheet_data More.written (ws_rosters More.written)).
  vm_compute. reflexivity.
Defined.

(** ** The construction of a class *)

Lemma table_get_in (table : list (string * string)) (k v : string) :
  table_get table k = Ok v -> In v (map snd table).
Proof.
  induction table as [|[k0 v0] table IH]; simpl; [discriminate|].
  destruct (String.eqb k0 k); [intros [= ->]; now left | right; now apply IH].
Qed.

Lemma session_digit (c : ascii) (z : Z) :
  py_int (VStr (String c EmptyString)) = Ok z -> (0 <= z <= 9)%Z.
Proof.
  destruct c as [[] [] [] [] [] [] [] []]; vm_compute;
    try discriminate; intros [= <-]; split; discriminate.
Qed.

(** X24. A class that [Class.__init__] builds has a code of five characters
    at least, whose first four select a course, a level, days and a time of
    the tables of [Codes] and whose fifth gives the session, from 0 to 9; its
    capacity is the one given, or 15 when -1 is given; its students are no
    more than the capacity and its teachers no more than two. *)
Theorem class_init_shape code teachers students class_cap c info ts :
  Class_init code teachers students class_cap = Ok (c, info, ts) ->
  (5 <= String.length code)%nat
  /\ (0 <= ci_session info <= 9)%Z
  /\ In (ci_course info) (map snd COURSES)
  /\ In (ci_level info) (map snd LEVELS)
  /\ In (ci_days info) (map snd DAYS)
  /\ In (ci_time info) (map snd TIMES)
  /\ c_code c = code
  /\ CLASS_CAP c = (if (class_cap =? -1)%Z then 15 else class_cap)%Z
  /\ c_students c = students
  /\ (Z.of_nat (length students) <= CLASS_CAP c)%Z
  /\ ts = teachers
  /\ (length teachers <= 2)%nat.
Proof.
  unfold Class_init.
  destruct (class_info code) as [i|] eqn:Hi; cbn [rbind]; [|discriminate].
  destruct (2 <? length teachers)%nat eqn:Ht; cbn [rbind]; [discriminate|].
  unfold new_Class, set_students. cbn [CLASS_CAP c_students c_code].
  destruct (Z.ltb _ _) eqn:Hs; cbn [rbind]; [discriminate|].
  intros [= <- <- <-]. cbn [CLASS_CAP c_students c_code].
  destruct (class_info_inv _ _ Hi)
    as (c0 & c1 & c2 & c3 & c4 & rest & -> & H0 & H1 & H2 & H3 & H4).
  apply Nat.ltb_ge in Ht. apply Z.ltb_ge in Hs.
  repeat split;
    try (eapply table_get_in; eassumption);
    try (apply (session_digit _ _ H4));
    try assumption; try reflexivity.
  simpl. lia.
Qed.

Lemma class_init_shape_witness :
  let c := {| c_code := "31111"; CLASS_CAP := 15;
              c_students := [VStr "id-eve"] |} in
  let info := More.info_of "31111" in
  (5 <= String.length "31111")%nat
  /\ (0 <= ci_session info <= 9)%Z
  /\ In (ci_course info) (map snd COURSES)
  /\ In (ci_level info) (map snd LEVELS)
  /\ In (ci_days info) (map snd DAYS)
  /\ In (ci_time info) (map snd TIMES)
  /\ c_code c = "31111"%string
  /\ CLASS_CAP c = (if (-1 =? -1)%Z then 15 else -1)%Z
  /\ c_students c = [VStr "id-eve"]
  /\ (Z.of_nat (length [VStr "id-eve"]) <= CLASS_CAP c)%Z
  /\ [VStr "t1"] = [VStr "t1"]
  /\ (length [VStr "t1"] <= 2)%nat.
Proof.
  apply (class_init_shape "31111" [VStr "t1"] [VStr "id-eve"] (-1)
           {| c_code := "31111"; CLASS_CAP := 15;
              c_students := [VStr "id-eve"] |}
           (More.info_of "31111") [VStr "t1"]).
  vm_compute. reflexivity.
Defined.

(** ** The search of a roster, in full *)

Lemma scan_unmatched si psheet (l : list (value * value * value * value)) st :
  Forall (fun r => corroborated si psheet r = Ok false) l ->
  foldM (scan_row si psheet) l st = Ok st.
Proof.
  induction 1 as [|r l Hr _ IH]; simpl; [reflexivity|].
  unfold scan_row at 1. destruct (fst st); [exact IH|].
  rewrite Hr. exact IH.
Qed.

(** X25. The search of a roster takes the first match: it ends with [found]
    set and the identifier [sid'] exactly when some row below the header is
    corroborated, the rows before it are not, and [sid'] is the identifier of
    that row; the rows after it are not looked at, whatever they hold. *)
Theorem search_takes_first_match
    si psheet (roster_names : list (value * value * value * value)) sid sid' :
  scan_roster si psheet roster_names (false, sid) = Ok (true, sid')
  <-> exists before rn after,
        drop 1 roster_names = before ++ rn :: after
        /\ Forall (fun r => corroborated si psheet r = Ok false) before
        /\ corroborated si psheet rn = Ok true
        /\ sid' = fst (fst (fst rn)).
Proof.
  unfold scan_roster. generalize (drop 1 roster_names) as l. intros l. split.
  - induction l as [|r l IH]; simpl; [discriminate|].
    unfold scan_row at 1. simpl.
    destruct (corroborated si psheet r) as [[|]|] eqn:Hc; simpl.
    + rewrite scan_found_fixed. intros [= <-].
      exists [], r, l. repeat split; auto.
    + intros H. destruct (IH H) as (before & rn & after & -> & Hb & Hrn & ->).
      exists (r :: before), rn, after. repeat split; auto.
    + discriminate.
  - intros (before & rn & after & -> & Hb & Hrn & ->).
    rewrite foldM_app, (scan_unmatched _ _ _ _ Hb). simpl.
    unfold scan_row at 1. simpl. rewrite Hrn. simpl.
    apply scan_found_fixed.
Qed.

(** X26. A namesake aborts the placement: when a row below the header carries
    the student's first and last name and a parent identifier that is not in
    the first column of the parent sheet, and no row before it is a match,
    the search raises [ValueError], whatever the first parent's names are and
    whatever rows follow. *)
Theorem namesake_with_unknown_parent_raises
    sf sl pf pl psheet (roster_names : list (value * value * value * value))
    before uid rparent after sid col0 :
  drop 1 roster_names = before ++ (uid, VStr sf, VStr sl, rparent) :: after ->
  Forall (fun r => corroborated (sf, sl, pf, pl) psheet r = Ok false) before ->
  get_column psheet 0 = Some col0 ->
  list_index rparent col0 = None ->
  scan_roster (sf, sl, pf, pl) psheet roster_names (false, sid)
  = Raise ValueError.
Proof.
  intros Hrows Hb Hcol Hidx. unfold scan_roster. rewrite Hrows.
  rewrite foldM_app, (scan_unmatched _ _ _ _ Hb). simpl.
  unfold scan_row at 1. simpl. rewrite py_eq_refl, Hcol, Hidx. reflexivity.
Qed.

Lemma namesake_with_unknown_parent_raises_witness :
  scan_roster ("Cy", "Young", "Di", "Young")%string Demo.parent_sheet
    (Demo.names_of More.roster_namesake) (false, VStr "fresh-0")
  = Raise ValueError.
Proof.
  apply (namesake_with_unknown_parent_raises "Cy" "Young" "Di" "Young"
           Demo.parent_sheet (Demo.names_of More.roster_namesake)
           [(VStr "id-eve", VStr "Eve", VStr "Ray", VStr "p2")]
           (VStr "id-cy") (VStr "p9")
           [(VStr "id-bob", VStr "Bob", VStr "Ray", VStr "p2")]
           (VStr "fresh-0")
           (map VStr ["UUID"; "p1"; "p2"])).
  - vm_compute. reflexivity.
  - repeat constructor.
  - vm_compute. reflexivity.
  - vm_compute. reflexivity.
Defined.

(** * The enrollment limit *)

(** C4 (amended). The limit on a student's classes is kept by
    [Student.set_classes], and through it by the constructor of [Student]:
    a list of more than 3 codes is refused with [ValueError], which is passed
    on to the caller, and a list of at most 3 is set. [place_student] does
    not go through it: a choice that it accepts, found on the roster or
    given an open seat, is appended to the classes held whatever their
    number, no exception is raised and the choices that follow are
    processed. In the program the limit is not reached: [place_student] is
    called on the student of a form response, who holds no class, with the
    at most two choices of that response, so the student it returns holds at
    most 2 classes, a list that [set_classes] accepts. *)
Theorem limit_kept_by_set_classes
    uuid (form_sheet : sheet) responses r n student0 cs n0 si sd psheet offs ps :
  get_form_responses form_sheet = Ok responses ->
  In r responses ->
  get_student uuid r n = Ok (student0, cs, n0) ->
  place_student student0 cs si sd psheet offs = Ok ps ->
  (forall s classes,
      (3 < length classes)%nat -> set_classes s classes = Raise ValueError)
  /\ (forall s classes,
        (length classes <= 3)%nat ->
        exists s', set_classes s classes = Ok s'
                   /\ s_classes s' = classes /\ s_person s' = s_person s)
  /\ (forall uuid' f l e note parents classes m,
        (length parents <= 2)%nat -> (3 < length classes)%nat ->
        new_Student uuid' (Some f) (Some l) e note parents classes m
        = Raise ValueError)
  /\ (forall main st code roster rn found sid cap off rest,
        String.eqb (strip code) "" = false ->
        existsb (session_equiv code) (s_classes (ps_student st)) = false ->
        sd !! code = Some roster ->
        zip_columns roster 1 2 3 6 = Ok rn ->
        scan_roster si psheet rn (ps_found st, p_id (s_person (ps_student st)))
          = Ok (found, sid) ->
        class_cap_of main code = Ok cap ->
        ps_offsets st !! code = Some off ->
        found = true \/ (occupancy rn off < cap)%Z ->
        exists st1,
          place_choice si sd psheet main st code = Ok st1
          /\ s_classes (ps_student st1) = s_classes (ps_student st) ++ [code]
          /\ foldM (place_choice si sd psheet main) (code :: rest) st
             = foldM (place_choice si sd psheet main) rest st1)
  /\ s_classes student0 = []
  /\ (length cs <= 2)%nat
  /\ (length (s_classes (ps_student ps)) <= 2)%nat
  /\ exists s', set_classes (ps_student ps) (s_classes (ps_student ps)) = Ok s'.
Proof.
  intros Hform Hin Hget Hplace.
  assert (forall s classes,
             (length classes <= 3)%nat ->
             exists s', set_classes s classes = Ok s'
                        /\ s_classes s' = classes /\ s_person s' = s_person s)
    as Hset.
  { intros s classes Hle. unfold set_classes, MAX_ENROLLMENTS.
    destruct (Nat.ltb_spec 3 (length classes)) as [Hgt|_]; [lia|].
    eexists. repeat split. }
  destruct (get_student_classes _ _ _ _ _ _ Hget) as [Hnil ->].
  assert ((length (choices r) <= 2)%nat) as Hcs.
  { unfold get_form_responses in Hform.
    destruct (get_form_responses_acc _ _ _ Hform) as (new & -> & _ & Hall).
    simpl in Hin.
    destruct (proj1 (List.Forall_forall _ _) Hall r Hin) as (rw & _ & Hr).
    exact (proj1 (form_response_choices rw r Hr)). }
  assert ((length (s_classes (ps_student ps)) <= 2)%nat) as Hps.
  { unfold place_student in Hplace.
    destruct (sd !! "Classes") as [main|]; [|discriminate].
    destruct (place_choices_lists _ _ _ _ _ _ _ Hplace)
      as (acc & full & inv & Ha & _ & _ & Hlen & _).
    simpl in Ha. rewrite Ha, Hnil. simpl. lia. }
  split; [|split; [exact Hset|split; [|split; [|repeat split]]]].
  - intros s classes Hgt. unfold set_classes, MAX_ENROLLMENTS.
    destruct (Nat.ltb_spec 3 (length classes)) as [_|Hle]; [reflexivity | lia].
  - intros uuid' f l e note parents classes m Hp Hc.
    unfold new_Student, new_Person, set_parents, set_classes, MAX_ENROLLMENTS.
    cbn [rbind s_person s_note s_parents s_classes].
    destruct (Nat.ltb_spec 2 (length parents)) as [Hgt|_]; [lia|].
    cbn [rbind].
    destruct (Nat.ltb_spec 3 (length classes)) as [_|Hle]; [reflexivity | lia].
  - intros main st code roster rn found sid cap off rest
      Hb Hs Hr Hz Hscan Hcap Hoff Hacc.
    rewrite (place_choice_roster _ _ _ _ _ _ _ _ _ _ _ _ Hb Hs Hr Hz Hscan Hcap Hoff).
    assert ((if found then true else (occupancy rn off <? cap)%Z) = true) as Hyes.
    { destruct found; [reflexivity|].
      destruct Hacc as [Hf|Hlt]; [discriminate | now apply Z.ltb_lt]. }
    eexists. split; [reflexivity|].
    cbn [foldM rbind].
    rewrite (place_choice_roster _ _ _ _ _ _ _ _ _ _ _ _ Hb Hs Hr Hz Hscan Hcap Hoff).
    cbn [rbind]. split; [|reflexivity].
    destruct found; [reflexivity|]. rewrite Hyes. reflexivity.
  - exact Hnil.
  - exact Hcs.
  - exact Hps.
  - destruct (Hset (ps_student ps) (s_classes (ps_student ps))) as (s' & Hs' & _);
      [lia|]. exists s'. exact Hs'.
Qed.

Lemma limit_kept_by_set_classes_witness :
  (forall s classes,
      (3 < length classes)%nat -> set_classes s classes = Raise ValueError)
  /\ (forall s classes,
        (length classes <= 3)%nat ->
        exists s', set_classes s classes = Ok s'
                   /\ s_classes s' = classes /\ s_person s' = s_person s)
  /\ (forall uuid' f l e note parents classes m,
        (length parents <= 2)%nat -> (3 < length classes)%nat ->
        new_Student uuid' (Some f) (Some l) e note parents classes m
        = Raise ValueError)
  /\ (forall main st code roster rn found sid cap off rest,
        String.eqb (strip code) "" = false ->
        existsb (session_equiv code) (s_classes (ps_student st)) = false ->
        Demo.sheet_data !! code = Some roster ->
        zip_columns roster 1 2 3 6 = Ok rn ->
        scan_roster (Demo.stud_info_of More.first_response) Demo.parent_sheet rn
          (ps_found st, p_id (s_person (ps_student st)))
          = Ok (found, sid) ->
        class_cap_of main code = Ok cap ->
        ps_offsets st !! code = Some off ->
        found = true \/ (occupancy rn off < cap)%Z ->
        exists st1,
          place_choice (Demo.stud_info_of More.first_response) Demo.sheet_data
            Demo.parent_sheet main st code = Ok st1
          /\ s_classes (ps_student st1) = s_classes (ps_student st) ++ [code]
          /\ foldM (place_choice (Demo.stud_info_of More.first_response)
                      Demo.sheet_data Demo.parent_sheet main) (code :: rest) st
             = foldM (place_choice (Demo.stud_info_of More.first_response)
                        Demo.sheet_data Demo.parent_sheet main) rest st1)
  /\ s_classes More.first_student = []
  /\ (length (choices More.first_response) <= 2)%nat
  /\ (length (s_classes (ps_student More.first_placed)) <= 2)%nat
  /\ exists s',
       set_classes (ps_student More.first_placed)
         (s_classes (ps_student More.first_placed)) = Ok s'.
Proof.
  apply (limit_kept_by_set_classes Demo.uuid More.form_sheet More.responses
           More.first_response 0 More.first_student
           (choices More.first_response) 1
           (Demo.stud_info_of More.first_response) Demo.sheet_data
           Demo.parent_sheet Demo.offsets0 More.first_placed).
  - vm_compute. reflexivity.
  - vm_compute. left. reflexivity.
  - vm_compute. reflexivity.
  - vm_compute. reflexivity.
Defined.

(** * A returning student over two runs *)

(** C3. Ann Lee sits on the roster of 11111 as id-ann, with the parent p1,
    Pat Lee. A first run on a response of Pat Lee for Ann Lee that lists
    41111 alone searches that roster only, does not find her and hands one
    row to the batch update, with the identifier it drew. On the sheets that
    run leaves, the search of the roster of 41111 finds her by her names and
    her parent's under that identifier. The second run, on a response that
    lists 11111 and 41111, finds her on the roster of 11111; the roster of
    41111 is then not searched, the choice is accepted with the identifier
    of the first roster and the batch offset of 41111 is left at 0; the
    registry holds her once, as id-ann, with both classes, and the writing
    of the placements adds a second row for her to the roster of 41111,
    where she now stands twice, under two identifiers. *)
Theorem returning_student_row_duplicated :
  More.first_run_requests
  = [("41111"%string,
      [[VInt 1; VStr "fresh-2"; VStr "Ann"; VStr "Lee"; VStr "kid@x.org";
        VStr ""; VStr "p1"]])]
  /\ Demo.names_of Demo.roster_11111
     = [(VStr "UUID", VStr "First Name", VStr "Last Name", VStr "Parent 1 UUID");
        (VStr "id-ann", VStr "Ann", VStr "Lee", VStr "p1")]
  /\ Demo.names_of More.roster_41111_ann
     = [(VStr "UUID", VStr "First Name", VStr "Last Name", VStr "Parent 1 UUID");
        (VStr "fresh-2", VStr "Ann", VStr "Lee", VStr "p1")]
  /\ scan_roster (Demo.stud_info_of More.ann_both) Demo.parent_sheet
       (Demo.names_of More.roster_41111_ann) (false, VStr "later-2")
     = Ok (true, VStr "fresh-2")
  /\ More.registry_after_second
     = Some [(VStr "id-ann", "Ann"%string, "Lee"%string,
              ["11111"%string; "41111"%string])]
  /\ More.offset_after_second "41111" = Some 0%Z
  /\ More.names_after_second "41111"
     = [(VStr "UUID", VStr "First Name", VStr "Last Name", VStr "Parent 1 UUID");
        (VStr "fresh-2", VStr "Ann", VStr "Lee", VStr "p1");
        (VStr "id-ann", VStr "Ann", VStr "Lee", VStr "p1")]
  /\ More.names_after_second "11111" = Demo.names_of Demo.roster_11111.
Proof. repeat split; vm_compute; reflexivity. Qed.
